(** * A shallow embedding of the Cognos client (package cognos)

    The development follows the package file by file:
    - [Go]: the pieces of the Go standard library the package calls
      (byte strings, [strings.Contains], the fixed regular expressions,
      [url.QueryEscape], [url.Values]);
    - [Sem]: the world the client runs in (network, clock, admission
      gate) and the panic/state monad the code is written in;
    - [Jgh]: the retry helper [jgh.Try];
    - [Cognos]: [CognosInstance], the link codec, [Request],
      [findFolderRoots], [LsFolder], [FolderEntryFromPath];
    - [DownloadA], [DownloadB], [DownloadC]: the three revisions of
      [DownloadReportCSV] found in the sources;
    - [Gate]: the interleaving semantics of concurrent [Request] calls;
    - [Expect]: what is observed of a run (retry schedules, polls, where a
      poll's form comes from); [Stated]: the properties the specification
      words differently from the code; [Fixtures]: a small portal to run the
      client against.
    The properties follow the definitions. *)

From Stdlib Require Import ZArith Lia Ascii.
From stdpp Require Import base option list gmap strings sorting.

Local Open Scope Z_scope.

(* ===================================================================== *)
(** ** Go standard library                                                *)
(* ===================================================================== *)

Module Go.

(** Go strings are byte sequences: [string] is a list of [ascii] bytes. *)

Definition byteOf (c : ascii) : Z := Z.of_N (N_of_ascii c).

(** The double quote, the apostrophe and the line feed, by code. *)
Definition dquote : ascii := ascii_of_nat 34.
Definition squote : ascii := ascii_of_nat 39.
Definition newline : ascii := ascii_of_nat 10.

(** [quoted s] is [s] between two double quotes. *)
Definition quoted (s : string) : string :=
  String dquote (s +:+ String dquote EmptyString).

(** [strings.HasPrefix]. *)
Fixpoint HasPrefix (s p : string) : bool :=
  match p, s with
  | EmptyString, _ => true
  | String _ _, EmptyString => false
  | String a p', String b s' => if decide (a = b) then HasPrefix s' p' else false
  end.

(** [strings.Contains]: some suffix of [s] starts with [substr]. *)
Fixpoint Contains (s substr : string) : bool :=
  HasPrefix s substr ||
  match s with
  | EmptyString => false
  | String _ s' => Contains s' substr
  end.

(** The rest of [s] behind the literal [p], when [s] starts with [p]. *)
Fixpoint after (p s : string) : option string :=
  match p, s with
  | EmptyString, _ => Some s
  | String _ _, EmptyString => None
  | String a p', String b s' => if decide (a = b) then after p' s' else None
  end.

(** The longest run of bytes of class [cls] at the head of [s], and the
    rest. *)
Fixpoint span (cls : ascii -> bool) (s : string) : string * string :=
  match s with
  | EmptyString => (EmptyString, EmptyString)
  | String c s' =>
      if cls c then let '(run, rest) := span cls s' in (String c run, rest)
      else (EmptyString, s)
  end.

(** Leftmost search: the regexp engine tries every start position from the
    left and reports the first one where the pattern matches. *)
Fixpoint leftmost {A} (here : string -> option A) (s : string) : option A :=
  match here s with
  | Some r => Some r
  | None =>
      match s with
      | EmptyString => None
      | String _ s' => leftmost here s'
      end
  end.

(** A pattern [pre(C+)suf]: a literal, a captured greedy run of a character
    class, a literal.  In the three patterns of this shape in the package the
    byte that starts [suf] (or ends the text) is outside the class, so the
    greedy run admits no shorter alternative, and every byte of the literals
    is ASCII, so the byte-wise scan agrees with the rune-wise one. *)
Definition delimitedHere (pre : string) (cls : ascii -> bool) (suf : string)
    (s : string) : option string :=
  rest ← after pre s;
  let '(run, tl) := span cls rest in
  match run with
  | EmptyString => None
  | _ => if HasPrefix tl suf then Some run else None
  end.

(** [FindStringSubmatch] for such a pattern: the captured group of the
    leftmost match ([matchParts[1]]), or [None] when [matchParts] is empty. *)
Definition findDelimited (pre : string) (cls : ascii -> bool) (suf : string)
    (s : string) : option string :=
  leftmost (delimitedHere pre cls suf) s.

(** The class [[0-9a-zA-Z-]]. *)
Definition isIDByte (c : ascii) : bool :=
  let b := byteOf c in
  ((48 <=? b) && (b <=? 57)) || ((97 <=? b) && (b <=? 122)) ||
  ((65 <=? b) && (b <=? 90)) || (b =? 45).

(** The class [[^']]. *)
Definition notSQuote (c : ascii) : bool := negb (bool_decide (c = squote)).

(** [utf8.DecodeRuneInString]: the width in bytes of the first rune.  An
    invalid or truncated encoding is one byte wide. *)
Definition isCont (c : ascii) : bool :=
  (128 <=? byteOf c) && (byteOf c <=? 191).

Definition runeWidth (s : string) : nat :=
  match s with
  | EmptyString => 0%nat
  | String c0 r0 =>
      let b0 := byteOf c0 in
      if b0 <? 128 then 1%nat
      else if (b0 <? 194) || (244 <? b0) then 1%nat
      else
        match r0 with
        | EmptyString => 1%nat
        | String c1 r1 =>
            let b1 := byteOf c1 in
            if b0 <? 224 then (if isCont c1 then 2%nat else 1%nat)
            else if b0 <? 240 then
              let lo := if b0 =? 224 then 160 else 128 in
              let hi := if b0 =? 237 then 159 else 191 in
              if (lo <=? b1) && (b1 <=? hi) then
                match r1 with
                | String c2 _ => if isCont c2 then 3%nat else 1%nat
                | EmptyString => 1%nat
                end
              else 1%nat
            else
              let lo := if b0 =? 240 then 144 else 128 in
              let hi := if b0 =? 244 then 143 else 191 in
              if (lo <=? b1) && (b1 <=? hi) then
                match r1 with
                | String c2 (String c3 _) =>
                    if isCont c2 && isCont c3 then 4%nat else 1%nat
                | _ => 1%nat
                end
              else 1%nat
        end
  end.

Fixpoint dropBytes (n : nat) (s : string) : string :=
  match n, s with
  | O, _ => s
  | S n', String _ s' => dropBytes n' s'
  | S _, EmptyString => EmptyString
  end.

(** A key spliced unescaped into a pattern: a dot matches any one rune but
    the line feed, every other byte of the keys the package uses (letters,
    the underscore) matches itself.  The result is the text behind the key. *)
Fixpoint keyHere (key s : string) : option string :=
  match key with
  | EmptyString => Some s
  | String k key' =>
      match s with
      | EmptyString => None
      | String c s' =>
          if decide (k = "."%char) then
            if decide (c = newline) then None
            else keyHere key' (dropBytes (runeWidth s) s)
          else if decide (k = c) then keyHere key' s' else None
      end
  end.

(** The lazy group [(.*?)] followed by a double quote: the text up to the
    first double quote, provided no line feed comes before it.  Both bytes
    are ASCII, so they never occur inside a longer rune and the scan can go
    byte by byte. *)
Fixpoint lazyValue (s : string) : option string :=
  match s with
  | EmptyString => None
  | String c s' =>
      if decide (c = dquote) then Some EmptyString
      else if decide (c = newline) then None
      else String c <$> lazyValue s'
  end.

(** [url.QueryEscape]. *)
Definition unreserved (c : ascii) : bool :=
  let b := byteOf c in
  ((97 <=? b) && (b <=? 122)) || ((65 <=? b) && (b <=? 90)) ||
  ((48 <=? b) && (b <=? 57)) ||
  (b =? 45) || (b =? 95) || (b =? 46) || (b =? 126).

Definition upperhex (d : Z) : ascii :=
  ascii_of_N (Z.to_N (if d <? 10 then 48 + d else 55 + d)).

Fixpoint QueryEscape (s : string) : string :=
  match s with
  | EmptyString => EmptyString
  | String c s' =>
      if unreserved c then String c (QueryEscape s')
      else if decide (c = " "%char) then String "+"%char (QueryEscape s')
      else
        String "%"%char
          (String (upperhex (Z.shiftr (byteOf c) 4))
             (String (upperhex (Z.land (byteOf c) 15)) (QueryEscape s')))
  end.

(** [url.Values] is [map[string][]string]; a declared but unallocated map
    is [nil], here [None]. *)
Definition Values : Type := option (gmap string (list string)).

(** [make(url.Values)]. *)
Definition makeValues : Values := Some ∅.

(** [Values.Set] and [Values.Add]; writing to a nil map is a run-time
    panic, here [None]. *)
Definition Set_ (v : Values) (key value : string) : option Values :=
  m ← v; Some (Some (<[key := [value]]> m)).

Definition Add (v : Values) (key value : string) : option Values :=
  m ← v; Some (Some (<[key := default [] (m !! key) ++ [value]]> m)).

Definition joinAmp (parts : list string) : string :=
  match parts with
  | [] => EmptyString
  | p :: ps => fold_left (fun acc x => acc +:+ "&" +:+ x) ps p
  end.

(** [Values.Encode]: the pairs [key=value], escaped, sorted by key. *)
Definition Encode (v : Values) : string :=
  match v with
  | None => EmptyString
  | Some m =>
      joinAmp
        (flat_map
           (fun k => (fun x => QueryEscape k +:+ "=" +:+ QueryEscape x)
                       <$> default [] (m !! k))
           (merge_sort String.le (fst <$> map_to_list m)))
  end.

(** 64-bit two's complement wrap-around, for [int], [int64] and
    [time.Duration] arithmetic. *)
Definition wrap64 (z : Z) : Z := (z + 2 ^ 63) mod 2 ^ 64 - 2 ^ 63.

End Go.

(* ===================================================================== *)
(** ** The world of a client: network, clock, admission gate              *)
(* ===================================================================== *)

Module Sem.

(** What one HTTP attempt meets: an error from [http.NewRequest] or
    [client.Do] (connection failure, timeout), or a response with its
    [StatusCode], its [Status] line and its body read to the end. *)
Inductive NetOutcome : Type :=
| DoErr (err : string)
| Resp (StatusCode : Z) (Status : string) (Body : string).

(** The observable steps of a run, oldest first in a trace. *)
Inductive event : Type :=
| EvCall (method link reqBody : string)      (* [Request] was entered *)
| EvReturn (respBody : string)               (* [Request] returned this body *)
| EvAcquire                                  (* a slot of the gate was taken *)
| EvRelease                                  (* the slot was given back *)
| EvHTTP (method url user pass reqBody : string) (* one attempt on the wire *)
| EvSleep (d : Z).                           (* [time.Sleep], nanoseconds *)

(** [net k] answers the [k]-th attempt made since the start of the run;
    [served] counts the attempts made, [held] the slots of the gate in use. *)
Record World : Type := mkWorld {
  net : nat -> NetOutcome;
  served : nat;
  held : Z;
  trace : list event
}.

Definition emit (e : event) (w : World) : World :=
  mkWorld (net w) (served w) (held w) (trace w ++ [e]).

(** How a Go function call ends: it returns, it panics, it waits for a slot
    that never comes; [OutOfFuel] is the model's own: the loop bound given to
    an unbounded loop was used up. *)
Inductive outcome (A : Type) : Type :=
| Ret (a : A)
| Panic (v : string)
| Blocked
| OutOfFuel.
Arguments Ret {A} a.
Arguments Panic {A} v.
Arguments Blocked {A}.
Arguments OutOfFuel {A}.

Definition M (A : Type) : Type := World -> outcome A * World.

Definition ret {A} (a : A) : M A := fun w => (Ret a, w).
Definition panic {A} (v : string) : M A := fun w => (Panic v, w).

Definition bind {A B} (m : M A) (k : A -> M B) : M B :=
  fun w =>
    match m w with
    | (Ret a, w') => k a w'
    | (Panic v, w') => (Panic v, w')
    | (Blocked, w') => (Blocked, w')
    | (OutOfFuel, w') => (OutOfFuel, w')
    end.

(** A pure computation that may panic. *)
Definition lift {A} (o : outcome A) : M A := fun w => (o, w).

(** [defer cleanup] in front of [body]: [cleanup] runs when [body] returns
    and when it panics. *)
Definition deferring {A} (cleanup : World -> World) (body : M A) : M A :=
  fun w =>
    match body w with
    | (Ret a, w') => (Ret a, cleanup w')
    | (Panic v, w') => (Panic v, cleanup w')
    | (o, w') => (o, w')
    end.

(** [time.Duration(d) * time.Second] for a number of seconds [d]. *)
Definition seconds (d : Z) : Z := Go.wrap64 (Go.wrap64 d * 1000000000).

Definition Sleep (d : Z) : M unit := fun w => (Ret tt, emit (EvSleep d) w).

(** The time slept between each two consecutive attempts of a trace, in
    nanoseconds; a sleep of a non-positive duration returns at once.  [since]
    is the time slept since the last attempt, if there was one. *)
Fixpoint gapsFrom (since : option Z) (tr : list event) : list Z :=
  match tr with
  | [] => []
  | EvHTTP _ _ _ _ _ :: tr' =>
      match since with
      | Some g => g :: gapsFrom (Some 0) tr'
      | None => gapsFrom (Some 0) tr'
      end
  | EvSleep d :: tr' => gapsFrom ((fun g => g + Z.max 0 d) <$> since) tr'
  | _ :: tr' => gapsFrom since tr'
  end.

Definition gaps (tr : list event) : list Z := gapsFrom None tr.

(** The attempts on the wire in a trace, and the [Request] calls. *)
Definition isHTTP (e : event) : bool :=
  match e with EvHTTP _ _ _ _ _ => true | _ => false end.
Definition isCall (e : event) : bool :=
  match e with EvCall _ _ _ => true | _ => false end.
Definition isReturn (e : event) : bool :=
  match e with EvReturn _ => true | _ => false end.
Definition attempts (tr : list event) : list event := List.filter isHTTP tr.
Definition calls (tr : list event) : list event := List.filter isCall tr.
(** Bracket a call with its [EvCall] and, when it returns, its [EvReturn]. *)
Definition observed (method link reqBody : string) (body : M string) : M string :=
  fun w =>
    match body (emit (EvCall method link reqBody) w) with
    | (Ret b, w') => (Ret b, emit (EvReturn b) w')
    | (o, w') => (o, w')
    end.

End Sem.

Notation "'let*' x ':=' m 'in' k" := (Sem.bind m (fun x => k))
  (at level 10, x pattern, m at level 100, k at level 200,
   format "'[v' 'let*'  x  :=  m  'in' '/' k ']'").

(* ===================================================================== *)
(** ** jgh.Try                                                            *)
(* ===================================================================== *)

Module Jgh.
Import Sem.

(** Modelled from the spec: [jgh.Try] of package github.com/9072997/jgh, the
    retry helper, is not among the sources.  The spec gives the transport
    "up to [RetryCount] attempts (first attempt + retries), each separated by
    [RetryDelay] seconds", retried when "the attempt throws a transport-level
    error" or reports failure; the package comment says [Try] is what handles
    the panics, and [LsFolder] calls it with [maxTries = 1] to run a callback
    once and learn whether it panicked.  So: [Try delay maxTries _ _ f] runs
    [f] at most [maxTries] times; a run that returns [true] ends the loop with
    success; a run that returns [false] or panics is a failed try, and is
    followed by a sleep of [delay] seconds when another try remains.  The
    results are the success flag and the value of the last panic.  The
    callback is a closure: [S] is the type of the variables it captures, and
    a run that panics leaves them as they were. *)
Fixpoint tries {S} (delay : Z) (n : nat) (f : S -> M (bool * S))
    (last : option string) (s : S) : M (bool * option string * S) :=
  match n with
  | O => ret (false, last, s)
  | S n' =>
      fun w =>
        let again (last' : option string) (s' : S) : M (bool * option string * S) :=
          match n' with
          | O => ret (false, last', s')
          | S _ => let* _ := Sleep (seconds delay) in tries delay n' f last' s'
          end in
        match f s w with
        | (Ret (true, s'), w') => (Ret (true, None, s'), w')
        | (Ret (false, s'), w') => again None s' w'
        | (Panic v, w') => again (Some v) s w'
        | (Blocked, w') => (Blocked, w')
        | (OutOfFuel, w') => (OutOfFuel, w')
        end
  end.

(** [jgh.Try]: [maxTries] is an [int]; the third and fourth argument only
    steer what is logged. *)
Definition Try {S} (delay maxTries : Z) (printStackTraces : bool) (msg : string)
    (f : S -> M (bool * S)) (s : S) : M (bool * option string * S) :=
  tries delay (Z.to_nat maxTries) f None s.

End Jgh.

(* ===================================================================== *)
(** ** cognos.go                                                          *)
(* ===================================================================== *)

Module Cognos.
Import Sem.

(** [CognosInstance].  [RetryDelay] is a [uint], [RetryCount] an [int];
    [httpLockPool] points to a weighted semaphore, of which the instance
    fixes the size; the slots in use are the world's [held].  The HTTP
    client, its cookie jar and its timeout live behind [net]. *)
Record CognosInstance : Type := mkInstance {
  User : string;
  Pass : string;
  URL : string;
  DSN : string;
  RetryDelay : N;
  RetryCount : Z;
  httpLockPool : Z
}.

Inductive FolderEntryType : Type := Folder | Report.

#[export] Instance FolderEntryType_eq_dec : EqDecision FolderEntryType.
Proof. solve_decision. Defined.

Record FolderEntry : Type := mkEntry {
  Type_ : FolderEntryType;
  ID : string
}.

(** [MakeInstance]: the gate gets [int64(concurentRequests)] slots.  From
    [2^63] on the conversion gives a negative number, and what
    [semaphore.NewWeighted] makes of one is not in its documentation: the
    instance modelled then has a gate that admits no call, where a version
    of the library may refuse to make one at all.  Below [2^63] the size is
    the limit given. *)
Definition MakeInstance (user pass url dsn : string) (retryDelay : N)
    (retryCount : Z) (httpTimeout : N) (concurentRequests : N) : CognosInstance :=
  mkInstance user pass url dsn retryDelay retryCount
    (Go.wrap64 (Z.of_N concurentRequests)).

Definition cgi : string := "/ibmcognos/cgi-bin/cognos.cgi".

Definition loginLink (c : CognosInstance) : string :=
  cgi +:+ "?dsn=" +:+ DSN c +:+ "&CAMNamespace=esp" +:+ "&b_action=xts.run" +:+
  "&m=portal/cc.xts" +:+ "&gohome=".

Definition folderLinkFromID (id : string) : string :=
  cgi +:+ "?b_action=xts.run" +:+ "&m=portal/cc.xts" +:+ "&m_folder=" +:+ id.

(** Pattern [&m_folder=([0-9a-zA-Z-]+)]. *)
Definition folderIDFromLink (link : string) : outcome string :=
  match Go.findDelimited "&m_folder=" Go.isIDByte EmptyString link with
  | Some id => Ret id
  | None => Panic ("Unable to find folder ID from link: " +:+ link)
  end.

Definition reportLinkFromID (id : string) : string :=
  cgi +:+ "?b_action=cognosViewer" +:+ "&ui.action=run" +:+
  "&ui.object=" +:+ Go.QueryEscape id +:+ "&run.outputFormat=CSV" +:+
  "&run.prompt=false".

(** [httpLockPool.Acquire(context.Background(), 1)]: the call takes a slot
    when one is free; with the background context it never gives up, so in a
    run of one caller a full gate holds it for ever. *)
Definition Acquire (c : CognosInstance) : M unit :=
  fun w =>
    if held w + 1 <=? httpLockPool c
    then (Ret tt, mkWorld (net w) (served w) (held w + 1) (trace w ++ [EvAcquire]))
    else (Blocked, w).

(** [httpLockPool.Release(1)]. *)
Definition Release (w : World) : World :=
  mkWorld (net w) (served w) (held w - 1) (trace w ++ [EvRelease]).

(** One attempt on the wire: the request goes to [c.URL+link] with the
    basic-auth credentials of the instance. *)
Definition wire (c : CognosInstance) (method link reqBody : string) : event :=
  EvHTTP method (URL c +:+ link) (User c) (Pass c) reqBody.

(** The callback [Request] hands to [jgh.Try]; it captures [respBody]. *)
Definition attempt (c : CognosInstance) (method link reqBody : string)
    (respBody : string) : M (bool * string) :=
  fun w =>
    let w' := mkWorld (net w) (S (served w)) (held w)
                (trace w ++ [wire c method link reqBody]) in
    match net w (served w) with
    | DoErr err => (Panic err, w')
    | Resp code status body =>
        if code =? 401 then (Ret (false, respBody), w')
        else if negb (code =? 200)
        then (Panic ("Error from Cognos while logging on: " +:+ status), w')
        else (Ret (true, body), w')
    end.

Definition failed (link : string) : string :=
  "Cognos request to " +:+ link +:+ " failed.".

(** [Request]. *)
Definition Request (c : CognosInstance) (method link reqBody : string) : M string :=
  observed method link reqBody
    (let* _ := Acquire c in
     deferring Release
       (let* r := Jgh.Try (Go.wrap64 (Z.of_N (RetryDelay c))) (RetryCount c) true
                    EmptyString (attempt c method link reqBody) EmptyString in
        let '(success, _, respBody) := r in
        if success : bool then ret respBody else panic (failed link))).

(** [findFolderRoots]: the patterns [var g_PS_PFRootId = "([0-9a-zA-Z-]+)";]
    and [var g_PS_MFRootId = "([0-9a-zA-Z-]+)";]. *)
Definition rootPattern (name : string) (html : string) : option string :=
  Go.findDelimited ("var " +:+ name +:+ " = " +:+ String Go.dquote EmptyString)
    Go.isIDByte (String Go.dquote ";") html.

Definition findFolderRoots (c : CognosInstance) : M (string * string) :=
  let* respHTML := Request c "GET" (loginLink c) EmptyString in
  match rootPattern "g_PS_PFRootId" respHTML with
  | None => panic "Unable to find Cognos public root folder ID"
  | Some publicFolderID =>
      match rootPattern "g_PS_MFRootId" respHTML with
      | None => panic ("Unable to find Cognos " +:+ Go.quoted "my folder" +:+ " ID")
      | Some myFolderID => ret (publicFolderID, myFolderID)
      end
  end.

Section Folders.

(** The HTML side of [LsFolder] is the library's: [pageLinks] stands for
    [htmlquery.Parse] and [htmlquery.Find] with the package's query, giving
    the text and the [href] of each anchor found, in document order;
    [uiObject] stands for [url.Parse], [url.ParseQuery] and the first value
    of the parameter [ui.object].  Either may panic. *)
Variable pageLinks : string -> outcome (list (string * string)).
Variable uiObject : string -> outcome string.

(** One anchor of the listing: the two [jgh.Try] calls around [entry]. *)
Definition asFolder (link : string) (entry : FolderEntry) : M (bool * FolderEntry) :=
  let* id := lift (folderIDFromLink link) in
  ret (true, mkEntry Folder id).

Definition asReport (link : string) (entry : FolderEntry) : M (bool * FolderEntry) :=
  let* id := lift (uiObject link) in
  ret (true, mkEntry Report id).

Definition classify (linkText link : string) : M FolderEntry :=
  let* r := Jgh.Try 0 1 false EmptyString (asFolder link) (mkEntry Folder EmptyString) in
  let '(foundID, _, entry) := r in
  let* r' := (if foundID : bool then ret (foundID, entry)
              else let* r2 := Jgh.Try 0 1 false EmptyString (asReport link) entry in
                   let '(found2, _, entry2) := r2 in ret (found2, entry2)) in
  let '(foundID', entry') := r' in
  if foundID' : bool then ret entry'
  else panic ("Can not parse " +:+ linkText +:+ " as a folder or as a report").

Fixpoint collect (elements : list (string * string))
    (entries : gmap string FolderEntry) : M (gmap string FolderEntry) :=
  match elements with
  | [] => ret entries
  | (linkText, link) :: rest =>
      let* entry := classify linkText link in
      collect rest (<[linkText := entry]> entries)
  end.

(** [LsFolder]. *)
Definition LsFolder (c : CognosInstance) (id : string) : M (gmap string FolderEntry) :=
  let* respHTML := Request c "GET" (folderLinkFromID id) EmptyString in
  let* elements := lift (pageLinks respHTML) in
  collect elements ∅.

(** The loop of [FolderEntryFromPath] over [path[1:]]; [n] is [len(path)]
    and [i] the index of the component at the head of [components]. *)
Fixpoint walk (c : CognosInstance) (n : nat) (i : nat) (components : list string)
    (currentEntry : FolderEntry) : M FolderEntry :=
  match components with
  | [] => ret currentEntry
  | pathComponent :: rest =>
      let* entries := LsFolder c (ID currentEntry) in
      match entries !! pathComponent with
      | None => panic ("Could not find folder entry " +:+ pathComponent)
      | Some nextEntry =>
          let isLastComponent := Z.of_nat n - 2 =? Z.of_nat i in
          if bool_decide (Type_ nextEntry = Report) && negb isLastComponent
          then panic (pathComponent +:+ " is a report but it is in the middle of a path")
          else walk c n (S i) rest nextEntry
      end
  end.

(** [FolderEntryFromPath]. *)
Definition FolderEntryFromPath (c : CognosInstance) (path : list string) : M FolderEntry :=
  match path with
  | [] => panic "Cannot get folder entry for empty path"
  | root :: components =>
      let* id :=
        (if decide (root = "public") then
           let* roots := findFolderRoots c in ret (fst roots)
         else if decide (root = "~") then
           let* roots := findFolderRoots c in ret (snd roots)
         else panic ("Invalid root folder " +:+ root)) in
      walk c (length path) 0 components (mkEntry Folder id)
  end.

End Folders.

End Cognos.

(* ===================================================================== *)
(** ** download.go, in its three revisions                                *)
(* ===================================================================== *)

(** What the three revisions share. *)
Module Download.
Import Sem Cognos.

(** The markers searched for in a page. *)
Definition wStr1 : string := Go.quoted "m_sStatus" +:+ ": " +:+ Go.quoted "working".
Definition wStr2 : string := "&quot;m_sStatus&quot;: &quot;stillWorking&quot;".
Definition promptingStr : string := Go.quoted "m_sStatus" +:+ ": " +:+ Go.quoted "prompting".

(** [findJSONValueInPage]: the pattern is a double quote, the key, a double
    quote, a colon, a space, a double quote, the lazy group, a double quote. *)
Definition jsonHere (key s : string) : option string :=
  s1 ← Go.after (String Go.dquote EmptyString) s;
  s2 ← Go.keyHere key s1;
  s3 ← Go.after (String Go.dquote ": " +:+ String Go.dquote EmptyString) s2;
  Go.lazyValue s3.

Definition findJSONValueInPage (html key : string) : outcome string :=
  match Go.leftmost (jsonHere key) html with
  | Some value => Ret value
  | None => Panic ("Could not find JSON value " +:+ key +:+ " in page")
  end.

(** Pattern [var sURL = '([^']+)';]. *)
Definition downloadLink (respHTML : string) : option string :=
  Go.findDelimited ("var sURL = " +:+ String Go.squote EmptyString) Go.notSQuote
    (String Go.squote ";") respHTML.

Definition prompted : string := "the report prompted for additional information".
Definition notUnderstood : string :=
  "Cognos returned a page we could not understand when attempting to run the report".

(** The end of [DownloadReportCSV], the same in every revision: the download
    link is looked for first, the prompting marker second. *)
Definition finish (c : CognosInstance) (respHTML : string) : M string :=
  match downloadLink respHTML with
  | Some downloadUrl => Request c "GET" downloadUrl EmptyString
  | None =>
      if Go.Contains respHTML promptingStr then panic prompted
      else panic notUnderstood
  end.

(** A line [valuesToSend.Set(key, ...)]: the value is a constant or is
    looked up in the page. *)
Inductive source : Type :=
| FromPage (key : string)
| Fixed (value : string).

Definition valueOf (respHTML : string) (src : source) : outcome string :=
  match src with
  | FromPage key => findJSONValueInPage respHTML key
  | Fixed value => Ret value
  end.

Definition nilMap : string := "assignment to entry in nil map".

(** The lines in order; the argument is evaluated before the map is
    written. *)
Fixpoint fill (write : Go.Values -> string -> string -> option Go.Values)
    (respHTML : string) (lines : list (string * source)) (v : Go.Values)
    : outcome Go.Values :=
  match lines with
  | [] => Ret v
  | (key, src) :: rest =>
      match valueOf respHTML src with
      | Ret value =>
          match write v key value with
          | Some v' => fill write respHTML rest v'
          | None => Panic nilMap
          end
      | Panic p => Panic p
      | Blocked => Blocked
      | OutOfFuel => OutOfFuel
      end
  end.

(** The fifteen lines; the revisions differ in the key under which the
    context id is looked up. *)
Definition pollLines (caf : string) : list (string * source) :=
  [ ("b_action", FromPage "b_action");
    ("cv.actionState", FromPage "m_sActionState");
    ("cv.catchLogOnFault", Fixed "true");
    ("cv.id", FromPage "cv.id");
    ("cv.objectPermissions", FromPage "cv.objectPermissions");
    ("cv.responseFormat", Fixed "data");
    ("cv.showFaultPage", Fixed "true");
    ("executionParameters", FromPage "m_sParameters");
    ("m_tracking", FromPage "m_sTracking");
    ("ui.action", Fixed "wait");
    ("ui.cafcontextid", FromPage caf);
    ("ui.conversation", FromPage "m_sConversation");
    ("ui.object", FromPage "ui.object");
    ("ui.objectClass", FromPage "ui.objectClass");
    ("ui.primaryAction", FromPage "ui.primaryAction") ].

(** [time.Sleep(time.Second * time.Duration(c.RetryDelay))]. *)
Definition pause (c : CognosInstance) : M unit :=
  Sleep (seconds (Z.of_N (RetryDelay c))).

Definition outOfFuel {A} : M A := fun w => (OutOfFuel, w).

End Download.

(** src/download.go: the map is declared, not made, and written with [Add];
    the context id is looked up as [m_sCAFContextid]; the poll goes to the
    empty link. *)
Module DownloadA.
Import Sem Cognos Download.

Definition postData (respHTML : string) : outcome string :=
  match fill Go.Add respHTML (pollLines "m_sCAFContextid") None with
  | Ret v => Ret (Go.Encode v)
  | Panic p => Panic p
  | Blocked => Blocked
  | OutOfFuel => OutOfFuel
  end.

Fixpoint loop (c : CognosInstance) (fuel : nat) (respHTML : string) : M string :=
  if Go.Contains respHTML wStr1 then
    match fuel with
    | O => outOfFuel
    | S fuel' =>
        let* _ := pause c in
        let* data := lift (postData respHTML) in
        let* respHTML' := Request c "POST" EmptyString data in
        loop c fuel' respHTML'
    end
  else ret respHTML.

(** Up to the end of the loop. *)
Definition run (c : CognosInstance) (id : string) (fuel : nat) : M string :=
  let* respHTML := Request c "GET" (reportLinkFromID id) EmptyString in
  loop c fuel respHTML.

Definition DownloadReportCSV (c : CognosInstance) (id : string) (fuel : nat) : M string :=
  let* respHTML := run c id fuel in
  finish c respHTML.

End DownloadA.

(** The revision with the map made, written with [Set], rebuilt in every
    turn of the loop. *)
Module DownloadB.
Import Sem Cognos Download.

Definition postData (respHTML : string) : outcome string :=
  match fill Go.Set_ respHTML (pollLines "m_sCAFContext") Go.makeValues with
  | Ret v => Ret (Go.Encode v)
  | Panic p => Panic p
  | Blocked => Blocked
  | OutOfFuel => OutOfFuel
  end.

Fixpoint loop (c : CognosInstance) (fuel : nat) (respHTML : string) : M string :=
  if Go.Contains respHTML wStr1 then
    match fuel with
    | O => outOfFuel
    | S fuel' =>
        let* _ := pause c in
        let* data := lift (postData respHTML) in
        let* respHTML' := Request c "POST" cgi data in
        loop c fuel' respHTML'
    end
  else ret respHTML.

Definition run (c : CognosInstance) (id : string) (fuel : nat) : M string :=
  let* respHTML := Request c "GET" (reportLinkFromID id) EmptyString in
  loop c fuel respHTML.

Definition DownloadReportCSV (c : CognosInstance) (id : string) (fuel : nat) : M string :=
  let* respHTML := run c id fuel in
  finish c respHTML.

End DownloadB.

(** The revision that builds the form once, before the loop, and waits on
    either marker. *)
Module DownloadC.
Import Sem Cognos Download.

Definition postData (respHTML : string) : outcome string := DownloadB.postData respHTML.

Fixpoint wait (c : CognosInstance) (data : string) (fuel : nat) (respHTML : string)
    : M string :=
  if Go.Contains respHTML wStr1 || Go.Contains respHTML wStr2 then
    match fuel with
    | O => outOfFuel
    | S fuel' =>
        let* _ := pause c in
        let* respHTML' := Request c "POST" cgi data in
        wait c data fuel' respHTML'
    end
  else ret respHTML.

Definition run (c : CognosInstance) (id : string) (fuel : nat) : M string :=
  let* respHTML := Request c "GET" (reportLinkFromID id) EmptyString in
  if Go.Contains respHTML wStr1 then
    let* data := lift (postData respHTML) in
    wait c data fuel respHTML
  else ret respHTML.

Definition DownloadReportCSV (c : CognosInstance) (id : string) (fuel : nat) : M string :=
  let* respHTML := run c id fuel in
  finish c respHTML.

End DownloadC.

(* ===================================================================== *)
(** ** Concurrent callers of [Request]                                    *)
(* ===================================================================== *)

(** Many goroutines share one instance, hence one gate and one world.  A
    caller is outside [Request], or in it at one of two places: at the call
    of [Acquire], or past it, with [Release] deferred, somewhere in
    [jgh.Try].  A step is one caller doing the next thing [Request] does to
    what is shared, with the function [Request] itself is made of: entering
    the call, [Acquire] returning, an [attempt], a [Sleep], the deferred
    [Release].  A caller for whom [Acquire] does not return has no step: it
    waits. *)
Module Gate.
Import Sem Cognos.

Inductive phase : Type :=
| Outside        (* not in [Request] *)
| AtAcquire      (* in [Request], waiting for a slot *)
| Holding.       (* between [Acquire] and [Release] *)

#[export] Instance phase_eq_dec : EqDecision phase.
Proof. solve_decision. Defined.

Record state : Type := mkState {
  world : World;            (* what the callers share *)
  callers : list phase
}.

Inductive label : Type :=
| Spawn                                          (* one more goroutine *)
| Enter (t : nat) (method link reqBody : string) (* caller [t] calls [Request] *)
| Take (t : nat)                                 (* [Acquire] returns to caller [t] *)
| Attempt (t : nat)                              (* caller [t] makes an attempt *)
| Pause (t : nat)                                (* caller [t] sleeps between two tries *)
| Leave (t : nat) (returns : option string).     (* caller [t] leaves [Request] *)

Definition move (t : nat) (p : phase) (w : World) (s : state) : state :=
  mkState w (<[t := p]> (callers s)).

(** The way out of [Request]: the deferred [Release], and on a return the
    [EvReturn] of [observed]. *)
Definition leaves (returns : option string) (w : World) : World :=
  match returns with
  | Some respBody => emit (EvReturn respBody) (Release w)
  | None => Release w
  end.

Inductive step (c : CognosInstance) : state -> label -> state -> Prop :=
| step_spawn s :
    step c s Spawn (mkState (world s) (callers s ++ [Outside]))
| step_enter s t method link reqBody :
    callers s !! t = Some Outside ->
    step c s (Enter t method link reqBody)
      (move t AtAcquire (emit (EvCall method link reqBody) (world s)) s)
| step_take s t w' :
    callers s !! t = Some AtAcquire ->
    Acquire c (world s) = (Ret tt, w') ->
    step c s (Take t) (move t Holding w' s)
| step_attempt s t method link reqBody respBody o w' :
    callers s !! t = Some Holding ->
    attempt c method link reqBody respBody (world s) = (o, w') ->
    step c s (Attempt t) (move t Holding w' s)
| step_pause s t d w' :
    callers s !! t = Some Holding ->
    Sleep d (world s) = (Ret tt, w') ->
    step c s (Pause t) (move t Holding w' s)
| step_leave s t returns :
    callers s !! t = Some Holding ->
    step c s (Leave t returns) (move t Outside (leaves returns (world s)) s).

(** A schedule: the steps taken, in order. *)
Inductive run (c : CognosInstance) : state -> list label -> state -> Prop :=
| run_nil s : run c s [] s
| run_step s l s' ls s'' : step c s l s' -> run c s' ls s'' -> run c s (l :: ls) s''.

(** The start: no caller yet, in a world [w0]. *)
Definition init (w0 : World) : state := mkState w0 [].

(** The states some schedule of some number of callers leads to. *)
Definition reachable (c : CognosInstance) (w0 : World) (s : state) : Prop :=
  exists ls, run c (init w0) ls s.

(** The calls between slot-acquire and slot-release. *)
Definition isHolding (p : phase) : bool :=
  match p with Holding => true | _ => false end.

Definition inFlight (s : state) : nat :=
  length (List.filter isHolding (callers s)).

(** The slots in use are the callers past [Acquire], and while there is such
    a caller they fit the size of the gate. *)
Definition ok (c : CognosInstance) (s : state) : Prop :=
  held (world s) = Z.of_nat (inFlight s) /\
  (inFlight s = O \/ held (world s) <= httpLockPool c).

(** The steps of caller [t] between its [Take] and its [Leave]. *)
Definition onWireOf (t : nat) (l : label) : Prop :=
  match l with
  | Attempt t' | Pause t' => t' = t
  | _ => False
  end.

End Gate.

(* ===================================================================== *)
(** ** What is observed of a run                                          *)
(* ===================================================================== *)

Module Expect.
Import Sem Cognos Download.

(** The sleep [jgh.Try] takes between two tries of [Request]. *)
Definition backoff (c : CognosInstance) : event :=
  EvSleep (seconds (Go.wrap64 (Z.of_N (RetryDelay c)))).

(** [j] attempts, a sleep between each two. *)
Fixpoint retries (e pause : event) (j : nat) : list event :=
  match j with
  | O => []
  | S j' => pause :: e :: retries e pause j'
  end.

Definition schedule (e pause : event) (j : nat) : list event :=
  match j with
  | O => []
  | S j' => e :: retries e pause j'
  end.

(** Among the answers [net k], [net (k+1)], ..., [n] of them, the first
    with status 200: how many answers come before it, and its body. *)
Fixpoint firstOK (net : nat -> NetOutcome) (k n : nat) : option (nat * string) :=
  match n with
  | O => None
  | S n' =>
      let next := (fun r : nat * string => (S (fst r), snd r)) <$> firstOK net (S k) n' in
      match net k with
      | Resp code _ body => if code =? 200 then Some (O, body) else next
      | DoErr _ => next
      end
  end.

(** Every attempt still to come is answered with status 401. *)
Definition always401 (w : World) : Prop :=
  forall k, (served w <= k)%nat -> exists status body, net w k = Resp 401 status body.

(** Events that are neither a call of [Request] nor its return. *)
Definition quiet (e : event) : Prop := isCall e || isReturn e = false.

(** Events between [Acquire] and [Release]: attempts and sleeps. *)
Definition onWire (e : event) : Prop :=
  match e with EvHTTP _ _ _ _ _ | EvSleep _ => True | _ => False end.

(** The poll requests in a trace. *)
Definition isPoll (e : event) : bool :=
  match e with
  | EvCall method _ _ => String.eqb method "POST"
  | _ => false
  end.
Definition polls (tr : list event) : list event := List.filter isPoll tr.

(** What a run adds to the trace of the world it starts in. *)
Definition added (w w' : World) : list event := drop (length (trace w)) (trace w').

(** Where the form of a poll comes from.  A poll, the call [EvCall "POST" _
    data], is built from the page [src] when [build] of that page is [data];
    along a trace the page is kept up to date by [upd]. *)
Definition pollBuiltFrom (build : string -> outcome string) (src : option string)
    (e : event) : Prop :=
  match e with
  | EvCall method _ data =>
      method = "POST" -> exists page, src = Some page /\ build page = Ret data
  | _ => True
  end.

Fixpoint monitored (upd : option string -> event -> option string)
    (build : string -> outcome string) (src : option string) (tr : list event) : Prop :=
  match tr with
  | [] => True
  | e :: tr' => pollBuiltFrom build src e /\ monitored upd build (upd src e) tr'
  end.

Definition after (upd : option string -> event -> option string)
    (src : option string) (tr : list event) : option string :=
  fold_left upd tr src.

(** The page is the body [Request] returned last. *)
Definition latestStep (latest : option string) (e : event) : option string :=
  match e with
  | EvReturn b => Some b
  | _ => latest
  end.

(** The page is the body [Request] returned first, the answer to the
    submit. *)
Definition firstStep (first : option string) (e : event) : option string :=
  match e with
  | EvReturn b => match first with Some r => Some r | None => Some b end
  | _ => first
  end.

(** Every poll carries the form built from the body returned just before
    it. *)
Definition builtFromLatest (build : string -> outcome string) : option string -> list event -> Prop :=
  monitored latestStep build.

(** Every poll carries the form built from the first body returned. *)
Definition builtFromFirst (build : string -> outcome string) : option string -> list event -> Prop :=
  monitored firstStep build.

(** A computation only adds to the trace. *)
Definition grows {A} (m : M A) : Prop :=
  forall w, exists evs, trace (m w).2 = trace w ++ evs.

(** [body] holds the assignment [var sURL = 'u';] with [u] not empty and
    free of apostrophes. *)
Definition assignsURL (body u : string) : Prop :=
  u <> EmptyString /\ Go.Contains u (String Go.squote EmptyString) = false /\
  exists pre post,
    body = pre +:+ ("var sURL = " +:+ String Go.squote EmptyString) +:+ u +:+
           String Go.squote ";" +:+ post.

End Expect.

(** The properties the specification words differently from the code, as
    worded. *)
Module Stated.
Import Sem Cognos Download Expect.

(** A status other than 200 and 401 ends the call at once: it panics after
    that one attempt. *)
Definition FatalStatus : Prop :=
  forall c method link reqBody w code status body,
    held w + 1 <= httpLockPool c ->
    1 <= RetryCount c ->
    net w (served w) = Resp code status body ->
    code <> 200 -> code <> 401 ->
    exists v w',
      Request c method link reqBody w = (Panic v, w') /\ served w' = S (served w).

(** Each poll is built from the response just before it, in the revision
    that waits on either marker. *)
Definition PollsFromPrecedingResponse : Prop :=
  forall c id fuel w,
    builtFromLatest DownloadC.postData None
      (added w (DownloadC.DownloadReportCSV c id fuel w).2).

(** A first response with the working flag in either encoding leads to a
    poll. *)
Definition EitherMarkerPolls : Prop :=
  forall c id fuel w body w1,
    Request c "GET" (reportLinkFromID id) EmptyString w = (Ret body, w1) ->
    Go.Contains body wStr1 || Go.Contains body wStr2 = true ->
    polls (added w1 (DownloadC.DownloadReportCSV c id (S fuel) w).2) <> [].

(** A last response with the prompting marker ends the run with the
    prompting panic and nothing more. *)
Definition PromptingAlwaysFails : Prop :=
  forall c id fuel w body w',
    DownloadC.run c id fuel w = (Ret body, w') ->
    Go.Contains body promptingStr = true ->
    DownloadC.DownloadReportCSV c id fuel w = (Panic prompted, w').



End Stated.

(** A small portal to run the client against. *)
Module Fixtures.
Import Sem Cognos Download.

(** The network answers 200 with the bodies of [answers], in order, and
    refuses the connection after that. *)
Definition script (answers : list string) : nat -> NetOutcome :=
  fun k => match answers !! k with
           | Some body => Resp 200 "200 OK" body
           | None => DoErr "connection refused"
           end.

(** The server that answers every attempt with the same page. *)
Definition steady (page : string) : nat -> NetOutcome := fun _ => Resp 200 "200 OK" page.

(** A first answer 500, then 200. *)
Definition flaky : nat -> NetOutcome :=
  fun k => match k with
           | O => Resp 500 "500 Internal Server Error" EmptyString
           | _ => Resp 200 "200 OK" "body"
           end.

Definition demo : CognosInstance :=
  MakeInstance "user" "pass" "https://host" "dsn" 5 3 30 4.

Definition fresh (answers : list string) : World := mkWorld (script answers) 0 0 [].

Definition loginPage : string :=
  "var g_PS_PFRootId = " +:+ Go.quoted "pf-1" +:+
  "; var g_PS_MFRootId = " +:+ Go.quoted "mf-2" +:+ ";".

(** The anchors of the two folder pages of the portal. *)
Definition demoLinks (html : string) : outcome (list (string * string)) :=
  if Go.Contains html "ROOT" then
    Ret [("A", folderLinkFromID "a-1"); ("R", cgi +:+ "?ui.object=rep-7")]
  else if Go.Contains html "FOLDER-A" then Ret [("C", folderLinkFromID "c-3")]
  else Ret [].

Definition demoObject (link : string) : outcome string :=
  match Go.findDelimited "ui.object=" Go.isIDByte EmptyString link with
  | Some id => Ret id
  | None => Panic "index out of range"
  end.

(** A page of a running report: the status and the eleven fields of the
    form, marked with [tag]. *)
Definition field (k v : string) : string := Go.quoted k +:+ ": " +:+ Go.quoted v +:+ ", ".

Definition page (status tag : string) : string :=
  "<script>{" +:+ field "m_sStatus" status +:+ field "b_action" "cognosViewer" +:+
  field "m_sActionState" ("state" +:+ tag) +:+ field "cv.id" "_NS_" +:+
  field "cv.objectPermissions" "read execute" +:+ field "m_sParameters" "<p/>" +:+
  field "m_sTracking" ("track" +:+ tag) +:+ field "m_sCAFContext" "caf" +:+
  field "m_sConversation" ("conv" +:+ tag) +:+ field "ui.object" "rep-7" +:+
  field "ui.objectClass" "report" +:+ field "ui.primaryAction" "run" +:+ "}</script>".

Definition linkPage : string := "var sURL = '/dl?id=7';".

(** The form built from [page "working" "0"] and from [page "working" "1"]. *)
Definition form0 : string :=
  Eval vm_compute in
    match DownloadC.postData (page "working" "0") with Ret d => d | _ => EmptyString end.
Definition form1 : string :=
  Eval vm_compute in
    match DownloadC.postData (page "working" "1") with Ret d => d | _ => EmptyString end.

End Fixtures.

(* ===================================================================== *)
(** ** The rest of cognos.go: report ids from paths                       *)
(* ===================================================================== *)

Module Paths.
Import Sem Cognos.

(** Every byte of [s] is of class [cls]. *)
Fixpoint allBytes (cls : ascii -> bool) (s : string) : bool :=
  match s with
  | EmptyString => true
  | String a s' => cls a && allBytes cls s'
  end.

(** How often the byte [c] occurs in [s]. *)
Fixpoint countByte (c : ascii) (s : string) : nat :=
  match s with
  | EmptyString => O
  | String a s' => (if decide (a = c) then 1 else 0) + countByte c s'
  end.

(** The first byte of [s], if any, is outside [cls]. *)
Definition stopsAt (cls : ascii -> bool) (s : string) : Prop :=
  match s with
  | EmptyString => True
  | String a _ => cls a = false
  end.

(** The bytes [url.QueryEscape] writes: the unreserved ones, the plus sign
    and the percent sign. *)
Definition escaped (a : ascii) : bool :=
  Go.unreserved a || (Go.byteOf a =? 43) || (Go.byteOf a =? 37).

(** The value of an upper-case hexadecimal digit, and the byte two of them
    stand for. *)
Definition hexValue (a : ascii) : Z :=
  let b := Go.byteOf a in if b <? 58 then b - 48 else b - 55.
Definition unhex (h l : ascii) : ascii :=
  ascii_of_N (Z.to_N (16 * hexValue h + hexValue l)).

(** The bytes [cognosEscape] refuses: the double quote, the apostrophe, the
    colon and the backslash. *)
Definition illegal (a : ascii) : bool :=
  let b := Go.byteOf a in (b =? 34) || (b =? 39) || (b =? 58) || (b =? 92).

(** [strings.ContainsAny(s, chars)] for the four ASCII bytes above: with
    ASCII [chars] the search goes byte by byte. *)
Definition ContainsAnyIllegal (s : string) : bool := negb (allBytes (fun a => negb (illegal a)) s).

(** [cognosEscape]. *)
Definition cognosEscape (s : string) : outcome string :=
  if ContainsAnyIllegal s then Panic ("The value " +:+ s +:+ " contains an illegal charicter")
  else Ret s.

Definition folderStep (name : string) : string :=
  "/folder[@name='" +:+ name +:+ "']".
Definition reportStep (name : string) : string :=
  "/report[@name='" +:+ name +:+ "']".

(** The loop over [folderNames] and the last line of [reportIDFromPath]:
    [names] is [path[1:]], its last element the report. *)
Fixpoint steps (id : string) (names : list string) : outcome string :=
  match names with
  | [] => Ret id
  | [reportName] =>
      match cognosEscape reportName with
      | Ret r => Ret (id +:+ reportStep r)
      | o => o
      end
  | folderName :: rest =>
      match cognosEscape folderName with
      | Ret f => steps (id +:+ folderStep f) rest
      | o => o
      end
  end.

(** The text [steps] appends for a list of names. *)
Fixpoint render (names : list string) : string :=
  match names with
  | [] => EmptyString
  | [reportName] => reportStep reportName
  | folderName :: rest => folderStep folderName +:+ render rest
  end.

(** A name [cognosEscape] lets through. *)
Definition legal (s : string) : Prop := ContainsAnyIllegal s = false.

Definition tooShort : string :=
  "A report path must contain at least a user (or " +:+ Go.quoted "public" +:+
  ") and a report name".

(** [reportIDFromPath]. *)
Definition reportIDFromPath (path : list string) : outcome string :=
  match path with
  | [] | [_] => Panic tooShort
  | user :: names =>
      if decide (user = "public") then steps "/content" names
      else
        match cognosEscape user with
        | Ret u => steps (("CAMID(" +:+ Go.quoted ("esp:a:" +:+ u)) +:+ ")") names
        | o => o
        end
  end.

(** A page holds the assignment [var name = "v";] of a root id. *)
Definition assignsRoot (html name v : string) : Prop :=
  v <> EmptyString /\ allBytes Go.isIDByte v = true /\
  exists pre post,
    html = pre +:+ ("var " +:+ name +:+ " = " +:+ String Go.dquote EmptyString) +:+ v +:+
           String Go.dquote ";" +:+ post.

Section Resolve.

Variable pageLinks : string -> outcome (list (string * string)).
Variable uiObject : string -> outcome string.
Variable c : CognosInstance.

(** What it is for a list of names to lead from one entry of the portal to
    another: each name is found in the listing of the entry reached so far,
    and only the last name may be that of a report. *)
Inductive leads : World -> FolderEntry -> list string -> FolderEntry -> World -> Prop :=
| leads_here w e : leads w e [] e w
| leads_on w e name rest entries w1 next e' w' :
    LsFolder pageLinks uiObject c (ID e) w = (Ret entries, w1) ->
    entries !! name = Some next ->
    (Type_ next = Report -> rest = []) ->
    leads w1 next rest e' w' ->
    leads w e (name :: rest) e' w'.

(** How an anchor sorts: a folder link, else a report link. *)
Definition sorts (link : string) (e : FolderEntry) : Prop :=
  (Type_ e = Folder /\ folderIDFromLink link = Ret (ID e)) \/
  (Type_ e = Report /\ (exists p, folderIDFromLink link = Panic p) /\ uiObject link = Ret (ID e)).

(** An anchor that sorts as one or the other. *)
Definition sortable (link : string) : Prop :=
  (exists id, folderIDFromLink link = Ret id) \/ (exists id, uiObject link = Ret id).

End Resolve.

End Paths.

(* ===================================================================== *)
(** ** Pages: what the patterns of download.go read                       *)
(* ===================================================================== *)

Module Pages.
Import Sem Cognos Download.

(** A byte the lazy group of [findJSONValueInPage] runs over before the
    closing double quote: anything but a double quote or a line feed. *)
Definition isValueByte (a : ascii) : bool :=
  negb (Ascii.eqb a Go.dquote) && negb (Ascii.eqb a Go.newline).

(** A letter, a digit or the underscore: a byte that stands for itself when
    a key is spliced into the pattern. *)
Definition isKeyByte (a : ascii) : bool :=
  let b := Go.byteOf a in
  ((97 <=? b) && (b <=? 122)) || ((65 <=? b) && (b <=? 90)) ||
  ((48 <=? b) && (b <=? 57)) || (b =? 95).

(** The page holds the text ["key": "v"]. *)
Definition holdsField (html key v : string) : Prop :=
  exists pre post, html = pre +:+ Go.quoted key +:+ ": " +:+ Go.quoted v +:+ post.

(** The keys looked up in the page by the lines of a form, in order. *)
Definition fromPage (lines : list (string * source)) : list string :=
  flat_map (fun l => match snd l with FromPage key => [key] | Fixed _ => [] end) lines.

(** Every poll of a trace comes right after the sleep [pause]: [prev] is
    the event before the trace. *)
Fixpoint pausedFrom (pause : event) (prev : option event) (tr : list event) : Prop :=
  match tr with
  | [] => True
  | e :: tr' =>
      (Expect.isPoll e = true -> prev = Some pause) /\ pausedFrom pause (Some e) tr'
  end.

End Pages.

(* ===================================================================== *)
(** * Properties                                                          *)
(* ===================================================================== *)

Import Sem Cognos Download Expect Stated Fixtures.

(** ** The transport: [jgh.Try] around [attempt] *)

Section Transport.

Variable c : CognosInstance.
Variables method link reqBody : string.

Let delay : Z := Go.wrap64 (Z.of_N (RetryDelay c)).
Let e : event := wire c method link reqBody.

Lemma tries_char n : forall last s w,
  match firstOK (net w) (served w) n with
  | Some (k, body) =>
      Jgh.tries delay n (attempt c method link reqBody) last s w =
      (Ret (true, None, body),
       mkWorld (net w) (served w + S k) (held w)
         (trace w ++ schedule e (backoff c) (S k)))
  | None =>
      exists last',
      Jgh.tries delay n (attempt c method link reqBody) last s w =
      (Ret (false, last', s),
       mkWorld (net w) (served w + n) (held w)
         (trace w ++ schedule e (backoff c) n))
  end.
Proof.
  induction n as [|n IH]; intros last s w.
  - simpl. exists last. unfold ret. destruct w; simpl.
    rewrite Nat.add_0_r, app_nil_r. reflexivity.
  - cbn [firstOK].
    set (w1 := mkWorld (net w) (S (served w)) (held w) (trace w ++ [e])).
    set (again := fun last1 : option string =>
           match n with
           | O => ret (false, last1, s)
           | S _ => let* _ := Sleep (seconds delay) in
                    Jgh.tries delay n (attempt c method link reqBody) last1 s
           end).
    assert (Hnext : forall last1,
      match (fun r : nat * string => (S (fst r), snd r)) <$> firstOK (net w) (S (served w)) n with
      | Some (k, body) =>
          again last1 w1 =
          (Ret (true, None, body),
           mkWorld (net w) (served w + S k) (held w)
             (trace w ++ schedule e (backoff c) (S k)))
      | None =>
          exists last',
          again last1 w1 =
          (Ret (false, last', s),
           mkWorld (net w) (served w + S n) (held w)
             (trace w ++ schedule e (backoff c) (S n)))
      end).
    { intros last1. subst again w1. destruct n as [|n'].
      - simpl. exists last1. unfold ret. do 2 f_equal. lia.
      - specialize (IH last1 s (emit (backoff c)
          (mkWorld (net w) (S (served w)) (held w) (trace w ++ [e])))).
        unfold bind, Sleep. unfold backoff, emit in *. cbn [net served held trace] in *.
        fold delay in IH |- *.
        destruct (firstOK (net w) (S (served w)) (S n')) as [[k body]|] eqn:E;
          cbn [fmap option_fmap option_map fst snd].
        + rewrite IH. do 2 f_equal; [lia|].
          rewrite <- !app_assoc. reflexivity.
        + destruct IH as [last' IH]. exists last'.
          rewrite IH. do 2 f_equal; [lia|].
          rewrite <- !app_assoc. reflexivity. }
    cbn [Jgh.tries]. fold again.
    destruct (attempt c method link reqBody s w) as [o w'] eqn:Hatt.
    unfold attempt in Hatt. fold e in Hatt. fold w1 in Hatt.
    destruct (net w (served w)) as [err|code status body].
    + injection Hatt as <- <-. apply Hnext.
    + destruct (code =? 401) eqn:E401.
      * assert ((code =? 200) = false) as -> by lia.
        injection Hatt as <- <-. apply Hnext.
      * destruct (code =? 200) eqn:E200; cbn [negb] in Hatt; injection Hatt as <- <-.
        -- subst w1. do 2 f_equal. lia.
        -- apply Hnext.
Qed.

(** [Request] with a free slot: it returns the body of the first try that
    gets a 200, or panics when each of its [RetryCount] tries fails. *)
Lemma Request_char w :
  held w + 1 <= httpLockPool c ->
  Request c method link reqBody w =
  match firstOK (net w) (served w) (Z.to_nat (RetryCount c)) with
  | Some (k, body) =>
      (Ret body,
       mkWorld (net w) (served w + S k) (held w)
         (trace w ++ EvCall method link reqBody :: EvAcquire ::
            schedule e (backoff c) (S k) ++ [EvRelease; EvReturn body]))
  | None =>
      (Panic (failed link),
       mkWorld (net w) (served w + Z.to_nat (RetryCount c)) (held w)
         (trace w ++ EvCall method link reqBody :: EvAcquire ::
            schedule e (backoff c) (Z.to_nat (RetryCount c)) ++ [EvRelease]))
  end.
Proof.
  intros Hfree.
  unfold Request, observed, bind at 1, Acquire, emit. cbn [net served held trace].
  destruct (held w + 1 <=? httpLockPool c) eqn:E; [|lia].
  unfold deferring, bind, Jgh.Try.
  pose proof (tries_char (Z.to_nat (RetryCount c)) None EmptyString
    (mkWorld (net w) (served w) (held w + 1)
       ((trace w ++ [EvCall method link reqBody]) ++ [EvAcquire]))) as H.
  cbn [net served held trace] in H. fold delay.
  destruct (firstOK (net w) (served w) (Z.to_nat (RetryCount c))) as [[k body]|].
  - rewrite H. unfold ret, Release, emit. cbn [net served held trace].
    do 2 f_equal; [lia|]. rewrite <- !app_assoc. cbn [app]. reflexivity.
  - destruct H as [last' H]. rewrite H. unfold panic, Release. cbn [net served held trace].
    do 2 f_equal; [lia|]. rewrite <- !app_assoc. reflexivity.
Qed.

(** [Request] with the gate full. *)
Lemma Request_blocked w :
  httpLockPool c < held w + 1 ->
  Request c method link reqBody w = (Blocked, emit (EvCall method link reqBody) w).
Proof.
  intros Hfull.
  unfold Request, observed, bind at 1, Acquire, emit. cbn [net served held trace].
  destruct (held w + 1 <=? httpLockPool c) eqn:E; [lia|]. reflexivity.
Qed.

End Transport.

Lemma firstOK_401 net n : forall k,
  (forall j, (k <= j)%nat -> exists status body, net j = Resp 401 status body) ->
  firstOK net k n = None.
Proof.
  induction n as [|n IH]; intros k H; [reflexivity|].
  cbn [firstOK]. destruct (H k (Nat.le_refl k)) as (status & body & ->).
  cbn. rewrite IH; [reflexivity|]. intros j Hj. apply H. lia.
Qed.

Lemma attempts_app tr1 tr2 : attempts (tr1 ++ tr2) = attempts tr1 ++ attempts tr2.
Proof. unfold attempts. apply List.filter_app. Qed.

Lemma attempts_retries c method link reqBody j :
  length (attempts (retries (wire c method link reqBody) (backoff c) j)) = j.
Proof. induction j as [|j IH]; [reflexivity|]. cbn. f_equal. exact IH. Qed.

Lemma attempts_schedule c method link reqBody j :
  length (attempts (schedule (wire c method link reqBody) (backoff c) j)) = j.
Proof. destruct j as [|j]; [reflexivity|]. cbn. f_equal. apply attempts_retries. Qed.

Lemma onWire_schedule c method link reqBody j :
  Forall onWire (schedule (wire c method link reqBody) (backoff c) j).
Proof.
  destruct j as [|j]; [constructor|]. cbn. constructor; [exact I|].
  induction j as [|j IH]; [constructor|]. cbn. repeat constructor. exact IH.
Qed.

(** The time between the attempts of a retry schedule. *)
Lemma gapsFrom_quiet_tail tr tail : forall since,
  Forall (fun e => isHTTP e = false) tail ->
  gapsFrom since (tr ++ tail) = gapsFrom since tr.
Proof.
  intros since Htail. revert since.
  induction tr as [|e tr IH]; intros since; cbn [app].
  - induction Htail as [|e tail He _ IH] in since |- *; [reflexivity|].
    destruct e; cbn [gapsFrom]; try apply IH. discriminate He.
  - destruct e; cbn [gapsFrom]; try apply IH.
    destruct since; [f_equal|]; apply IH.
Qed.

Lemma gaps_schedule c method link reqBody j :
  gapsFrom None (schedule (wire c method link reqBody) (backoff c) j) =
  replicate (j - 1) (Z.max 0 (seconds (Go.wrap64 (Z.of_N (RetryDelay c))))).
Proof.
  destruct j as [|j]; [reflexivity|]. cbn [schedule]. unfold wire at 1. cbn [gapsFrom].
  replace (S j - 1)%nat with j by lia.
  induction j as [|j IH]; [reflexivity|].
  cbn [retries replicate]. unfold backoff at 1, wire at 1. cbn [gapsFrom fmap option_fmap option_map].
  f_equal. exact IH.
Qed.

(** For delays up to 292 years the sleep between two tries is [RetryDelay]
    seconds to the nanosecond. *)
Lemma backoff_is_RetryDelay c :
  (RetryDelay c < 9223372036)%N ->
  backoff c = EvSleep (Z.of_N (RetryDelay c) * 1000000000).
Proof.
  intros H. unfold backoff, seconds. f_equal.
  assert (Hw : forall z, - 2 ^ 63 <= z < 2 ^ 63 -> Go.wrap64 z = z).
  { intros z Hz. unfold Go.wrap64. rewrite Z.mod_small by lia. lia. }
  rewrite (Hw (Z.of_N (RetryDelay c))) by lia.
  rewrite (Hw (Z.of_N (RetryDelay c))) by lia.
  apply Hw. lia.
Qed.

(** [C1] A call of [Request] with a free slot whose attempts are all answered
    with status 401 panics with the message that names the link.  By then it
    has made [RetryCount] attempts in all, the first one included (not
    [RetryCount] more after the first), with the sleep of [RetryDelay]
    seconds between each two ([gaps]), and it has given its slot back. *)
Theorem Request_all_401 c method link reqBody w :
  held w + 1 <= httpLockPool c ->
  always401 w ->
  exists w',
    Request c method link reqBody w = (Panic (failed link), w') /\
    trace w' =
      trace w ++ EvCall method link reqBody :: EvAcquire ::
        schedule (wire c method link reqBody) (backoff c) (Z.to_nat (RetryCount c)) ++
        [EvRelease] /\
    length (attempts (trace w')) =
      (length (attempts (trace w)) + Z.to_nat (RetryCount c))%nat /\
    gaps (added w w') =
      replicate (Z.to_nat (RetryCount c) - 1)
        (Z.max 0 (seconds (Go.wrap64 (Z.of_N (RetryDelay c))))).
Proof.
  intros Hfree H401. rewrite Request_char by exact Hfree.
  rewrite firstOK_401 by exact H401.
  eexists. split; [reflexivity|]. cbn [trace]. split; [reflexivity|]. split.
  - rewrite attempts_app. cbn. rewrite attempts_app, length_app, length_app.
    rewrite attempts_schedule. cbn. lia.
  - unfold added. cbn [trace]. rewrite drop_app_length. unfold gaps. cbn [gapsFrom].
    rewrite gapsFrom_quiet_tail by (repeat constructor). apply gaps_schedule.
Qed.

(** With [RetryCount] 2 and [RetryDelay] 5 the call makes two attempts, five
    seconds apart, and no third one. *)
Lemma Request_all_401_witness :
  let c := MakeInstance "user" "pass" "https://host" "dsn" 5 2 30 4 in
  let w := mkWorld (fun _ => Resp 401 "401 Unauthorized" EmptyString) 0 0 [] in
  (held w + 1 <= httpLockPool c /\ always401 w) /\
  exists w',
    Request c "GET" "/x" EmptyString w = (Panic "Cognos request to /x failed.", w') /\
    trace w' =
      [EvCall "GET" "/x" EmptyString; EvAcquire;
       EvHTTP "GET" "https://host/x" "user" "pass" EmptyString;
       EvSleep 5000000000;
       EvHTTP "GET" "https://host/x" "user" "pass" EmptyString;
       EvRelease] /\
    length (attempts (trace w')) = 2%nat /\
    gaps (added w w') = [5000000000].
Proof.
  intros c w.
  assert (Hfree : held w + 1 <= httpLockPool c) by (vm_compute; discriminate).
  assert (H401 : always401 w) by (intros k _; eexists _, _; reflexivity).
  split; [split; assumption|].
  exact (Request_all_401 c "GET" "/x" EmptyString w Hfree H401).
Defined.

(** [C6] An attempt answered with a status other than 200 and 401 is a
    failed try, as one answered 401 is: the call goes on with the tries it
    has left.  It returns the body of the first later try that gets a 200,
    and it panics, with the message naming the link, only when all its
    [RetryCount] tries have failed. *)
Theorem other_status_is_a_failed_try c method link reqBody w code status body :
  held w + 1 <= httpLockPool c ->
  (1 <= Z.to_nat (RetryCount c))%nat ->
  net w (served w) = Resp code status body ->
  code <> 200 -> code <> 401 ->
  Request c method link reqBody w =
  match firstOK (net w) (S (served w)) (Z.to_nat (RetryCount c) - 1) with
  | Some (k, body') =>
      (Ret body',
       mkWorld (net w) (served w + S (S k)) (held w)
         (trace w ++ EvCall method link reqBody :: EvAcquire ::
            schedule (wire c method link reqBody) (backoff c) (S (S k)) ++
            [EvRelease; EvReturn body']))
  | None =>
      (Panic (failed link),
       mkWorld (net w) (served w + Z.to_nat (RetryCount c)) (held w)
         (trace w ++ EvCall method link reqBody :: EvAcquire ::
            schedule (wire c method link reqBody) (backoff c) (Z.to_nat (RetryCount c)) ++
            [EvRelease]))
  end.
Proof.
  intros Hfree Hn Hnet H200 H401. rewrite Request_char by exact Hfree.
  destruct (Z.to_nat (RetryCount c)) as [|n]; [lia|].
  cbn [firstOK]. rewrite Hnet.
  assert ((code =? 200) = false) as -> by lia.
  replace (S n - 1)%nat with n by lia.
  destruct (firstOK (net w) (S (served w)) n) as [[k body']|]; reflexivity.
Qed.

Lemma other_status_is_a_failed_try_witness :
  let c := MakeInstance "user" "pass" "https://host" "dsn" 5 3 30 4 in
  let w := mkWorld flaky 0 0 [] in
  (held w + 1 <= httpLockPool c /\ (1 <= Z.to_nat (RetryCount c))%nat /\
   net w (served w) = Resp 500 "500 Internal Server Error" EmptyString /\
   500 <> 200 /\ 500 <> 401) /\
  Request c "GET" "/x" EmptyString w =
    (Ret "body",
     mkWorld flaky 2 0
       [EvCall "GET" "/x" EmptyString; EvAcquire;
        EvHTTP "GET" "https://host/x" "user" "pass" EmptyString;
        EvSleep 5000000000;
        EvHTTP "GET" "https://host/x" "user" "pass" EmptyString;
        EvRelease; EvReturn "body"]).
Proof.
  intros c w.
  assert (Hfree : held w + 1 <= httpLockPool c) by (vm_compute; discriminate).
  assert (Hn : (1 <= Z.to_nat (RetryCount c))%nat) by (vm_compute; lia).
  assert (Hnet : net w (served w) = Resp 500 "500 Internal Server Error" EmptyString)
    by reflexivity.
  assert (H200 : 500 <> 200) by discriminate.
  assert (H401 : 500 <> 401) by discriminate.
  split; [repeat split; assumption|].
  exact (other_status_is_a_failed_try c "GET" "/x" EmptyString w 500
           "500 Internal Server Error" EmptyString Hfree Hn Hnet H200 H401).
Defined.

(** A first answer 500 and a second answer 200: the call makes a second
    attempt and returns. *)
Lemma FatalStatus_refuted : ~ FatalStatus.
Proof.
  intros H.
  destruct (H (MakeInstance "user" "pass" "https://host" "dsn" 5 3 30 4)
              "GET" "/x" EmptyString (mkWorld flaky 0 0 []) 500
              "500 Internal Server Error" EmptyString) as (v & w' & Heq & _).
  - vm_compute. discriminate.
  - vm_compute. discriminate.
  - reflexivity.
  - discriminate.
  - discriminate.
  - vm_compute in Heq. discriminate Heq.
Qed.

(** ** The admission gate *)

Lemma holding_insert (l : list Gate.phase) : forall (t : nat) (p q : Gate.phase),
  l !! t = Some q ->
  (length (List.filter Gate.isHolding (<[t := p]> l)) + (if Gate.isHolding q then 1 else 0) =
   length (List.filter Gate.isHolding l) + (if Gate.isHolding p then 1 else 0))%nat.
Proof.
  induction l as [|x l IH]; intros t p q Hq; [discriminate|].
  destruct t as [|t]; cbn in Hq |- *.
  - injection Hq as ->. destruct p, q; cbn; lia.
  - specialize (IH t p q Hq).
    destruct x; cbn; first [exact IH | f_equal; exact IH].
Qed.

Lemma wrap64_le (z : Z) : 0 <= z -> Go.wrap64 z <= z.
Proof.
  intros Hz. unfold Go.wrap64.
  pose proof (Z.mod_le (z + 2 ^ 63) (2 ^ 64)). lia.
Qed.

(** What [Acquire] does when it returns, and when it does not. *)
Lemma Acquire_Ret c w w' :
  Acquire c w = (Ret tt, w') ->
  held w + 1 <= httpLockPool c /\ held w' = held w + 1.
Proof.
  unfold Acquire. destruct (held w + 1 <=? httpLockPool c) eqn:E; [|discriminate].
  intros H. injection H as <-. cbn [held]. split; [lia|reflexivity].
Qed.

Lemma Acquire_full c w : httpLockPool c <= held w -> Acquire c w = (Blocked, w).
Proof.
  intros H. unfold Acquire. destruct (held w + 1 <=? httpLockPool c) eqn:E; [lia|reflexivity].
Qed.

Lemma attempt_world c method link reqBody respBody w o w' :
  attempt c method link reqBody respBody w = (o, w') ->
  w' = mkWorld (net w) (S (served w)) (held w) (trace w ++ [wire c method link reqBody]).
Proof.
  unfold attempt. destruct (net w (served w)) as [err|code status body].
  - intros H. injection H as _ <-. reflexivity.
  - destruct (code =? 401); [intros H; injection H as _ <-; reflexivity|].
    destruct (negb (code =? 200)); intros H; injection H as _ <-; reflexivity.
Qed.

(** Every step keeps the count of the gate right. *)
Lemma step_ok c s l s' : Gate.ok c s -> Gate.step c s l s' -> Gate.ok c s'.
Proof.
  intros [Hheld Hfit] Hstep. unfold Gate.ok, Gate.inFlight in *.
  destruct Hstep as [s|s t method link reqBody Ht|s t w' Ht Hacq
                    |s t method link reqBody respBody o w' Ht Hatt|s t d w' Ht Hsleep
                    |s t returns Ht];
    cbn [Gate.world Gate.callers Gate.move].
  - rewrite List.filter_app, length_app. cbn. split; [lia|].
    destruct Hfit as [Hz|Hle]; [left|right]; lia.
  - pose proof (holding_insert _ t Gate.AtAcquire _ Ht) as E. cbn in E. unfold emit. cbn [held].
    split; [lia|]. destruct Hfit as [Hz|Hle]; [left|right]; lia.
  - pose proof (holding_insert _ t Gate.Holding _ Ht) as E. cbn in E.
    destruct (Acquire_Ret c _ _ Hacq) as [Hroom ->]. split; [lia|]. right. lia.
  - pose proof (holding_insert _ t Gate.Holding _ Ht) as E. cbn in E.
    rewrite (attempt_world _ _ _ _ _ _ _ _ Hatt). cbn [held].
    split; [lia|]. destruct Hfit as [Hz|Hle]; [left|right]; lia.
  - pose proof (holding_insert _ t Gate.Holding _ Ht) as E. cbn in E.
    unfold Sleep in Hsleep. injection Hsleep as <-. unfold emit. cbn [held].
    split; [lia|]. destruct Hfit as [Hz|Hle]; [left|right]; lia.
  - pose proof (holding_insert _ t Gate.Outside _ Ht) as E. cbn in E.
    assert (Hrel : held (Gate.leaves returns (Gate.world s)) = held (Gate.world s) - 1)
      by (destruct returns; reflexivity).
    rewrite Hrel. split; [lia|]. right. destruct Hfit as [Hz|Hle]; lia.
Qed.

Lemma run_ok c s ls s' : Gate.run c s ls s' -> Gate.ok c s -> Gate.ok c s'.
Proof.
  induction 1 as [s|s l s1 ls s2 Hstep _ IH]; intros Hok; [exact Hok|].
  apply IH. exact (step_ok c s l s1 Hok Hstep).
Qed.

Lemma reachable_ok c w0 s : held w0 = 0 -> Gate.reachable c w0 s -> Gate.ok c s.
Proof.
  intros Hw0 [ls Hrun]. apply (run_ok c _ _ _ Hrun).
  split; [exact Hw0|left; reflexivity].
Qed.

Lemma run_app c s ls1 s1 : Gate.run c s ls1 s1 ->
  forall ls2 s2, Gate.run c s1 ls2 s2 -> Gate.run c s (ls1 ++ ls2) s2.
Proof.
  induction 1 as [s|s l s' ls s'' Hstep _ IH]; intros ls2 s2 H2; [exact H2|].
  cbn [app]. econstructor; [exact Hstep|apply IH; exact H2].
Qed.

(** The tries of one caller, as steps: an attempt, then a sleep and an
    attempt for each further try. *)
Lemma retries_run c method link reqBody j : forall w,
  exists ls, Forall (Gate.onWireOf 0) ls /\
    Gate.run c (Gate.mkState w [Gate.Holding]) ls
      (Gate.mkState
         (mkWorld (net w) (served w + j) (held w)
            (trace w ++ retries (wire c method link reqBody) (backoff c) j))
         [Gate.Holding]).
Proof.
  induction j as [|j IH]; intros w.
  - exists []. split; [constructor|].
    replace (mkWorld (net w) (served w + 0) (held w) (trace w ++ retries _ _ 0)) with w;
      [constructor|].
    destruct w; cbn. rewrite Nat.add_0_r, app_nil_r. reflexivity.
  - set (w1 := emit (backoff c) w).
    set (w2 := mkWorld (net w1) (S (served w1)) (held w1)
                 (trace w1 ++ [wire c method link reqBody])).
    destruct (IH w2) as (ls & Hls & Hrun).
    exists (Gate.Pause 0 :: Gate.Attempt 0 :: ls). split.
    { constructor; [reflexivity|]. constructor; [reflexivity|exact Hls]. }
    eapply Gate.run_step.
    { apply (Gate.step_pause c (Gate.mkState w [Gate.Holding]) 0
               (seconds (Go.wrap64 (Z.of_N (RetryDelay c)))) w1); reflexivity. }
    destruct (attempt c method link reqBody EmptyString w1) as [o w2'] eqn:Hatt.
    pose proof (attempt_world _ _ _ _ _ _ _ _ Hatt) as Hw2. fold w2 in Hw2. subst w2'.
    eapply Gate.run_step.
    { apply (Gate.step_attempt c (Gate.mkState w1 [Gate.Holding]) 0
               method link reqBody EmptyString o w2); [reflexivity|exact Hatt]. }
    cbn [Gate.move Gate.callers]. cbn [insert list_insert].
    replace (mkWorld (net w) (served w + S j) (held w)
               (trace w ++ retries (wire c method link reqBody) (backoff c) (S j)))
      with (mkWorld (net w2) (served w2 + j) (held w2)
              (trace w2 ++ retries (wire c method link reqBody) (backoff c) j));
      [exact Hrun|].
    subst w2 w1. unfold emit. cbn [net served held trace retries].
    f_equal; [lia|]. rewrite <- !app_assoc. reflexivity.
Qed.

Lemma schedule_run c method link reqBody j : forall w,
  exists ls, Forall (Gate.onWireOf 0) ls /\
    Gate.run c (Gate.mkState w [Gate.Holding]) ls
      (Gate.mkState
         (mkWorld (net w) (served w + j) (held w)
            (trace w ++ schedule (wire c method link reqBody) (backoff c) j))
         [Gate.Holding]).
Proof.
  intros w. destruct j as [|j].
  - exists []. split; [constructor|].
    replace (mkWorld (net w) (served w + 0) (held w) (trace w ++ schedule _ _ 0)) with w;
      [constructor|].
    destruct w; cbn. rewrite Nat.add_0_r, app_nil_r. reflexivity.
  - set (w1 := mkWorld (net w) (S (served w)) (held w)
                 (trace w ++ [wire c method link reqBody])).
    destruct (retries_run c method link reqBody j w1) as (ls & Hls & Hrun).
    exists (Gate.Attempt 0 :: ls). split; [constructor; [reflexivity|exact Hls]|].
    destruct (attempt c method link reqBody EmptyString w) as [o w1'] eqn:Hatt.
    pose proof (attempt_world _ _ _ _ _ _ _ _ Hatt) as Hw1. fold w1 in Hw1. subst w1'.
    eapply Gate.run_step.
    { apply (Gate.step_attempt c (Gate.mkState w [Gate.Holding]) 0
               method link reqBody EmptyString o w1); [reflexivity|exact Hatt]. }
    cbn [Gate.move Gate.callers]. cbn [insert list_insert].
    replace (mkWorld (net w) (served w + S j) (held w)
               (trace w ++ schedule (wire c method link reqBody) (backoff c) (S j)))
      with (mkWorld (net w1) (served w1 + j) (held w1)
              (trace w1 ++ retries (wire c method link reqBody) (backoff c) j));
      [exact Hrun|].
    subst w1. cbn [net served held trace schedule].
    f_equal; [lia|]. rewrite <- !app_assoc. reflexivity.
Qed.

(** A call of [Request] is a schedule of one caller: it enters, and there it
    waits when [Acquire] does not return; else it takes its slot, makes its
    tries, and leaves through [Release]. *)
Lemma Request_run c method link reqBody w o w' :
  Request c method link reqBody w = (o, w') ->
  (o = Blocked /\
   Gate.run c (Gate.mkState w [Gate.Outside]) [Gate.Enter 0 method link reqBody]
     (Gate.mkState w' [Gate.AtAcquire]) /\
   forall s', ~ Gate.step c (Gate.mkState w' [Gate.AtAcquire]) (Gate.Take 0) s') \/
  (exists wires,
     Forall (Gate.onWireOf 0) wires /\
     Gate.run c (Gate.mkState w [Gate.Outside])
       (Gate.Enter 0 method link reqBody :: Gate.Take 0 :: wires ++
        [Gate.Leave 0 (match o with Ret respBody => Some respBody | _ => None end)])
       (Gate.mkState w' [Gate.Outside])).
Proof.
  intros H.
  assert (Henter : Gate.step c (Gate.mkState w [Gate.Outside]) (Gate.Enter 0 method link reqBody)
            (Gate.mkState (emit (EvCall method link reqBody) w) [Gate.AtAcquire])).
  { apply (Gate.step_enter c (Gate.mkState w [Gate.Outside]) 0). reflexivity. }
  destruct (Z.le_gt_cases (held w + 1) (httpLockPool c)) as [Hfree|Hfull].
  - right.
    set (w1 := mkWorld (net w) (served w) (held w + 1)
                 ((trace w ++ [EvCall method link reqBody]) ++ [EvAcquire])).
    assert (Htake : Gate.step c (Gate.mkState (emit (EvCall method link reqBody) w) [Gate.AtAcquire])
              (Gate.Take 0) (Gate.mkState w1 [Gate.Holding])).
    { apply (Gate.step_take c (Gate.mkState (emit (EvCall method link reqBody) w)
                                 [Gate.AtAcquire]) 0 w1); [reflexivity|].
      unfold Acquire, emit. cbn [held net served trace Gate.world].
      destruct (held w + 1 <=? httpLockPool c) eqn:E; [reflexivity|lia]. }
    assert (Hgo : forall j returns,
      w' = Gate.leaves returns
             (mkWorld (net w1) (served w1 + j) (held w1)
                (trace w1 ++ schedule (wire c method link reqBody) (backoff c) j)) ->
      exists wires, Forall (Gate.onWireOf 0) wires /\
        Gate.run c (Gate.mkState w [Gate.Outside])
          (Gate.Enter 0 method link reqBody :: Gate.Take 0 :: wires ++ [Gate.Leave 0 returns])
          (Gate.mkState w' [Gate.Outside])).
    { intros j returns ->.
      destruct (schedule_run c method link reqBody j w1) as (wires & Hwires & Hrun).
      exists wires. split; [exact Hwires|].
      eapply Gate.run_step; [exact Henter|]. eapply Gate.run_step; [exact Htake|].
      eapply run_app; [exact Hrun|].
      eapply Gate.run_step; [|constructor].
      match goal with |- Gate.step _ ?s _ _ =>
        exact (Gate.step_leave c s 0 returns eq_refl) end. }
    rewrite Request_char in H by exact Hfree.
    destruct (firstOK (net w) (served w) (Z.to_nat (RetryCount c))) as [[k body]|];
      injection H as <- <-.
    + apply (Hgo (S k) (Some body)). subst w1. unfold Gate.leaves, Release, emit.
      cbn [net served held trace]. f_equal; [lia|].
      rewrite <- !app_assoc. cbn [app]. reflexivity.
    + apply (Hgo (Z.to_nat (RetryCount c)) None). subst w1. unfold Gate.leaves, Release.
      cbn [net served held trace]. f_equal; [lia|].
      rewrite <- !app_assoc. cbn [app]. reflexivity.
  - left. rewrite Request_blocked in H by lia. injection H as <- <-.
    split; [reflexivity|]. split; [eapply Gate.run_step; [exact Henter|constructor]|].
    intros s' Hstep. inversion Hstep as [| |s t w2 Ht Hacq| | |]; subst.
    cbn [Gate.world] in Hacq. rewrite Acquire_full in Hacq by (unfold emit; cbn [held]; lia).
    discriminate Hacq.
Qed.

(** [Request] brackets its attempts: what it adds to the trace. *)
Lemma Request_brackets c method link reqBody w :
  match Request c method link reqBody w with
  | (Blocked, w') =>
      trace w' = trace w ++ [EvCall method link reqBody] /\ held w' = held w
  | (OutOfFuel, _) => False
  | (_, w') =>
      exists mid tail,
        trace w' =
          trace w ++ EvCall method link reqBody :: EvAcquire :: mid ++ EvRelease :: tail /\
        Forall onWire mid /\ attempts tail = [] /\ held w' = held w
  end.
Proof.
  destruct (Z.le_gt_cases (held w + 1) (httpLockPool c)) as [Hfree|Hfull].
  - rewrite Request_char by exact Hfree.
    destruct (firstOK _ _ _) as [[k body]|].
    + eexists _, [EvReturn body]. split; [reflexivity|].
      split; [apply onWire_schedule|]. split; reflexivity.
    + eexists _, []. split; [reflexivity|].
      split; [apply onWire_schedule|]. split; reflexivity.
  - rewrite Request_blocked by lia. split; reflexivity.
Qed.

(** [C5] For every concurrency limit [N] given to [MakeInstance], under any
    number of callers and any schedule of the steps [Request] is made of, at
    most [N] calls of [Request] are between slot-acquire and slot-release,
    and they are the slots the gate counts in use.  With [N] calls there,
    [Acquire] returns to no caller, and one more call of [Request] waits
    without an attempt.  Every call of [Request] is such a schedule of one
    caller: it enters and waits, or it takes its slot, makes its attempts
    and sleeps, and leaves through the deferred [Release].  So a call takes
    its slot before its first attempt; all its attempts lie between the
    acquire and the release; the release is made when the call returns and
    when it panics, and leaves the gate as the call found it. *)
Theorem gate_bounds_requests (N : N) user pass url dsn retryDelay retryCount httpTimeout :
  let c := MakeInstance user pass url dsn retryDelay retryCount httpTimeout N in
  (forall w0 s, held w0 = 0 -> Gate.reachable c w0 s ->
     Z.of_nat (Gate.inFlight s) <= Z.of_N N /\
     held (Gate.world s) = Z.of_nat (Gate.inFlight s)) /\
  (forall w0 s, held w0 = 0 -> Gate.reachable c w0 s ->
     Z.of_nat (Gate.inFlight s) = Z.of_N N ->
     (forall t s', ~ Gate.step c s (Gate.Take t) s') /\
     (forall method link reqBody,
        Request c method link reqBody (Gate.world s) =
          (Blocked, emit (EvCall method link reqBody) (Gate.world s)))) /\
  (forall method link reqBody w o w',
     Request c method link reqBody w = (o, w') ->
     (o = Blocked /\
      Gate.run c (Gate.mkState w [Gate.Outside]) [Gate.Enter 0 method link reqBody]
        (Gate.mkState w' [Gate.AtAcquire]) /\
      forall s', ~ Gate.step c (Gate.mkState w' [Gate.AtAcquire]) (Gate.Take 0) s') \/
     (exists wires,
        Forall (Gate.onWireOf 0) wires /\
        Gate.run c (Gate.mkState w [Gate.Outside])
          (Gate.Enter 0 method link reqBody :: Gate.Take 0 :: wires ++
           [Gate.Leave 0 (match o with Ret respBody => Some respBody | _ => None end)])
          (Gate.mkState w' [Gate.Outside]))) /\
  (forall method link reqBody w,
     match Request c method link reqBody w with
     | (Blocked, w') =>
         trace w' = trace w ++ [EvCall method link reqBody] /\ held w' = held w
     | (OutOfFuel, _) => False
     | (_, w') =>
         exists mid tail,
           trace w' =
             trace w ++ EvCall method link reqBody :: EvAcquire :: mid ++ EvRelease :: tail /\
           Forall onWire mid /\ attempts tail = [] /\ held w' = held w
     end).
Proof.
  intros c.
  assert (Hsize : httpLockPool c <= Z.of_N N) by (apply wrap64_le; lia).
  split; [|split; [|split]].
  - intros w0 s Hw0 Hs. destruct (reachable_ok c w0 s Hw0 Hs) as [Hheld Hfit].
    split; [|exact Hheld]. destruct Hfit as [Hz|Hle]; lia.
  - intros w0 s Hw0 Hs Hfull. destruct (reachable_ok c w0 s Hw0 Hs) as [Hheld _].
    assert (Hpool : httpLockPool c <= held (Gate.world s)) by lia.
    split.
    + intros t s' Hstep. inversion Hstep as [| |s1 t1 w' Ht Hacq| | |]; subst.
      rewrite Acquire_full in Hacq by exact Hpool. discriminate Hacq.
    + intros method link reqBody. apply Request_blocked. lia.
  - intros method link reqBody w o w'. apply Request_run.
  - intros method link reqBody w. apply Request_brackets.
Qed.

(** Two callers and a gate of one slot: once the first holds the slot, the
    second waits. *)
Lemma gate_bounds_requests_witness :
  let c := MakeInstance "user" "pass" "https://host" "dsn" 5 3 30 1 in
  let w0 := fresh ["a"] in
  let s := Gate.mkState
             (mkWorld (script ["a"]) 0 1
                [EvCall "GET" "/x" EmptyString; EvCall "GET" "/y" EmptyString; EvAcquire])
             [Gate.Holding; Gate.AtAcquire] in
  (held w0 = 0 /\ Gate.reachable c w0 s /\ Z.of_nat (Gate.inFlight s) = Z.of_N 1) /\
  (forall t s', ~ Gate.step c s (Gate.Take t) s') /\
  (forall method link reqBody,
     Request c method link reqBody (Gate.world s) =
       (Blocked, emit (EvCall method link reqBody) (Gate.world s))).
Proof.
  intros c w0 s.
  assert (Hw0 : held w0 = 0) by reflexivity.
  assert (Hs : Gate.reachable c w0 s).
  { exists [Gate.Spawn; Gate.Spawn; Gate.Enter 0 "GET" "/x" EmptyString;
            Gate.Enter 1 "GET" "/y" EmptyString; Gate.Take 0].
    eapply Gate.run_step; [apply Gate.step_spawn|].
    eapply Gate.run_step; [apply Gate.step_spawn|].
    eapply Gate.run_step; [apply Gate.step_enter; reflexivity|].
    eapply Gate.run_step; [apply Gate.step_enter; reflexivity|].
    eapply Gate.run_step; [|apply Gate.run_nil].
    match goal with |- Gate.step _ ?s0 _ _ =>
      exact (Gate.step_take c s0 0 (Gate.world s) eq_refl eq_refl) end. }
  assert (Hfull : Z.of_nat (Gate.inFlight s) = Z.of_N 1) by reflexivity.
  split; [repeat split; assumption|].
  exact (proj1 (proj2 (gate_bounds_requests 1 "user" "pass" "https://host" "dsn" 5 3 30))
           w0 s Hw0 Hs Hfull).
Defined.

(** ** The calls a run makes *)

Lemma calls_app tr1 tr2 : calls (tr1 ++ tr2) = calls tr1 ++ calls tr2.
Proof. unfold calls. apply List.filter_app. Qed.

Lemma calls_schedule c method link reqBody j :
  calls (schedule (wire c method link reqBody) (backoff c) j) = [].
Proof.
  destruct j as [|j]; [reflexivity|]. cbn.
  induction j as [|j IH]; [reflexivity|]. cbn. exact IH.
Qed.

Lemma calls_bracket method link reqBody mid tail :
  calls (EvCall method link reqBody :: EvAcquire :: mid ++ tail) =
  EvCall method link reqBody :: calls mid ++ calls tail.
Proof. unfold calls. cbn. f_equal. apply List.filter_app. Qed.

(** A call of [Request] is one more call in the trace, whatever comes of
    it. *)
Lemma Request_calls c method link reqBody w :
  calls (trace (Request c method link reqBody w).2) =
  calls (trace w) ++ [EvCall method link reqBody].
Proof.
  destruct (Z.le_gt_cases (held w + 1) (httpLockPool c)) as [Hfree|Hfull].
  - rewrite Request_char by exact Hfree.
    destruct (firstOK _ _ _) as [[k body]|]; cbn [snd trace];
      rewrite calls_app, calls_bracket, calls_schedule; reflexivity.
  - rewrite Request_blocked by lia. cbn. rewrite calls_app. reflexivity.
Qed.

Lemma findFolderRoots_calls c w o w' :
  findFolderRoots c w = (o, w') ->
  calls (trace w') = calls (trace w) ++ [EvCall "GET" (loginLink c) EmptyString].
Proof.
  unfold findFolderRoots, bind. intros H.
  pose proof (Request_calls c "GET" (loginLink c) EmptyString w) as Hc.
  destruct (Request c "GET" (loginLink c) EmptyString w) as [[html| | |] w1];
    cbn [snd] in Hc.
  - destruct (rootPattern "g_PS_PFRootId" html);
      [destruct (rootPattern "g_PS_MFRootId" html)|];
      injection H as <- <-; exact Hc.
  - injection H as <- <-; exact Hc.
  - injection H as <- <-; exact Hc.
  - injection H as <- <-; exact Hc.
Qed.

Section FolderFacts.

Variable pageLinks : string -> outcome (list (string * string)).
Variable uiObject : string -> outcome string.

(** Sorting the anchors of a page touches nothing outside. *)
Lemma classify_pure linkText link w :
  (classify uiObject linkText link w).2 = w.
Proof.
  unfold classify, bind, Jgh.Try, asFolder, asReport, lift, ret, panic.
  cbn [Z.to_nat Pos.to_nat Pos.iter_op Jgh.tries].
  unfold bind, ret.
  destruct (folderIDFromLink link); cbn; try reflexivity.
  destruct (uiObject link); reflexivity.
Qed.

Lemma collect_pure elements : forall entries w,
  (collect uiObject elements entries w).2 = w.
Proof.
  induction elements as [|[linkText link] rest IH]; intros entries w; [reflexivity|].
  cbn [collect]. unfold bind at 1.
  pose proof (classify_pure linkText link w) as Hc.
  destruct (classify uiObject linkText link w) as [[entry| | |] w1]; cbn [snd] in Hc; subst w1;
    [apply IH|reflexivity..].
Qed.

Lemma LsFolder_calls c id w o w' :
  LsFolder pageLinks uiObject c id w = (o, w') ->
  calls (trace w') = calls (trace w) ++ [EvCall "GET" (folderLinkFromID id) EmptyString].
Proof.
  unfold LsFolder, bind at 1. intros H.
  pose proof (Request_calls c "GET" (folderLinkFromID id) EmptyString w) as Hc.
  destruct (Request c "GET" (folderLinkFromID id) EmptyString w) as [[html| | |] w1];
    cbn [snd] in Hc; try (injection H as <- <-; exact Hc).
  unfold bind, lift in H.
  destruct (pageLinks html) as [elements| | |]; try (injection H as <- <-; exact Hc).
  pose proof (collect_pure elements ∅ w1) as Hp.
  rewrite H in Hp. cbn in Hp. subst w'. exact Hc.
Qed.

(** [C9] For a path [public/A/B], with the roots found and [A] an entry of
    the public root's listing.  If [A] is a folder whose listing has no entry
    [B], [FolderEntryFromPath] panics with the message that [B] could not be
    found; the calls made are the login, the listing of the root and the
    listing of [A], and nothing after it.  If [A] is a report, it panics with
    the message that [A] is a report in the middle of a path, right after the
    listing of the root: [A] is not listed. *)
Theorem FolderEntryFromPath_public_A_B c A B w0 pub my w1 entries w2 a :
  findFolderRoots c w0 = (Ret (pub, my), w1) ->
  LsFolder pageLinks uiObject c pub w1 = (Ret entries, w2) ->
  entries !! A = Some a ->
  (Type_ a = Folder ->
   forall entriesA w3,
     LsFolder pageLinks uiObject c (ID a) w2 = (Ret entriesA, w3) ->
     entriesA !! B = None ->
     FolderEntryFromPath pageLinks uiObject c ["public"; A; B] w0 =
       (Panic ("Could not find folder entry " +:+ B), w3) /\
     calls (trace w3) =
       calls (trace w0) ++
       [EvCall "GET" (loginLink c) EmptyString;
        EvCall "GET" (folderLinkFromID pub) EmptyString;
        EvCall "GET" (folderLinkFromID (ID a)) EmptyString]) /\
  (Type_ a = Report ->
   FolderEntryFromPath pageLinks uiObject c ["public"; A; B] w0 =
     (Panic (A +:+ " is a report but it is in the middle of a path"), w2) /\
   calls (trace w2) =
     calls (trace w0) ++
     [EvCall "GET" (loginLink c) EmptyString;
      EvCall "GET" (folderLinkFromID pub) EmptyString]).
Proof.
  intros Hroots Hls HA.
  assert (Hcalls2 : calls (trace w2) =
            calls (trace w0) ++
            [EvCall "GET" (loginLink c) EmptyString;
             EvCall "GET" (folderLinkFromID pub) EmptyString]).
  { rewrite (LsFolder_calls _ _ _ _ _ Hls), (findFolderRoots_calls _ _ _ _ Hroots).
    rewrite <- app_assoc. reflexivity. }
  assert (Hstart :
            FolderEntryFromPath pageLinks uiObject c ["public"; A; B] w0 =
            walk pageLinks uiObject c 3 0 [A; B] (mkEntry Folder pub) w1).
  { unfold FolderEntryFromPath.
    destruct (decide ("public" = "public")) as [_|Hne]; [|congruence].
    unfold bind at 1. unfold bind at 1. rewrite Hroots. reflexivity. }
  split.
  - intros Hfolder entriesA w3 HlsA HB.
    split.
    + rewrite Hstart. cbn [walk ID]. unfold bind at 1. rewrite Hls, HA.
      rewrite Hfolder. cbn [bool_decide decide_rel andb].
      rewrite bool_decide_eq_false_2 by discriminate. cbn [andb].
      unfold bind at 1. rewrite HlsA, HB. reflexivity.
    + rewrite (LsFolder_calls _ _ _ _ _ HlsA), Hcalls2.
      rewrite <- app_assoc. reflexivity.
  - intros Hreport. split; [|exact Hcalls2].
    rewrite Hstart. cbn [walk ID]. unfold bind at 1. rewrite Hls, HA.
    rewrite Hreport. rewrite bool_decide_eq_true_2 by reflexivity.
    reflexivity.
Qed.

End FolderFacts.

(** On the small portal: [A] is a folder that holds [C] only, [R] is a
    report. *)
Lemma FolderEntryFromPath_public_A_B_witness :
  let w0 := fresh [loginPage; "ROOT"; "FOLDER-A"] in
  let w1 := (findFolderRoots demo w0).2 in
  let w2 := (LsFolder demoLinks demoObject demo "pf-1" w1).2 in
  let w3 := (LsFolder demoLinks demoObject demo "a-1" w2).2 in
  let listing : gmap string FolderEntry :=
    <["R" := mkEntry Report "rep-7"]> (<["A" := mkEntry Folder "a-1"]> ∅) in
  let listingA : gmap string FolderEntry := <["C" := mkEntry Folder "c-3"]> ∅ in
  (findFolderRoots demo w0 = (Ret ("pf-1", "mf-2"), w1) /\
   LsFolder demoLinks demoObject demo "pf-1" w1 = (Ret listing, w2) /\
   listing !! "A" = Some (mkEntry Folder "a-1") /\
   listing !! "R" = Some (mkEntry Report "rep-7") /\
   LsFolder demoLinks demoObject demo "a-1" w2 = (Ret listingA, w3) /\
   listingA !! "B" = None) /\
  (FolderEntryFromPath demoLinks demoObject demo ["public"; "A"; "B"] w0 =
     (Panic "Could not find folder entry B", w3) /\
   calls (trace w3) =
     [EvCall "GET" (loginLink demo) EmptyString;
      EvCall "GET" (folderLinkFromID "pf-1") EmptyString;
      EvCall "GET" (folderLinkFromID "a-1") EmptyString]) /\
  (FolderEntryFromPath demoLinks demoObject demo ["public"; "R"; "B"] w0 =
     (Panic "R is a report but it is in the middle of a path", w2) /\
   calls (trace w2) =
     [EvCall "GET" (loginLink demo) EmptyString;
      EvCall "GET" (folderLinkFromID "pf-1") EmptyString]).
Proof.
  intros w0 w1 w2 w3 listing listingA.
  assert (Hroots : findFolderRoots demo w0 = (Ret ("pf-1", "mf-2"), w1))
    by (vm_compute; reflexivity).
  assert (Hls : LsFolder demoLinks demoObject demo "pf-1" w1 = (Ret listing, w2))
    by (vm_compute; reflexivity).
  assert (HA : listing !! "A" = Some (mkEntry Folder "a-1")) by (vm_compute; reflexivity).
  assert (HR : listing !! "R" = Some (mkEntry Report "rep-7")) by (vm_compute; reflexivity).
  assert (HlsA : LsFolder demoLinks demoObject demo "a-1" w2 = (Ret listingA, w3))
    by (vm_compute; reflexivity).
  assert (HB : listingA !! "B" = None) by (vm_compute; reflexivity).
  split; [repeat split; assumption|].
  split.
  - exact (proj1 (FolderEntryFromPath_public_A_B demoLinks demoObject demo "A" "B"
                    w0 "pf-1" "mf-2" w1 listing w2 (mkEntry Folder "a-1") Hroots Hls HA)
             eq_refl listingA w3 HlsA HB).
  - exact (proj2 (FolderEntryFromPath_public_A_B demoLinks demoObject demo "R" "B"
                    w0 "pf-1" "mf-2" w1 listing w2 (mkEntry Report "rep-7") Hroots Hls HR)
             eq_refl).
Defined.

(** ** Byte strings and the patterns *)

Lemma append_cons (a : ascii) (s t : string) : String a s +:+ t = String a (s +:+ t).
Proof. reflexivity. Qed.

Lemma append_nil (t : string) : EmptyString +:+ t = t.
Proof. reflexivity. Qed.

Lemma after_app (p s : string) : Go.after p (p +:+ s) = Some s.
Proof.
  induction p as [|a p IH]; [destruct s; reflexivity|].
  rewrite append_cons. cbn [Go.after]. rewrite decide_True by reflexivity. exact IH.
Qed.

Lemma after_inv (p : string) : forall s r, Go.after p s = Some r -> s = p +:+ r.
Proof.
  induction p as [|a p IH]; intros s r H.
  - destruct s; cbn in H; injection H as <-; reflexivity.
  - destruct s as [|b s]; cbn [Go.after] in H; [discriminate|].
    destruct (decide (a = b)) as [<-|]; [|discriminate].
    rewrite append_cons. f_equal. apply IH. exact H.
Qed.

Lemma HasPrefix_app (p r : string) : Go.HasPrefix (p +:+ r) p = true.
Proof.
  induction p as [|a p IH]; [destruct r; reflexivity|].
  rewrite append_cons. cbn [Go.HasPrefix]. rewrite decide_True by reflexivity. exact IH.
Qed.

Lemma HasPrefix_inv (p : string) : forall s, Go.HasPrefix s p = true -> exists r, s = p +:+ r.
Proof.
  induction p as [|a p IH]; intros s H.
  - exists s. reflexivity.
  - destruct s as [|b s]; cbn [Go.HasPrefix] in H; [discriminate|].
    destruct (decide (a = b)) as [<-|]; [|discriminate].
    destruct (IH s H) as [r ->]. exists r. reflexivity.
Qed.

(** No byte of [s] is an apostrophe. *)
Lemma no_squote_cons (a : ascii) (s : string) :
  Go.Contains (String a s) (String Go.squote EmptyString) = false <->
  a <> Go.squote /\ Go.Contains s (String Go.squote EmptyString) = false.
Proof.
  cbn [Go.Contains Go.HasPrefix].
  destruct (decide (Go.squote = a)) as [<-|Hne].
  - split; [destruct s; discriminate|intros [H _]; congruence].
  - cbn [orb]. split; [intros H; split; [congruence|exact H]|intros [_ H]; exact H].
Qed.

Lemma span_inv (cls : ascii -> bool) (s : string) : forall run rest,
  Go.span cls s = (run, rest) -> s = run +:+ rest.
Proof.
  induction s as [|a s IH]; intros run rest H; cbn [Go.span] in H.
  - injection H as <- <-. reflexivity.
  - destruct (cls a).
    + destruct (Go.span cls s) as [run' rest'] eqn:E. injection H as <- <-.
      rewrite append_cons. f_equal. apply IH. reflexivity.
    + injection H as <- <-. reflexivity.
Qed.

Lemma span_notSQuote (s : string) : forall run rest,
  Go.span Go.notSQuote s = (run, rest) ->
  Go.Contains run (String Go.squote EmptyString) = false.
Proof.
  induction s as [|a s IH]; intros run rest H; cbn [Go.span] in H.
  - injection H as <- <-. reflexivity.
  - destruct (Go.notSQuote a) eqn:Ha.
    + destruct (Go.span Go.notSQuote s) as [run' rest'] eqn:E. injection H as <- <-.
      apply no_squote_cons. split; [|eapply IH; reflexivity].
      unfold Go.notSQuote in Ha. apply negb_true_iff, bool_decide_eq_false in Ha. exact Ha.
    + injection H as <- <-. reflexivity.
Qed.

(** The run of [[^']] in front of an apostrophe. *)
Lemma span_upto_squote (u : string) : forall rest,
  Go.Contains u (String Go.squote EmptyString) = false ->
  Go.span Go.notSQuote (u +:+ String Go.squote rest) = (u, String Go.squote rest).
Proof.
  induction u as [|a u IH]; intros rest H.
  - rewrite append_nil. cbn [Go.span]. unfold Go.notSQuote.
    rewrite bool_decide_eq_true_2 by reflexivity. reflexivity.
  - apply no_squote_cons in H as [Ha Hu]. rewrite append_cons. cbn [Go.span].
    unfold Go.notSQuote at 1. rewrite bool_decide_eq_false_2 by exact Ha. cbn [negb].
    rewrite (IH rest Hu). reflexivity.
Qed.

Lemma leftmost_inv {A} (here : string -> option A) (s : string) : forall r,
  Go.leftmost here s = Some r -> exists pre mid, s = pre +:+ mid /\ here mid = Some r.
Proof.
  induction s as [|a s IH]; intros r H; cbn [Go.leftmost] in H.
  - destruct (here EmptyString) eqn:E; [|discriminate].
    injection H as <-. exists EmptyString, EmptyString. split; [reflexivity|exact E].
  - destruct (here (String a s)) eqn:E.
    + injection H as <-. exists EmptyString, (String a s). split; [reflexivity|exact E].
    + destruct (IH r H) as (pre & mid & -> & Hm).
      exists (String a pre), mid. split; [reflexivity|exact Hm].
Qed.

Lemma leftmost_app {A} (here : string -> option A) (pre mid : string) :
  is_Some (here mid) -> is_Some (Go.leftmost here (pre +:+ mid)).
Proof.
  intros [r Hr]. induction pre as [|a pre IH].
  - rewrite append_nil. destruct mid; cbn [Go.leftmost]; rewrite Hr; eexists; reflexivity.
  - rewrite append_cons. cbn [Go.leftmost].
    destruct (here (String a (pre +:+ mid))); [eexists; reflexivity|exact IH].
Qed.

(** The link [downloadLink] finds is the URL of an assignment in the page. *)
Lemma downloadLink_sound body u : downloadLink body = Some u -> assignsURL body u.
Proof.
  unfold downloadLink, Go.findDelimited. intros H.
  apply leftmost_inv in H as (pre & mid & -> & H).
  unfold Go.delimitedHere in H.
  destruct (Go.after _ mid) as [rest|] eqn:Ha; [|discriminate]. cbn in H.
  apply after_inv in Ha as ->.
  destruct (Go.span Go.notSQuote rest) as [run tl] eqn:Hs.
  pose proof (span_inv _ _ _ _ Hs) as ->.
  pose proof (span_notSQuote _ _ _ Hs) as Hq.
  destruct run as [|a run]; [discriminate|].
  destruct (Go.HasPrefix tl (String Go.squote ";")) eqn:Hp; [|discriminate].
  injection H as <-. apply HasPrefix_inv in Hp as [post ->].
  split; [discriminate|]. split; [exact Hq|].
  exists pre, post. reflexivity.
Qed.

(** A page that holds an assignment has a link for [downloadLink]. *)
Lemma downloadLink_complete body u : assignsURL body u -> is_Some (downloadLink body).
Proof.
  intros (Hne & Hq & pre & post & ->).
  unfold downloadLink, Go.findDelimited. apply leftmost_app.
  unfold Go.delimitedHere. rewrite after_app. cbn [mbind option_bind].
  change (String Go.squote ";" +:+ post) with (String Go.squote (";" +:+ post)).
  rewrite (span_upto_squote u _ Hq).
  destruct u as [|a u]; [congruence|].
  change (String Go.squote (";" +:+ post)) with (String Go.squote ";" +:+ post).
  rewrite HasPrefix_app. eexists; reflexivity.
Qed.

(** ** Traces of calls and returns *)

Lemma bind_Ret {A B} (m : M A) (k : A -> M B) w a w' :
  m w = (Ret a, w') -> bind m k w = k a w'.
Proof. unfold bind. intros ->. reflexivity. Qed.

Lemma bind_Panic {A B} (m : M A) (k : A -> M B) w v w' :
  m w = (Panic v, w') -> bind m k w = (Panic v, w').
Proof. unfold bind. intros ->. reflexivity. Qed.


Lemma added_app w w' evs : trace w' = trace w ++ evs -> added w w' = evs.
Proof. unfold added. intros ->. apply drop_app_length. Qed.

Lemma quiet_schedule c method link reqBody j :
  Forall quiet (schedule (wire c method link reqBody) (backoff c) j).
Proof.
  destruct j as [|j]; [constructor|]. cbn. constructor; [reflexivity|].
  induction j as [|j IH]; [constructor|]. cbn. repeat constructor. exact IH.
Qed.

(** What a call of [Request] adds to the trace: the call, steps that are
    neither calls nor returns, and the return if there is one. *)
Lemma Request_adds c method link reqBody w :
  exists mid, Forall quiet mid /\
    match Request c method link reqBody w with
    | (Ret body, w') =>
        trace w' = trace w ++ EvCall method link reqBody :: mid ++ [EvReturn body]
    | (_, w') => trace w' = trace w ++ EvCall method link reqBody :: mid
    end.
Proof.
  destruct (Z.le_gt_cases (held w + 1) (httpLockPool c)) as [Hfree|Hfull].
  - rewrite Request_char by exact Hfree.
    destruct (firstOK _ _ _) as [[k body]|].
    + exists (EvAcquire :: schedule (wire c method link reqBody) (backoff c) (S k) ++ [EvRelease]).
      split.
      * constructor; [reflexivity|]. apply Forall_app. split; [apply quiet_schedule|].
        repeat constructor.
      * cbn [trace]. rewrite <- !app_comm_cons, <- app_assoc. reflexivity.
    + exists (EvAcquire :: schedule (wire c method link reqBody) (backoff c)
                (Z.to_nat (RetryCount c)) ++ [EvRelease]).
      split; [|reflexivity].
      constructor; [reflexivity|]. apply Forall_app. split; [apply quiet_schedule|].
      repeat constructor.
  - rewrite Request_blocked by lia. exists []. split; [constructor|reflexivity].
Qed.

Section Monitor.

Variable upd : option string -> event -> option string.
Variable build : string -> outcome string.
Hypothesis upd_quiet : forall src e, quiet e -> upd src e = src.
Hypothesis upd_call : forall src method link reqBody, upd src (EvCall method link reqBody) = src.

Lemma monitored_app tr1 : forall src tr2,
  monitored upd build src (tr1 ++ tr2) <->
  monitored upd build src tr1 /\ monitored upd build (after upd src tr1) tr2.
Proof.
  induction tr1 as [|e tr1 IH]; intros src tr2; cbn [app monitored after fold_left].
  - tauto.
  - rewrite IH. unfold after. tauto.
Qed.

Lemma after_concat src tr1 tr2 : after upd src (tr1 ++ tr2) = after upd (after upd src tr1) tr2.
Proof. unfold after. apply fold_left_app. Qed.

Lemma monitored_quiet mid : forall src,
  Forall quiet mid -> monitored upd build src mid /\ after upd src mid = src.
Proof.
  induction mid as [|e mid IH]; intros src H; [split; [exact I|reflexivity]|].
  inversion H as [|? ? He Hmid]; subst.
  cbn [monitored after fold_left]. rewrite (upd_quiet src e He).
  destruct (IH src Hmid) as [IH1 IH2]. repeat split; [|exact IH1|exact IH2].
  destruct e; try exact I. discriminate He.
Qed.

(** The events of one call of [Request]. *)
Lemma monitored_call src method link reqBody mid tail :
  Forall quiet mid ->
  monitored upd build src (EvCall method link reqBody :: mid ++ tail) <->
  pollBuiltFrom build src (EvCall method link reqBody) /\ monitored upd build src tail.
Proof.
  intros Hq. cbn [monitored]. rewrite upd_call.
  rewrite monitored_app. destruct (monitored_quiet mid src Hq) as [H1 ->]. tauto.
Qed.

Lemma after_call src method link reqBody mid tail :
  Forall quiet mid ->
  after upd src (EvCall method link reqBody :: mid ++ tail) = after upd src tail.
Proof.
  intros Hq. change (EvCall method link reqBody :: mid ++ tail)
    with ([EvCall method link reqBody] ++ mid ++ tail).
  rewrite !after_concat.
  change (after upd src [EvCall method link reqBody]) with (upd src (EvCall method link reqBody)).
  rewrite upd_call. destruct (monitored_quiet mid src Hq) as [_ ->]. reflexivity.
Qed.

End Monitor.

Lemma latestStep_quiet src e : quiet e -> latestStep src e = src.
Proof. destruct e; try reflexivity. discriminate. Qed.

Lemma firstStep_quiet src e : quiet e -> firstStep src e = src.
Proof. destruct e; try reflexivity. discriminate. Qed.

(** ** src/download.go: the map that is never made *)

(** [C10] In the revision of src/download.go, when the answer to the submit
    holds the plain working marker, the run panics in the first turn of the
    loop, after the sleep and before any poll: looking up [b_action] panics
    if the page lacks it, and otherwise the first [Add] writes to the nil
    map.  The submit stays the only call made. *)
Theorem DownloadA_panics_before_first_poll c id fuel w body w1 :
  Request c "GET" (reportLinkFromID id) EmptyString w = (Ret body, w1) ->
  Go.Contains body wStr1 = true ->
  DownloadA.DownloadReportCSV c id (S fuel) w =
    (Panic (match findJSONValueInPage body "b_action" with
            | Ret _ => nilMap
            | _ => "Could not find JSON value b_action in page"
            end),
     emit (EvSleep (seconds (Z.of_N (RetryDelay c)))) w1) /\
  calls (trace (DownloadA.DownloadReportCSV c id (S fuel) w).2) =
    calls (trace w) ++ [EvCall "GET" (reportLinkFromID id) EmptyString] /\
  polls (trace (DownloadA.DownloadReportCSV c id (S fuel) w).2) = polls (trace w1).
Proof.
  intros Hreq Hwork.
  assert (Hrun : DownloadA.DownloadReportCSV c id (S fuel) w =
            (Panic (match findJSONValueInPage body "b_action" with
                    | Ret _ => nilMap
                    | _ => "Could not find JSON value b_action in page"
                    end),
             emit (EvSleep (seconds (Z.of_N (RetryDelay c)))) w1)).
  { unfold DownloadA.DownloadReportCSV, DownloadA.run.
    erewrite bind_Panic; [reflexivity|].
    erewrite bind_Ret by exact Hreq.
    cbn [DownloadA.loop]. rewrite Hwork.
    unfold pause. unfold bind at 1. unfold Sleep at 1.
    unfold DownloadA.postData. cbn [fill pollLines valueOf].
    unfold findJSONValueInPage.
    destruct (Go.leftmost (jsonHere "b_action") body); reflexivity. }
  rewrite Hrun. cbn [snd]. split; [reflexivity|].
  pose proof (Request_calls c "GET" (reportLinkFromID id) EmptyString w) as Hc.
  rewrite Hreq in Hc. cbn [snd] in Hc.
  unfold emit. cbn [trace]. split.
  - rewrite calls_app, Hc. cbn. rewrite app_nil_r. reflexivity.
  - unfold polls. rewrite List.filter_app. cbn. rewrite app_nil_r. reflexivity.
Qed.

Lemma DownloadA_panics_before_first_poll_witness :
  let w := fresh [page "working" "0"; page "working" "1"; linkPage; "a,b"] in
  let w1 := (Request demo "GET" (reportLinkFromID "rep-7") EmptyString w).2 in
  (Request demo "GET" (reportLinkFromID "rep-7") EmptyString w = (Ret (page "working" "0"), w1) /\
   Go.Contains (page "working" "0") wStr1 = true) /\
  DownloadA.DownloadReportCSV demo "rep-7" 3 w =
    (Panic "assignment to entry in nil map", emit (EvSleep 5000000000) w1) /\
  calls (trace (DownloadA.DownloadReportCSV demo "rep-7" 3 w).2) =
    [EvCall "GET" (reportLinkFromID "rep-7") EmptyString] /\
  polls (trace (DownloadA.DownloadReportCSV demo "rep-7" 3 w).2) = [].
Proof.
  intros w w1.
  assert (Hreq : Request demo "GET" (reportLinkFromID "rep-7") EmptyString w =
                 (Ret (page "working" "0"), w1)) by (vm_compute; reflexivity).
  assert (Hwork : Go.Contains (page "working" "0") wStr1 = true) by (vm_compute; reflexivity).
  split; [split; assumption|].
  exact (DownloadA_panics_before_first_poll demo "rep-7" 2 w (page "working" "0") w1 Hreq Hwork).
Defined.

(** ** The end of a run: download link, prompting marker *)

(** More fuel does not change a run that ended. *)
Lemma wait_fuel_mono c data fuel : forall respHTML w o w',
  DownloadC.wait c data fuel respHTML w = (o, w') ->
  o <> OutOfFuel ->
  forall fuel', (fuel <= fuel')%nat -> DownloadC.wait c data fuel' respHTML w = (o, w').
Proof.
  induction fuel as [|fuel IH]; intros respHTML w o w' H Ho fuel' Hle.
  - cbn [DownloadC.wait] in H.
    destruct fuel' as [|fuel']; cbn [DownloadC.wait];
      destruct (Go.Contains respHTML wStr1 || Go.Contains respHTML wStr2); try exact H.
    injection H as <- <-. congruence.
  - destruct fuel' as [|fuel']; [lia|].
    cbn [DownloadC.wait] in H |- *.
    destruct (Go.Contains respHTML wStr1 || Go.Contains respHTML wStr2); [|exact H].
    unfold bind at 1 in H. unfold bind at 1. destruct (pause c w) as [[[]| | |] w1]; try exact H.
    unfold bind in H |- *.
    destruct (Request c "POST" cgi data w1) as [[r| | |] w2]; try exact H.
    apply (IH r w2 o w' H Ho). lia.
Qed.

Lemma run_fuel_mono c id fuel w o w' :
  DownloadC.run c id fuel w = (o, w') ->
  o <> OutOfFuel ->
  forall fuel', (fuel <= fuel')%nat -> DownloadC.run c id fuel' w = (o, w').
Proof.
  unfold DownloadC.run. intros H Ho fuel' Hle.
  unfold bind at 1 in H. unfold bind at 1.
  destruct (Request c "GET" (reportLinkFromID id) EmptyString w) as [[r| | |] w1]; try exact H.
  destruct (Go.Contains r wStr1); [|exact H].
  unfold bind in H |- *. destruct (lift (DownloadC.postData r) w1) as [[data| | |] w2]; try exact H.
  apply (wait_fuel_mono c data fuel r w2 o w' H Ho). exact Hle.
Qed.

(** [C4] When the last response of a run holds the prompting marker and no
    download link, [DownloadReportCSV] panics with the prompting message in
    the world that response arrived in: no call is made after it.  The loop
    bound of the model plays no part once it lets the run reach that
    response. *)
Theorem prompting_without_link_fails c id fuel w body w' :
  DownloadC.run c id fuel w = (Ret body, w') ->
  Go.Contains body promptingStr = true ->
  downloadLink body = None ->
  forall fuel', (fuel <= fuel')%nat ->
    DownloadC.DownloadReportCSV c id fuel' w = (Panic prompted, w').
Proof.
  intros Hrun Hprompt Hlink fuel' Hle. unfold DownloadC.DownloadReportCSV.
  erewrite bind_Ret by (apply (run_fuel_mono c id fuel); [exact Hrun|discriminate|exact Hle]).
  unfold finish. rewrite Hlink, Hprompt. reflexivity.
Qed.

Lemma prompting_without_link_fails_witness :
  let w := fresh [page "prompting" "0"] in
  let w' := (DownloadC.run demo "rep-7" 0 w).2 in
  (DownloadC.run demo "rep-7" 0 w = (Ret (page "prompting" "0"), w') /\
   Go.Contains (page "prompting" "0") promptingStr = true /\
   downloadLink (page "prompting" "0") = None) /\
  forall fuel', (0 <= fuel')%nat ->
    DownloadC.DownloadReportCSV demo "rep-7" fuel' w = (Panic prompted, w').
Proof.
  intros w w'.
  assert (Hrun : DownloadC.run demo "rep-7" 0 w = (Ret (page "prompting" "0"), w'))
    by (vm_compute; reflexivity).
  assert (Hp : Go.Contains (page "prompting" "0") promptingStr = true)
    by (vm_compute; reflexivity).
  assert (Hl : downloadLink (page "prompting" "0") = None) by (vm_compute; reflexivity).
  split; [repeat split; assumption|].
  exact (prompting_without_link_fails demo "rep-7" 0 w (page "prompting" "0") w' Hrun Hp Hl).
Defined.

(** A page with the prompting marker and a download link: the link is
    fetched and its body returned. *)
Lemma PromptingAlwaysFails_refuted : ~ PromptingAlwaysFails.
Proof.
  intros H.
  pose (body := promptingStr +:+ " " +:+ linkPage).
  pose (w := fresh [body; "a,b"]).
  specialize (H demo "rep-7" 0%nat w body (DownloadC.run demo "rep-7" 0 w).2).
  assert (Hrun : DownloadC.run demo "rep-7" 0 w = (Ret body, (DownloadC.run demo "rep-7" 0 w).2))
    by (vm_compute; reflexivity).
  assert (Hp : Go.Contains body promptingStr = true) by (vm_compute; reflexivity).
  specialize (H Hrun Hp). vm_compute in H. discriminate H.
Qed.

(** [C7] When the last response of a run holds an assignment
    [var sURL = '...';], the rest of the run is one call
    [Request("GET", u, "")], with [u] the URL of the leftmost such assignment
    in the page: the run ends as that call ends, and when the call returns a
    body the run returns that body.  The loop bound of the model plays no
    part once it lets the run reach that response. *)
Theorem download_link_is_fetched c id fuel w body w' u0 :
  DownloadC.run c id fuel w = (Ret body, w') ->
  assignsURL body u0 ->
  exists u,
    downloadLink body = Some u /\ assignsURL body u /\
    (forall fuel', (fuel <= fuel')%nat ->
       DownloadC.DownloadReportCSV c id fuel' w = Request c "GET" u EmptyString w') /\
    calls (trace (Request c "GET" u EmptyString w').2) =
      calls (trace w') ++ [EvCall "GET" u EmptyString] /\
    (forall csv w'' fuel', (fuel <= fuel')%nat ->
       Request c "GET" u EmptyString w' = (Ret csv, w'') ->
       DownloadC.DownloadReportCSV c id fuel' w = (Ret csv, w'')).
Proof.
  intros Hrun Hassign.
  destruct (downloadLink_complete body u0 Hassign) as [u Hu].
  exists u. split; [exact Hu|]. split; [apply downloadLink_sound; exact Hu|].
  assert (Heq : forall fuel', (fuel <= fuel')%nat ->
            DownloadC.DownloadReportCSV c id fuel' w = Request c "GET" u EmptyString w').
  { intros fuel' Hle. unfold DownloadC.DownloadReportCSV.
    erewrite bind_Ret by (apply (run_fuel_mono c id fuel); [exact Hrun|discriminate|exact Hle]).
    unfold finish. rewrite Hu. reflexivity. }
  split; [exact Heq|]. split.
  - apply Request_calls.
  - intros csv w'' fuel' Hle Hget. rewrite (Heq fuel' Hle). exact Hget.
Qed.

Lemma download_link_is_fetched_witness :
  let w := fresh [page "working" "0"; page "working" "1"; linkPage; "a,b"] in
  let w' := (DownloadC.run demo "rep-7" 2 w).2 in
  (DownloadC.run demo "rep-7" 2 w = (Ret linkPage, w') /\ assignsURL linkPage "/dl?id=7") /\
  exists u,
    downloadLink linkPage = Some u /\ assignsURL linkPage u /\
    (forall fuel', (2 <= fuel')%nat ->
       DownloadC.DownloadReportCSV demo "rep-7" fuel' w = Request demo "GET" u EmptyString w') /\
    calls (trace (Request demo "GET" u EmptyString w').2) =
      calls (trace w') ++ [EvCall "GET" u EmptyString] /\
    (forall csv w'' fuel', (2 <= fuel')%nat ->
       Request demo "GET" u EmptyString w' = (Ret csv, w'') ->
       DownloadC.DownloadReportCSV demo "rep-7" fuel' w = (Ret csv, w'')).
Proof.
  intros w w'.
  assert (Hrun : DownloadC.run demo "rep-7" 2 w = (Ret linkPage, w'))
    by (vm_compute; reflexivity).
  assert (Hassign : assignsURL linkPage "/dl?id=7").
  { split; [discriminate|]. split; [vm_compute; reflexivity|].
    exists EmptyString, EmptyString. reflexivity. }
  split; [split; assumption|].
  exact (download_link_is_fetched demo "rep-7" 2 w linkPage w' "/dl?id=7" Hrun Hassign).
Defined.

(** The whole run on the small portal: two polls, then the link, then the
    CSV. *)
Example DownloadC_run :
  (DownloadC.DownloadReportCSV demo "rep-7" 5
     (fresh [page "working" "0"; page "working" "1"; linkPage; "a,b"])).1 = Ret "a,b".
Proof. vm_compute. reflexivity. Qed.

(** ** The wait loop *)


Lemma polls_schedule c method link reqBody j :
  polls (schedule (wire c method link reqBody) (backoff c) j) = [].
Proof.
  destruct j as [|j]; [reflexivity|]. cbn.
  induction j as [|j IH]; [reflexivity|]. cbn. exact IH.
Qed.

Section Unbounded.

Variable c : CognosInstance.
Variable page : string.
Hypothesis gate_open : 1 <= httpLockPool c.
Hypothesis one_try : (1 <= Z.to_nat (RetryCount c))%nat.

Let steady : nat -> NetOutcome := Fixtures.steady page.



End Unbounded.










(** ** Computations only add to the trace *)

Lemma grows_ret {A} (a : A) : grows (ret a).
Proof. intros w. exists []. cbn. rewrite app_nil_r. reflexivity. Qed.

Lemma grows_panic {A} v : grows (@panic A v).
Proof. intros w. exists []. cbn. rewrite app_nil_r. reflexivity. Qed.

Lemma grows_lift {A} (o : outcome A) : grows (lift o).
Proof. intros w. exists []. cbn. rewrite app_nil_r. reflexivity. Qed.

Lemma grows_outOfFuel {A} : grows (@outOfFuel A).
Proof. intros w. exists []. cbn. rewrite app_nil_r. reflexivity. Qed.

Lemma grows_Sleep d : grows (Sleep d).
Proof. intros w. exists [EvSleep d]. reflexivity. Qed.

Lemma grows_bind {A B} (m : M A) (k : A -> M B) :
  grows m -> (forall a, grows (k a)) -> grows (bind m k).
Proof.
  intros Hm Hk w. destruct (Hm w) as [evs1 H1]. unfold bind.
  destruct (m w) as [[a| | |] w1]; cbn [snd] in H1 |- *; try (exists evs1; exact H1).
  destruct (Hk a w1) as [evs2 H2]. exists (evs1 ++ evs2).
  rewrite H2, H1, app_assoc. reflexivity.
Qed.

Lemma grows_Request c method link reqBody : grows (Request c method link reqBody).
Proof.
  intros w. destruct (Request_adds c method link reqBody w) as (mid & _ & H).
  destruct (Request c method link reqBody w) as [[body| | |] w']; cbn [snd];
    eexists; exact H.
Qed.

Lemma grows_finish c respHTML : grows (finish c respHTML).
Proof.
  unfold finish. destruct (downloadLink respHTML); [apply grows_Request|].
  destruct (Go.Contains respHTML promptingStr); apply grows_panic.
Qed.

Lemma grows_wait c data fuel : forall respHTML, grows (DownloadC.wait c data fuel respHTML).
Proof.
  induction fuel as [|fuel IH]; intros respHTML; cbn [DownloadC.wait];
    destruct (Go.Contains respHTML wStr1 || Go.Contains respHTML wStr2);
    try apply grows_ret; try apply grows_outOfFuel.
  apply grows_bind; [apply grows_Sleep|]. intros _.
  apply grows_bind; [apply grows_Request|]. exact IH.
Qed.

(** One turn of the wait loop: the sleep, the poll, and what follows. *)
Lemma wait_turn c data fuel body w :
  Go.Contains body wStr1 || Go.Contains body wStr2 = true ->
  exists evs,
    trace (DownloadC.wait c data (S fuel) body w).2 =
    trace w ++ EvSleep (seconds (Z.of_N (RetryDelay c))) :: EvCall "POST" cgi data :: evs.
Proof.
  intros Hwork. cbn [DownloadC.wait]. rewrite Hwork.
  unfold pause. unfold bind at 1. unfold Sleep at 1.
  set (w1 := emit _ w).
  destruct (Request_adds c "POST" cgi data w1) as (mid & _ & Hreq).
  unfold bind.
  destruct (Request c "POST" cgi data w1) as [[r| | |] w2]; cbn [snd];
    try (eexists; rewrite Hreq; subst w1; cbn [trace emit];
         rewrite <- app_assoc; reflexivity).
  destruct (grows_wait c data fuel r w2) as [evs Hevs].
  eexists. rewrite Hevs, Hreq. subst w1. cbn [trace emit].
  rewrite <- !app_assoc. cbn [app]. reflexivity.
Qed.

(** [C3] In the revision that waits on either marker: a response to a poll
    that holds the working flag in either encoding, the plain one or the
    HTML-escaped one, is followed by a sleep and another poll with the same
    form; the response to the submit starts the polling when it holds the
    plain flag and all the fields of the form. *)
Theorem working_response_polls c :
  (forall id fuel w body w1 data,
     Request c "GET" (reportLinkFromID id) EmptyString w = (Ret body, w1) ->
     Go.Contains body wStr1 = true ->
     DownloadC.postData body = Ret data ->
     exists evs,
       trace (DownloadC.DownloadReportCSV c id (S fuel) w).2 =
       trace w1 ++ EvSleep (seconds (Z.of_N (RetryDelay c))) :: EvCall "POST" cgi data :: evs) /\
  (forall data fuel body w,
     Go.Contains body wStr1 || Go.Contains body wStr2 = true ->
     exists evs,
       trace (DownloadC.wait c data (S fuel) body w).2 =
       trace w ++ EvSleep (seconds (Z.of_N (RetryDelay c))) :: EvCall "POST" cgi data :: evs).
Proof.
  split; [|intros data fuel body w; apply wait_turn].
  intros id fuel w body w1 data Hreq Hwork Hdata.
  assert (Hor : Go.Contains body wStr1 || Go.Contains body wStr2 = true)
    by (rewrite Hwork; reflexivity).
  destruct (wait_turn c data fuel body w1 Hor) as [evs Hevs].
  assert (Hrun : DownloadC.run c id (S fuel) w = DownloadC.wait c data (S fuel) body w1).
  { unfold DownloadC.run. erewrite bind_Ret by exact Hreq. rewrite Hwork.
    unfold lift. unfold bind at 1. rewrite Hdata. reflexivity. }
  unfold DownloadC.DownloadReportCSV. unfold bind. rewrite Hrun.
  destruct (DownloadC.wait c data (S fuel) body w1) as [[b| | |] w2]; cbn [snd] in Hevs |- *;
    try (exists evs; exact Hevs).
  destruct (grows_finish c b w2) as [evs' Hevs'].
  exists (evs ++ evs'). rewrite Hevs', Hevs. rewrite <- app_assoc. reflexivity.
Qed.

Lemma working_response_polls_witness :
  let w := fresh [page "working" "0"; wStr2; linkPage; "a,b"] in
  let w1 := (Request demo "GET" (reportLinkFromID "rep-7") EmptyString w).2 in
  (Request demo "GET" (reportLinkFromID "rep-7") EmptyString w = (Ret (page "working" "0"), w1) /\
   Go.Contains (page "working" "0") wStr1 = true /\
   DownloadC.postData (page "working" "0") = Ret form0 /\
   Go.Contains wStr2 wStr1 || Go.Contains wStr2 wStr2 = true) /\
  (exists evs,
     trace (DownloadC.DownloadReportCSV demo "rep-7" 3 w).2 =
     trace w1 ++ EvSleep 5000000000 :: EvCall "POST" cgi form0 :: evs) /\
  (exists evs,
     trace (DownloadC.wait demo form0 3 wStr2 w1).2 =
     trace w1 ++ EvSleep 5000000000 :: EvCall "POST" cgi form0 :: evs).
Proof.
  intros w w1.
  assert (Hreq : Request demo "GET" (reportLinkFromID "rep-7") EmptyString w =
                 (Ret (page "working" "0"), w1)) by (vm_compute; reflexivity).
  assert (Hwork : Go.Contains (page "working" "0") wStr1 = true) by (vm_compute; reflexivity).
  assert (Hdata : DownloadC.postData (page "working" "0") = Ret form0)
    by (vm_compute; reflexivity).
  assert (Hesc : Go.Contains wStr2 wStr1 || Go.Contains wStr2 wStr2 = true)
    by (vm_compute; reflexivity).
  split; [repeat split; assumption|].
  split.
  - exact (proj1 (working_response_polls demo) "rep-7" 2%nat w (page "working" "0") w1 form0
             Hreq Hwork Hdata).
  - exact (proj2 (working_response_polls demo) form0 2%nat wStr2 w1 Hesc).
Defined.

(** A first response that holds the escaped flag only: no poll, the page is
    not understood. *)
Lemma EitherMarkerPolls_refuted : ~ EitherMarkerPolls.
Proof.
  intros H.
  pose (w := fresh [wStr2; linkPage; "a,b"]).
  apply (H demo "rep-7" 2%nat w wStr2
           (Request demo "GET" (reportLinkFromID "rep-7") EmptyString w).2).
  - vm_compute. reflexivity.
  - vm_compute. reflexivity.
  - vm_compute. reflexivity.
Qed.

Example escaped_first_response :
  (DownloadC.DownloadReportCSV demo "rep-7" 2 (fresh [wStr2; linkPage; "a,b"])).1 =
  Panic notUnderstood.
Proof. vm_compute. reflexivity. Qed.

(** ** Where the form of a poll comes from *)

Section MonitorRequest.

Variable upd : option string -> event -> option string.
Variable build : string -> outcome string.
Hypothesis upd_quiet : forall src e, quiet e -> upd src e = src.
Hypothesis upd_call : forall src method link reqBody, upd src (EvCall method link reqBody) = src.

(** A call of [Request], seen by a monitor. *)
Lemma monitored_Request src c method link reqBody w o w' :
  Request c method link reqBody w = (o, w') ->
  pollBuiltFrom build src (EvCall method link reqBody) ->
  exists evs,
    trace w' = trace w ++ evs /\
    monitored upd build src evs /\
    after upd src evs = match o with Ret r => upd src (EvReturn r) | _ => src end.
Proof.
  intros Hreq Hpoll. destruct (Request_adds c method link reqBody w) as (mid & Hq & H).
  rewrite Hreq in H.
  assert (Hnone : monitored upd build src (EvCall method link reqBody :: mid) /\
                  after upd src (EvCall method link reqBody :: mid) = src).
  { rewrite <- (app_nil_r mid). split.
    - apply (monitored_call upd build upd_quiet upd_call); [exact Hq|].
      split; [exact Hpoll|exact I].
    - rewrite (after_call upd build upd_quiet upd_call) by exact Hq. reflexivity. }
  destruct o as [r| | |]; eexists; (split; [exact H|]); try exact Hnone.
  split.
  - apply (monitored_call upd build upd_quiet upd_call); [exact Hq|].
    split; [exact Hpoll|]. cbn. tauto.
  - rewrite (after_call upd build upd_quiet upd_call) by exact Hq. reflexivity.
Qed.

End MonitorRequest.

Lemma latestStep_call src method link reqBody : latestStep src (EvCall method link reqBody) = src.
Proof. reflexivity. Qed.
Lemma firstStep_call src method link reqBody : firstStep src (EvCall method link reqBody) = src.
Proof. reflexivity. Qed.

Lemma get_is_no_poll build src link reqBody : pollBuiltFrom build src (EvCall "GET" link reqBody).
Proof. intros H. discriminate H. Qed.

Lemma B_loop_monitored c fuel : forall respHTML w o w',
  DownloadB.loop c fuel respHTML w = (o, w') ->
  exists evs,
    trace w' = trace w ++ evs /\
    builtFromLatest DownloadB.postData (Some respHTML) evs /\
    forall b, o = Ret b -> after latestStep (Some respHTML) evs = Some b.
Proof.
  induction fuel as [|fuel IH]; intros respHTML w o w' H; cbn [DownloadB.loop] in H;
    destruct (Go.Contains respHTML wStr1) eqn:Hwork;
    try (injection H as <- <-; exists []; rewrite app_nil_r; split; [reflexivity|];
         split; [exact I|];
         intros b Hb; first [discriminate Hb | injection Hb as <-; reflexivity]).
  unfold pause in H. unfold bind at 1 in H. unfold Sleep at 1 in H.
  set (w1 := emit _ w) in H. unfold lift in H. unfold bind at 1 in H.
  destruct (DownloadB.postData respHTML) as [data| | |] eqn:Hdata;
    try (injection H as <- <-; exists [EvSleep (seconds (Z.of_N (RetryDelay c)))];
         split; [reflexivity|]; split; [cbn; tauto|]; intros b Hb; discriminate Hb).
  unfold bind in H.
  destruct (Request c "POST" cgi data w1) as [o1 w2] eqn:Hreq.
  destruct (monitored_Request latestStep DownloadB.postData latestStep_quiet latestStep_call
              (Some respHTML) c "POST" cgi data w1 o1 w2 Hreq) as (evs1 & Ht1 & Hm1 & Ha1).
  { intros _. exists respHTML. split; [reflexivity|exact Hdata]. }
  assert (Hstop : o1 = o -> w2 = w' -> (forall r, o1 <> Ret r) ->
    exists evs,
      trace w' = trace w ++ evs /\
      builtFromLatest DownloadB.postData (Some respHTML) evs /\
      forall b, o = Ret b -> after latestStep (Some respHTML) evs = Some b).
  { intros <- <- Hne. exists (EvSleep (seconds (Z.of_N (RetryDelay c))) :: evs1).
    split; [rewrite Ht1; subst w1; cbn [trace emit]; rewrite <- !app_assoc; reflexivity|].
    split; [split; [exact I|exact Hm1]|]. intros b Hb. destruct (Hne b Hb). }
  destruct o1 as [r| | |];
    try (injection H as <- <-; apply Hstop; [reflexivity|reflexivity|intros r; discriminate]).
  clear Hstop. destruct (IH r w2 o w' H) as (evs2 & Ht2 & Hm2 & Ha2).
  exists (EvSleep (seconds (Z.of_N (RetryDelay c))) :: evs1 ++ evs2).
  split; [|split].
  - rewrite Ht2, Ht1. subst w1. cbn [trace emit]. rewrite <- !app_assoc. reflexivity.
  - split; [exact I|]. cbn [latestStep].
    apply (monitored_app latestStep DownloadB.postData). split; [exact Hm1|].
    rewrite Ha1. exact Hm2.
  - intros b Hb. unfold after. cbn [fold_left latestStep].
    change (fold_left latestStep (evs1 ++ evs2) (Some respHTML))
      with (after latestStep (Some respHTML) (evs1 ++ evs2)).
    rewrite (after_concat latestStep), Ha1. apply Ha2. exact Hb.
Qed.

(** What [finish] adds holds no poll. *)
Lemma finish_monitored upd build (Hq : forall src e, quiet e -> upd src e = src)
    (Hc : forall src method link reqBody, upd src (EvCall method link reqBody) = src)
    src c respHTML w o w' :
  finish c respHTML w = (o, w') ->
  exists evs, trace w' = trace w ++ evs /\ monitored upd build src evs.
Proof.
  unfold finish. intros H. destruct (downloadLink respHTML) as [u|].
  - destruct (monitored_Request upd build Hq Hc src c "GET" u EmptyString w o w' H)
      as (evs & Ht & Hm & _); [apply get_is_no_poll|].
    exists evs. split; assumption.
  - exists []. rewrite app_nil_r.
    destruct (Go.Contains respHTML promptingStr); injection H as <- <-; split; constructor.
Qed.

Lemma B_run_monitored c id fuel w :
  builtFromLatest DownloadB.postData None (added w (DownloadB.DownloadReportCSV c id fuel w).2).
Proof.
  destruct (DownloadB.DownloadReportCSV c id fuel w) as [o w'] eqn:H. cbn [snd].
  unfold DownloadB.DownloadReportCSV, DownloadB.run in H.
  unfold bind at 1 in H. unfold bind at 1 in H.
  destruct (Request c "GET" (reportLinkFromID id) EmptyString w) as [o1 w1] eqn:Hreq.
  destruct (monitored_Request latestStep DownloadB.postData latestStep_quiet latestStep_call
              None c "GET" _ _ w o1 w1 Hreq (get_is_no_poll _ _ _ _)) as (evs1 & Ht1 & Hm1 & Ha1).
  destruct o1 as [r| | |];
    try (injection H as <- <-; rewrite (added_app _ _ _ Ht1); exact Hm1).
  cbn [latestStep] in Ha1.
  destruct (DownloadB.loop c fuel r w1) as [o2 w2] eqn:Hloop.
  destruct (B_loop_monitored c fuel r w1 o2 w2 Hloop) as (evs2 & Ht2 & Hm2 & Ha2).
  assert (H12 : trace w2 = trace w ++ evs1 ++ evs2)
    by (rewrite Ht2, Ht1, app_assoc; reflexivity).
  assert (Hm12 : builtFromLatest DownloadB.postData None (evs1 ++ evs2)).
  { apply (monitored_app latestStep DownloadB.postData). split; [exact Hm1|].
    rewrite Ha1. exact Hm2. }
  destruct o2 as [b| | |];
    try (injection H as <- <-; rewrite (added_app _ _ _ H12); exact Hm12).
  destruct (finish_monitored latestStep DownloadB.postData latestStep_quiet latestStep_call
              (Some b) c b w2 o w' H) as (evs3 & Ht3 & Hm3).
  rewrite (added_app w w' ((evs1 ++ evs2) ++ evs3))
    by (rewrite Ht3, H12, !app_assoc; reflexivity).
  apply (monitored_app latestStep DownloadB.postData). split; [exact Hm12|].
  rewrite (after_concat latestStep), Ha1, (Ha2 b eq_refl). exact Hm3.
Qed.

Lemma after_first_set r0 evs : after firstStep (Some r0) evs = Some r0.
Proof.
  unfold after. induction evs as [|e evs IH]; [reflexivity|].
  cbn [fold_left]. replace (firstStep (Some r0) e) with (Some r0); [exact IH|].
  destruct e; reflexivity.
Qed.

Lemma C_wait_monitored c data r0 (Hdata : DownloadC.postData r0 = Ret data) fuel :
  forall respHTML w o w',
    DownloadC.wait c data fuel respHTML w = (o, w') ->
    exists evs, trace w' = trace w ++ evs /\ builtFromFirst DownloadC.postData (Some r0) evs.
Proof.
  induction fuel as [|fuel IH]; intros respHTML w o w' H; cbn [DownloadC.wait] in H;
    destruct (Go.Contains respHTML wStr1 || Go.Contains respHTML wStr2) eqn:Hwork;
    try (injection H as <- <-; exists []; rewrite app_nil_r; split; [reflexivity|exact I]).
  unfold pause in H. unfold bind at 1 in H. unfold Sleep at 1 in H.
  set (w1 := emit _ w) in H. unfold bind in H.
  destruct (Request c "POST" cgi data w1) as [o1 w2] eqn:Hreq.
  destruct (monitored_Request firstStep DownloadC.postData firstStep_quiet firstStep_call
              (Some r0) c "POST" cgi data w1 o1 w2 Hreq) as (evs1 & Ht1 & Hm1 & _).
  { intros _. exists r0. split; [reflexivity|exact Hdata]. }
  assert (Hstop : o1 = o -> w2 = w' ->
    exists evs, trace w' = trace w ++ evs /\ builtFromFirst DownloadC.postData (Some r0) evs).
  { intros <- <-. exists (EvSleep (seconds (Z.of_N (RetryDelay c))) :: evs1).
    split; [rewrite Ht1; subst w1; cbn [trace emit]; rewrite <- !app_assoc; reflexivity|].
    split; [exact I|exact Hm1]. }
  destruct o1 as [r| | |];
    try (injection H as <- <-; apply Hstop; reflexivity).
  clear Hstop. destruct (IH r w2 o w' H) as (evs2 & Ht2 & Hm2).
  exists (EvSleep (seconds (Z.of_N (RetryDelay c))) :: evs1 ++ evs2).
  split.
  - rewrite Ht2, Ht1. subst w1. cbn [trace emit]. rewrite <- !app_assoc. reflexivity.
  - split; [exact I|]. cbn [firstStep].
    apply (monitored_app firstStep DownloadC.postData). split; [exact Hm1|].
    rewrite after_first_set. exact Hm2.
Qed.

Lemma C_run_monitored c id fuel w :
  builtFromFirst DownloadC.postData None (added w (DownloadC.DownloadReportCSV c id fuel w).2).
Proof.
  destruct (DownloadC.DownloadReportCSV c id fuel w) as [o w'] eqn:H. cbn [snd].
  unfold DownloadC.DownloadReportCSV, DownloadC.run in H.
  unfold bind at 1 in H. unfold bind at 1 in H.
  destruct (Request c "GET" (reportLinkFromID id) EmptyString w) as [o1 w1] eqn:Hreq.
  destruct (monitored_Request firstStep DownloadC.postData firstStep_quiet firstStep_call
              None c "GET" _ _ w o1 w1 Hreq (get_is_no_poll _ _ _ _)) as (evs1 & Ht1 & Hm1 & Ha1).
  destruct o1 as [r| | |];
    try (injection H as <- <-; rewrite (added_app _ _ _ Ht1); exact Hm1).
  cbn [firstStep] in Ha1.
  assert (Hloop : exists o2 w2 evs2,
            (if Go.Contains r wStr1
             then let* data := lift (DownloadC.postData r) in DownloadC.wait c data fuel r
             else ret r) w1 = (o2, w2) /\
            trace w2 = trace w1 ++ evs2 /\
            builtFromFirst DownloadC.postData (Some r) evs2).
  { destruct (Go.Contains r wStr1).
    - unfold lift. unfold bind at 1.
      destruct (DownloadC.postData r) as [data| | |] eqn:Hdata;
        try (eexists _, _, []; rewrite app_nil_r; split; [reflexivity|];
             split; [reflexivity|exact I]).
      destruct (DownloadC.wait c data fuel r w1) as [o2 w2] eqn:Hw.
      destruct (C_wait_monitored c data r Hdata fuel r w1 o2 w2 Hw) as (evs2 & Ht2 & Hm2).
      exists o2, w2, evs2. split; [reflexivity|]. split; assumption.
    - exists (Ret r), w1, []. rewrite app_nil_r. split; [reflexivity|].
      split; [reflexivity|exact I]. }
  destruct Hloop as (o2 & w2 & evs2 & Hloop & Ht2 & Hm2). rewrite Hloop in H.
  assert (H12 : trace w2 = trace w ++ evs1 ++ evs2)
    by (rewrite Ht2, Ht1, app_assoc; reflexivity).
  assert (Hm12 : builtFromFirst DownloadC.postData None (evs1 ++ evs2)).
  { apply (monitored_app firstStep DownloadC.postData). split; [exact Hm1|].
    rewrite Ha1. exact Hm2. }
  destruct o2 as [b| | |];
    try (injection H as <- <-; rewrite (added_app _ _ _ H12); exact Hm12).
  destruct (finish_monitored firstStep DownloadC.postData firstStep_quiet firstStep_call
              (Some r) c b w2 o w' H) as (evs3 & Ht3 & Hm3).
  rewrite (added_app w w' ((evs1 ++ evs2) ++ evs3))
    by (rewrite Ht3, H12, !app_assoc; reflexivity).
  apply (monitored_app firstStep DownloadC.postData). split; [exact Hm12|].
  rewrite (after_concat firstStep), Ha1, after_first_set. exact Hm3.
Qed.

(** [C2] Where the form of a poll comes from differs between the revisions.
    In the revision that rebuilds the form in every turn of the loop, each
    poll carries the fields found in the response just before it.  In the
    revision that waits on either marker, the fields are looked up once, in
    the response to the submit, and every poll of the run carries that same
    form. *)
Theorem polls_built_from c :
  (forall id fuel w,
     builtFromLatest DownloadB.postData None
       (added w (DownloadB.DownloadReportCSV c id fuel w).2)) /\
  (forall id fuel w,
     builtFromFirst DownloadC.postData None
       (added w (DownloadC.DownloadReportCSV c id fuel w).2)).
Proof. split; intros id fuel w; [apply B_run_monitored|apply C_run_monitored]. Qed.

(** A monitored trace, event by event. *)
Lemma monitored_lookup upd build tr : forall src k e,
  monitored upd build src tr -> tr !! k = Some e ->
  pollBuiltFrom build (after upd src (take k tr)) e.
Proof.
  induction tr as [|e0 tr IH]; intros src k e Hm Hk; [discriminate|].
  destruct Hm as [H0 Hm]. destruct k as [|k]; cbn in Hk.
  - injection Hk as <-. exact H0.
  - cbn [take]. unfold after. cbn [fold_left]. apply (IH _ _ _ Hm Hk).
Qed.

(** Two working pages in a row: the second poll follows the second page and
    carries the form of the first. *)
Lemma PollsFromPrecedingResponse_refuted : ~ PollsFromPrecedingResponse.
Proof.
  intros H.
  pose (w := fresh [page "working" "0"; page "working" "1"; linkPage; "a,b"]).
  specialize (H demo "rep-7" 5%nat w).
  pose proof (monitored_lookup latestStep DownloadC.postData _ None 12%nat
                (EvCall "POST" cgi form0) H) as Hpoll.
  destruct Hpoll as (prev & Hprev & Hbuild); [vm_compute; reflexivity|reflexivity|].
  vm_compute in Hprev. injection Hprev as <-.
  vm_compute in Hbuild. discriminate Hbuild.
Qed.

(** ** The codec and the patterns on examples *)

Example Contains_ex :
  Go.Contains "abcde" "cd" = true /\ Go.Contains "abcde" "ce" = false.
Proof. split; reflexivity. Qed.

Example QueryEscape_ex : Go.QueryEscape "a b/c~" = "a+b%2Fc~".
Proof. reflexivity. Qed.

Example Encode_ex :
  Go.Encode (Some (<["b" := ["2"]]> (<["a" := ["1 x"]]> ∅))) = "a=1+x&b=2".
Proof. vm_compute. reflexivity. Qed.

Example folderID_roundtrip : folderIDFromLink (folderLinkFromID "i2F-a9") = Ret "i2F-a9".
Proof. vm_compute. reflexivity. Qed.

Example findJSONValueInPage_ex :
  findJSONValueInPage (page "working" "0") "cv.id" = Ret "_NS_" /\
  findJSONValueInPage (page "working" "0") "m_sTracking" = Ret "track0" /\
  findJSONValueInPage linkPage "cv.id" = Panic "Could not find JSON value cv.id in page".
Proof. repeat split; vm_compute; reflexivity. Qed.

Example forms_differ :
  DownloadC.postData (page "working" "0") = Ret form0 /\
  DownloadC.postData (page "working" "1") = Ret form1 /\ form0 <> form1.
Proof. repeat split; try (vm_compute; reflexivity). discriminate. Qed.

Example downloadLink_ex :
  downloadLink linkPage = Some "/dl?id=7" /\ downloadLink "var sURL = '';" = None.
Proof. split; vm_compute; reflexivity. Qed.

(* ===================================================================== *)
(** * More of the code                                                    *)
(* ===================================================================== *)

Import Paths.

(** ** More on the link codec *)

Lemma append_assoc (s t u : string) : (s +:+ t) +:+ u = s +:+ t +:+ u.
Proof. induction s as [|a s IH]; [reflexivity|]. rewrite !append_cons, IH. reflexivity. Qed.

Lemma append_nil_r (s : string) : s +:+ EmptyString = s.
Proof. induction s as [|a s IH]; [reflexivity|]. rewrite append_cons, IH. reflexivity. Qed.

Lemma allBytes_app cls (s t : string) :
  allBytes cls (s +:+ t) = allBytes cls s && allBytes cls t.
Proof.
  induction s as [|a s IH]; [reflexivity|].
  rewrite append_cons. cbn [allBytes]. rewrite IH, andb_assoc. reflexivity.
Qed.

Lemma countByte_app c (s t : string) :
  countByte c (s +:+ t) = (countByte c s + countByte c t)%nat.
Proof.
  induction s as [|a s IH]; [reflexivity|].
  rewrite append_cons. cbn [countByte]. rewrite IH. lia.
Qed.

Lemma span_spec cls (s : string) : forall run rest,
  Go.span cls s = (run, rest) ->
  s = run +:+ rest /\ allBytes cls run = true /\ stopsAt cls rest.
Proof.
  induction s as [|a s IH]; intros run rest H; cbn [Go.span] in H.
  - injection H as <- <-. repeat split.
  - destruct (cls a) eqn:Ha.
    + destruct (Go.span cls s) as [run' rest'] eqn:E. injection H as <- <-.
      destruct (IH _ _ eq_refl) as (-> & Hall & Hstop).
      repeat split; [|exact Hstop]. cbn [allBytes]. rewrite Ha, Hall. reflexivity.
    + injection H as <- <-. repeat split. exact Ha.
Qed.

Lemma span_run cls (u : string) : forall rest,
  allBytes cls u = true -> stopsAt cls rest -> Go.span cls (u +:+ rest) = (u, rest).
Proof.
  induction u as [|a u IH]; intros rest Hall Hstop.
  - rewrite append_nil. destruct rest as [|b rest]; [reflexivity|].
    cbn [Go.span]. cbn in Hstop. rewrite Hstop. reflexivity.
  - cbn [allBytes] in Hall. apply andb_true_iff in Hall as [Ha Hu].
    rewrite append_cons. cbn [Go.span]. rewrite Ha, (IH rest Hu Hstop). reflexivity.
Qed.

(** What a match of [pre(C+)suf] says about the text. *)
Lemma findDelimited_sound pre cls suf s r :
  Go.findDelimited pre cls suf s = Some r ->
  r <> EmptyString /\ allBytes cls r = true /\
  exists a b, s = a +:+ pre +:+ r +:+ suf +:+ b /\ (suf = EmptyString -> stopsAt cls b).
Proof.
  unfold Go.findDelimited. intros H.
  apply leftmost_inv in H as (a & mid & -> & H).
  unfold Go.delimitedHere in H.
  destruct (Go.after pre mid) as [rest|] eqn:Ha; [|discriminate]. cbn in H.
  apply after_inv in Ha as ->.
  destruct (Go.span cls rest) as [run tl] eqn:Hs.
  destruct (span_spec _ _ _ _ Hs) as (-> & Hall & Hstop).
  destruct run as [|x run]; [discriminate|].
  destruct (Go.HasPrefix tl suf) eqn:Hp; [|discriminate].
  injection H as <-. apply HasPrefix_inv in Hp as [b ->].
  split; [discriminate|]. split; [exact Hall|].
  exists a, b. split; [reflexivity|]. intros ->. exact Hstop.
Qed.

(** A text that holds a match has one found. *)
Lemma findDelimited_complete pre cls suf a r b :
  r <> EmptyString -> allBytes cls r = true -> stopsAt cls (suf +:+ b) ->
  is_Some (Go.findDelimited pre cls suf (a +:+ pre +:+ r +:+ suf +:+ b)).
Proof.
  intros Hne Hall Hstop. unfold Go.findDelimited. apply leftmost_app.
  unfold Go.delimitedHere. rewrite after_app. cbn [mbind option_bind].
  rewrite (span_run cls r _ Hall Hstop).
  destruct r as [|x r]; [congruence|].
  rewrite HasPrefix_app. eexists; reflexivity.
Qed.

Lemma leftmost_skip {A} (here : string -> option A) a s :
  here (String a s) = None -> Go.leftmost here (String a s) = Go.leftmost here s.
Proof. intros H. cbn [Go.leftmost]. rewrite H. reflexivity. Qed.

(** A pattern that starts with the byte [x] matches nowhere in a text
    without [x], and the search moves on to what follows. *)
Lemma leftmost_past {A} (here : string -> option A) (x : ascii) (u t : string) :
  (forall a s, a <> x -> here (String a s) = None) ->
  countByte x u = O ->
  t <> EmptyString ->
  Go.leftmost here (u +:+ t) = Go.leftmost here t.
Proof.
  intros Hx Hu Ht. induction u as [|a u IH]; [reflexivity|].
  cbn [countByte] in Hu. destruct (decide (a = x)) as [->|Hne]; [discriminate|].
  rewrite append_cons, leftmost_skip by (apply Hx; exact Hne). apply IH. exact Hu.
Qed.

Lemma folderHere_amp a s :
  a <> "&"%char -> Go.delimitedHere "&m_folder=" Go.isIDByte EmptyString (String a s) = None.
Proof.
  intros Hne. unfold Go.delimitedHere. cbn [Go.after].
  destruct (decide ("&"%char = a)) as [<-|_]; [congruence|reflexivity].
Qed.

(** [X1] Round trip of the folder codec: for every id made of one or more
    bytes of [0-9a-zA-Z-], [folderIDFromLink] reads back from
    [folderLinkFromID id] exactly [id]. *)
Theorem folder_link_roundtrip id :
  id <> EmptyString -> allBytes Go.isIDByte id = true ->
  folderIDFromLink (folderLinkFromID id) = Ret id.
Proof.
  intros Hne Hall. unfold folderIDFromLink, Go.findDelimited.
  unfold folderLinkFromID, cgi. cbv [String.append].
  repeat (rewrite leftmost_skip by reflexivity).
  change (String "&" (String "m" (String "_" (String "f" (String "o" (String "l"
           (String "d" (String "e" (String "r" (String "=" ?x))))))))))
    with ("&m_folder=" +:+ x).
  match goal with |- context [Go.leftmost ?h (?p +:+ ?x)] =>
    assert (Hhere : h (p +:+ x) = Some id) end.
  { unfold Go.delimitedHere. rewrite after_app. cbn [mbind option_bind].
    rewrite <- (append_nil_r id) at 1. rewrite (span_run Go.isIDByte id EmptyString Hall I).
    destruct id; [congruence|reflexivity]. }
  unfold Go.leftmost. cbv [String.append] in Hhere |- *. rewrite Hhere. reflexivity.
Qed.

Lemma folder_link_roundtrip_witness :
  ("i2F-a9" <> EmptyString /\ allBytes Go.isIDByte "i2F-a9" = true) /\
  folderIDFromLink "/ibmcognos/cgi-bin/cognos.cgi?b_action=xts.run&m=portal/cc.xts&m_folder=i2F-a9" =
  Ret "i2F-a9".
Proof.
  assert (Hne : "i2F-a9" <> EmptyString) by discriminate.
  assert (Hall : allBytes Go.isIDByte "i2F-a9" = true) by reflexivity.
  split; [split; assumption|].
  exact (folder_link_roundtrip "i2F-a9" Hne Hall).
Defined.

(** [X2] When [folderIDFromLink] returns: exactly for a link that holds
    [&m_folder=] followed by a byte of [0-9a-zA-Z-].  The id it returns is
    then a whole run of such bytes behind an [&m_folder=] of the link: not
    empty, and ended by the end of the link or by a byte outside the class. *)
Theorem folderIDFromLink_returns link :
  (forall id,
     folderIDFromLink link = Ret id ->
     id <> EmptyString /\ allBytes Go.isIDByte id = true /\
     exists a b, link = a +:+ "&m_folder=" +:+ id +:+ b /\ stopsAt Go.isIDByte b) /\
  ((exists id, folderIDFromLink link = Ret id) <->
   (exists a x rest, link = a +:+ "&m_folder=" +:+ String x rest /\ Go.isIDByte x = true)).
Proof.
  assert (Hsound : forall id,
     folderIDFromLink link = Ret id ->
     id <> EmptyString /\ allBytes Go.isIDByte id = true /\
     exists a b, link = a +:+ "&m_folder=" +:+ id +:+ b /\ stopsAt Go.isIDByte b).
  { intros id H. unfold folderIDFromLink in H.
    destruct (Go.findDelimited _ _ _ link) as [r|] eqn:E; [|discriminate].
    injection H as <-. destruct (findDelimited_sound _ _ _ _ _ E) as (Hne & Hall & a & b & Hl & Hstop).
    split; [exact Hne|]. split; [exact Hall|]. exists a, b. split; [|apply Hstop; reflexivity].
    rewrite Hl. reflexivity. }
  split; [exact Hsound|]. split.
  - intros [id H]. destruct (Hsound id H) as (Hne & Hall & a & b & -> & _).
    destruct id as [|x id]; [congruence|]. cbn [allBytes] in Hall.
    apply andb_true_iff in Hall as [Hx _].
    exists a, x, (id +:+ b). split; [|exact Hx]. rewrite append_cons. reflexivity.
  - intros (a & x & rest & -> & Hx). unfold folderIDFromLink, Go.findDelimited.
    destruct (leftmost_app (Go.delimitedHere "&m_folder=" Go.isIDByte EmptyString) a
                ("&m_folder=" +:+ String x rest)) as [id Hid].
    + unfold Go.delimitedHere. rewrite after_app. cbn [mbind option_bind Go.span].
      rewrite Hx. destruct (Go.span Go.isIDByte rest) as [run tl].
      destruct tl; eexists; reflexivity.
    + exists id. rewrite Hid. reflexivity.
Qed.

Lemma folderIDFromLink_returns_witness :
  (exists a x rest,
     "/x?m=1&m_folder=ab-9&z=2" = a +:+ "&m_folder=" +:+ String x rest /\ Go.isIDByte x = true) /\
  folderIDFromLink "/x?m=1&m_folder=ab-9&z=2" = Ret "ab-9" /\
  ("ab-9" <> EmptyString /\ allBytes Go.isIDByte "ab-9" = true /\
   exists a b, "/x?m=1&m_folder=ab-9&z=2" = a +:+ "&m_folder=" +:+ "ab-9" +:+ b /\
               stopsAt Go.isIDByte b).
Proof.
  assert (H : folderIDFromLink "/x?m=1&m_folder=ab-9&z=2" = Ret "ab-9") by reflexivity.
  split; [exists "/x?m=1", "a"%char, "b-9&z=2"; split; reflexivity|].
  split; [exact H|].
  exact (proj1 (folderIDFromLink_returns "/x?m=1&m_folder=ab-9&z=2") "ab-9" H).
Defined.

Lemma QueryEscape_cons a t :
  Go.QueryEscape (String a t) = Go.QueryEscape (String a EmptyString) +:+ Go.QueryEscape t.
Proof. destruct a as [[] [] [] [] [] [] [] []]; reflexivity. Qed.

Lemma QueryEscape_byte a : allBytes escaped (Go.QueryEscape (String a EmptyString)) = true.
Proof. destruct a as [[] [] [] [] [] [] [] []]; reflexivity. Qed.

Lemma QueryEscape_escaped s : allBytes escaped (Go.QueryEscape s) = true.
Proof.
  induction s as [|a s IH]; [reflexivity|].
  rewrite QueryEscape_cons, allBytes_app, QueryEscape_byte, IH. reflexivity.
Qed.

Lemma countByte_outside cls x s :
  cls x = false -> allBytes cls s = true -> countByte x s = O.
Proof.
  intros Hx. induction s as [|a s IH]; intros Hall; [reflexivity|].
  cbn [allBytes] in Hall. apply andb_true_iff in Hall as [Ha Hs].
  cbn [countByte]. destruct (decide (a = x)) as [->|_]; [congruence|]. apply IH. exact Hs.
Qed.

(** [X3] Whatever the report id, the link [reportLinkFromID] builds has one
    question mark, four ampersands and five equals signs, those of its five
    parameters: the id, escaped, cannot add a parameter or cut one short. *)
Theorem reportLink_parameters id :
  countByte "?" (reportLinkFromID id) = 1%nat /\
  countByte "&" (reportLinkFromID id) = 4%nat /\
  countByte "=" (reportLinkFromID id) = 5%nat.
Proof.
  pose proof (QueryEscape_escaped id) as Hesc.
  unfold reportLinkFromID, cgi. rewrite !countByte_app.
  rewrite (countByte_outside escaped "?" _ eq_refl Hesc).
  rewrite (countByte_outside escaped "&" _ eq_refl Hesc).
  rewrite (countByte_outside escaped "=" _ eq_refl Hesc).
  repeat split; reflexivity.
Qed.

(** [X4] A report link is never read as a folder link: [folderIDFromLink]
    panics on [reportLinkFromID id] for every id, also for one that spells
    [&m_folder=...]. *)
Theorem report_link_is_no_folder_link id :
  folderIDFromLink (reportLinkFromID id) =
  Panic ("Unable to find folder ID from link: " +:+ reportLinkFromID id).
Proof.
  unfold folderIDFromLink.
  assert (H : Go.findDelimited "&m_folder=" Go.isIDByte EmptyString (reportLinkFromID id) = None);
    [|rewrite H; reflexivity].
  unfold Go.findDelimited, reportLinkFromID, cgi.
  set (X := Go.QueryEscape id +:+ _). cbv [String.append].
  repeat (rewrite leftmost_skip by reflexivity).
  subst X. rewrite (leftmost_past _ "&"%char).
  - reflexivity.
  - intros a s Hne. apply folderHere_amp. exact Hne.
  - apply (countByte_outside escaped); [reflexivity|apply QueryEscape_escaped].
  - discriminate.
Qed.

(** ** Report ids from paths *)

Lemma append_inj_l (p x y : string) : p +:+ x = p +:+ y -> x = y.
Proof.
  induction p as [|a p IH]; [rewrite !append_nil; exact id|].
  rewrite !append_cons. intros H. injection H as H. exact (IH H).
Qed.

(** Two texts cut at the first byte outside a class. *)
Lemma cut_at cls q (a : string) : forall b x y,
  cls q = false -> allBytes cls a = true -> allBytes cls b = true ->
  a +:+ String q x = b +:+ String q y -> a = b /\ x = y.
Proof.
  induction a as [|c a IH]; intros b x y Hq Ha Hb H.
  - destruct b as [|d b].
    + rewrite !append_nil in H. injection H as ->. split; reflexivity.
    + rewrite append_nil, append_cons in H. injection H as <- _.
      cbn [allBytes] in Hb. apply andb_true_iff in Hb as [Hb _]. congruence.
  - cbn [allBytes] in Ha. apply andb_true_iff in Ha as [Hc Ha].
    destruct b as [|d b].
    + rewrite append_nil, append_cons in H. injection H as -> _. congruence.
    + rewrite !append_cons in H. injection H as <- H.
      cbn [allBytes] in Hb. apply andb_true_iff in Hb as [_ Hb].
      destruct (IH b x y Hq Ha Hb H) as [-> ->]. split; reflexivity.
Qed.

Lemma legal_allBytes s : legal s <-> allBytes (fun a => negb (illegal a)) s = true.
Proof.
  unfold legal, ContainsAnyIllegal.
  destruct (allBytes (fun a => negb (illegal a)) s); cbn; split; congruence.
Qed.

Lemma cognosEscape_legal s : legal s -> cognosEscape s = Ret s.
Proof. unfold legal, cognosEscape. intros ->. reflexivity. Qed.

Lemma cognosEscape_illegal s :
  ~ legal s ->
  cognosEscape s = Panic ("The value " +:+ s +:+ " contains an illegal charicter").
Proof.
  unfold legal, cognosEscape. destruct (ContainsAnyIllegal s); [reflexivity|congruence].
Qed.

Lemma legal_dec s : legal s \/ ~ legal s.
Proof. unfold legal. destruct (ContainsAnyIllegal s); [right|left]; congruence. Qed.

Lemma steps_render names : forall id,
  names <> [] -> Forall legal names -> steps id names = Ret (id +:+ render names).
Proof.
  induction names as [|a [|b rest] IH]; intros id Hne Hall; [congruence| |].
  - inversion Hall as [|? ? Ha _]; subst. cbn [steps render].
    rewrite (cognosEscape_legal a Ha). reflexivity.
  - inversion Hall as [|? ? Ha Hrest]; subst.
    change (steps id (a :: b :: rest)) with
      (match cognosEscape a with
       | Ret f => steps (id +:+ folderStep f) (b :: rest)
       | o => o
       end).
    rewrite (cognosEscape_legal a Ha), IH by (congruence || assumption).
    change (render (a :: b :: rest)) with (folderStep a +:+ render (b :: rest)).
    rewrite append_assoc. reflexivity.
Qed.

Lemma steps_bad pre : forall id bad post,
  Forall legal pre -> ~ legal bad ->
  steps id (pre ++ bad :: post) =
  Panic ("The value " +:+ bad +:+ " contains an illegal charicter").
Proof.
  induction pre as [|a pre IH]; intros id bad post Hpre Hbad.
  - cbn [app]. destruct post as [|b post].
    + cbn [steps]. rewrite (cognosEscape_illegal bad Hbad). reflexivity.
    + change (steps id (bad :: b :: post)) with
        (match cognosEscape bad with
         | Ret f => steps (id +:+ folderStep f) (b :: post)
         | o => o
         end).
      rewrite (cognosEscape_illegal bad Hbad). reflexivity.
  - inversion Hpre as [|? ? Ha Hpre']; subst. cbn [app].
    destruct (pre ++ bad :: post) as [|b rest] eqn:E; [destruct pre; discriminate E|].
    change (steps id (a :: b :: rest)) with
      (match cognosEscape a with
       | Ret f => steps (id +:+ folderStep f) (b :: rest)
       | o => o
       end).
    rewrite (cognosEscape_legal a Ha), <- E. apply IH; assumption.
Qed.

(** A list of names is all legal, or has a first name that is not. *)
Lemma first_illegal names :
  Forall legal names \/
  exists pre bad post, names = pre ++ bad :: post /\ Forall legal pre /\ ~ legal bad.
Proof.
  induction names as [|a names IH]; [left; constructor|].
  destruct (legal_dec a) as [Ha|Ha].
  - destruct IH as [IH|(pre & bad & post & -> & Hpre & Hbad)].
    + left. constructor; assumption.
    + right. exists (a :: pre), bad, post. repeat split; [constructor|]; assumption.
  - right. exists [], a, names. repeat split; [constructor|assumption].
Qed.

Lemma steps_inv names id x : names <> [] -> steps id names = Ret x -> Forall legal names.
Proof.
  intros Hne H. destruct (first_illegal names) as [Hall|(pre & bad & post & -> & Hpre & Hbad)];
    [exact Hall|].
  rewrite steps_bad in H by assumption. discriminate H.
Qed.

Lemma legal_public : legal "public".
Proof. reflexivity. Qed.

(** [X10] The errors of [reportIDFromPath].  A path of fewer than two
    components is refused with the message about the length, whatever its
    components hold.  A longer path is refused when a component holds a
    double quote, an apostrophe, a colon or a backslash, and the message
    names the first such component.  A longer path free of those bytes gets
    an id. *)
Theorem reportIDFromPath_errors path :
  ((length path < 2)%nat ->
   reportIDFromPath path =
   Panic ("A report path must contain at least a user (or " +:+ Go.quoted "public" +:+
          ") and a report name")) /\
  ((2 <= length path)%nat ->
   forall pre bad post,
     path = pre ++ bad :: post -> Forall legal pre -> ~ legal bad ->
     reportIDFromPath path =
     Panic ("The value " +:+ bad +:+ " contains an illegal charicter")) /\
  ((2 <= length path)%nat -> Forall legal path ->
   exists id, reportIDFromPath path = Ret id).
Proof.
  split; [|split].
  - destruct path as [|u [|n names]]; cbn [length]; intros H; try lia; reflexivity.
  - destruct path as [|u [|n names]]; cbn [length]; intros Hlen; try lia.
    intros pre bad post Hpath Hpre Hbad.
    change (reportIDFromPath (u :: n :: names)) with
      (if decide (u = "public") then steps "/content" (n :: names)
       else match cognosEscape u with
            | Ret u' => steps (("CAMID(" +:+ Go.quoted ("esp:a:" +:+ u')) +:+ ")") (n :: names)
            | o => o
            end).
    destruct pre as [|p pre]; cbn [app] in Hpath.
    + injection Hpath as -> Hpost.
      destruct (decide (bad = "public")) as [->|_]; [destruct (Hbad legal_public)|].
      rewrite (cognosEscape_illegal bad Hbad). reflexivity.
    + injection Hpath as -> Hnames. inversion Hpre as [|? ? Hp Hpre']; subst.
      rewrite Hnames. destruct (decide (p = "public")) as [_|_].
      * apply steps_bad; assumption.
      * rewrite (cognosEscape_legal p Hp). apply steps_bad; assumption.
  - destruct path as [|u [|n names]]; cbn [length]; intros Hlen; try lia.
    intros Hall. inversion Hall as [|? ? Hu Hnames]; subst.
    change (reportIDFromPath (u :: n :: names)) with
      (if decide (u = "public") then steps "/content" (n :: names)
       else match cognosEscape u with
            | Ret u' => steps (("CAMID(" +:+ Go.quoted ("esp:a:" +:+ u')) +:+ ")") (n :: names)
            | o => o
            end).
    destruct (decide (u = "public")) as [_|_].
    + eexists. apply steps_render; [congruence|assumption].
    + rewrite (cognosEscape_legal u Hu). eexists. apply steps_render; [congruence|assumption].
Qed.

(** A path with a colon in its third component, and an apostrophe after
    it: the colon is reported. *)
Lemma reportIDFromPath_errors_witness :
  (2 <= length ["public"; "Students"; "a:b"; "c'd"])%nat /\
  Forall legal ["public"; "Students"] /\ ~ legal "a:b" /\
  reportIDFromPath ["public"; "Students"; "a:b"; "c'd"] =
  Panic "The value a:b contains an illegal charicter".
Proof.
  assert (Hlen : (2 <= length ["public"; "Students"; "a:b"; "c'd"])%nat) by (cbn; lia).
  assert (Hpre : Forall legal ["public"; "Students"]) by (repeat constructor).
  assert (Hbad : ~ legal "a:b") by (unfold legal; vm_compute; discriminate).
  split; [exact Hlen|]. split; [exact Hpre|]. split; [exact Hbad|].
  exact (proj1 (proj2 (reportIDFromPath_errors ["public"; "Students"; "a:b"; "c'd"])) Hlen
           ["public"; "Students"] "a:b" ["c'd"] eq_refl Hpre Hbad).
Defined.

Lemma render_snoc folders : forall report,
  render (folders ++ [report]) =
  fold_right (fun f acc => folderStep f +:+ acc) (reportStep report) folders.
Proof.
  induction folders as [|f folders IH]; intros report; [reflexivity|].
  cbn [app fold_right]. rewrite <- IH.
  destruct (folders ++ [report]) as [|b rest] eqn:E; [destruct folders; discriminate E|].
  reflexivity.
Qed.

(** [X11] The id of a path.  For a path of a root, folders and a report,
    none with a byte [cognosEscape] refuses, [reportIDFromPath] returns the
    search path of the store: [/content] for the root [public] and
    [CAMID("esp:a:user")] for a user, then a step [/folder[@name='f']] for
    each folder in order, then the step [/report[@name='r']]. *)
Theorem reportIDFromPath_shape user folders report :
  Forall legal (user :: folders ++ [report]) ->
  reportIDFromPath (user :: folders ++ [report]) =
  Ret ((if decide (user = "public") then "/content"
        else "CAMID(" +:+ String Go.dquote ("esp:a:" +:+ user) +:+ String Go.dquote ")") +:+
       fold_right (fun f acc => "/folder[@name='" +:+ f +:+ "']" +:+ acc)
         ("/report[@name='" +:+ report +:+ "']") folders).
Proof.
  intros Hall. inversion Hall as [|? ? Hu Hnames]; subst.
  assert (Hne : folders ++ [report] <> []) by (destruct folders; discriminate).
  assert (Hsteps : forall id, steps id (folders ++ [report]) =
            Ret (id +:+ fold_right (fun f acc => "/folder[@name='" +:+ f +:+ "']" +:+ acc)
                          ("/report[@name='" +:+ report +:+ "']") folders)).
  { intros id. rewrite steps_render, render_snoc by assumption. do 2 f_equal.
    clear. induction folders as [|f folders IH]; [reflexivity|].
    cbn [fold_right]. rewrite IH. unfold folderStep. rewrite !append_assoc. reflexivity. }
  unfold reportIDFromPath.
  destruct (folders ++ [report]) as [|n names] eqn:E; [congruence|].
  destruct (decide (user = "public")) as [_|_]; [apply Hsteps|].
  rewrite (cognosEscape_legal user Hu), Hsteps. do 2 f_equal.
  unfold Go.quoted. repeat (rewrite ?append_cons, ?append_nil, ?append_assoc). reflexivity.
Qed.

Lemma reportIDFromPath_shape_witness :
  Forall legal ("0401jpenn" :: ["Attendance"; "Daily"] ++ ["Absences"]) /\
  reportIDFromPath ["0401jpenn"; "Attendance"; "Daily"; "Absences"] =
  Ret ("CAMID(" +:+ String Go.dquote "esp:a:0401jpenn" +:+ String Go.dquote ")" +:+
       "/folder[@name='Attendance']/folder[@name='Daily']/report[@name='Absences']").
Proof.
  assert (Hall : Forall legal ("0401jpenn" :: ["Attendance"; "Daily"] ++ ["Absences"]))
    by (repeat constructor).
  split; [exact Hall|].
  exact (reportIDFromPath_shape "0401jpenn" ["Attendance"; "Daily"] "Absences" Hall).
Defined.

Lemma render_inj n1 : forall n2,
  n1 <> [] -> n2 <> [] -> Forall legal n1 -> Forall legal n2 ->
  render n1 = render n2 -> n1 = n2.
Proof.
  induction n1 as [|a r1 IH]; intros n2 H1 H2 L1 L2 H; [congruence|].
  destruct n2 as [|a2 r2]; [congruence|].
  inversion L1 as [|? ? La L1']; subst. inversion L2 as [|? ? La2 L2']; subst.
  apply legal_allBytes in La, La2.
  assert (Hq : negb (illegal Go.squote) = false) by reflexivity.
  destruct r1 as [|b1 r1], r2 as [|b2 r2].
  - cbn [render] in H. unfold reportStep in H. apply append_inj_l in H.
    change ("']") with (String Go.squote "]") in H.
    destruct (cut_at (fun a => negb (illegal a)) Go.squote _ _ _ _ Hq La La2 H) as [-> _]. reflexivity.
  - change (render [a]) with (reportStep a) in H.
    change (render (a2 :: b2 :: r2)) with (folderStep a2 +:+ render (b2 :: r2)) in H.
    unfold reportStep, folderStep in H. rewrite !append_cons in H. discriminate H.
  - change (render [a2]) with (reportStep a2) in H.
    change (render (a :: b1 :: r1)) with (folderStep a +:+ render (b1 :: r1)) in H.
    unfold reportStep, folderStep in H. rewrite !append_cons in H. discriminate H.
  - change (render (a :: b1 :: r1)) with (folderStep a +:+ render (b1 :: r1)) in H.
    change (render (a2 :: b2 :: r2)) with (folderStep a2 +:+ render (b2 :: r2)) in H.
    unfold folderStep in H. rewrite !append_assoc in H. apply append_inj_l in H.
    change ("']" +:+ render (b1 :: r1)) with (String Go.squote ("]" +:+ render (b1 :: r1))) in H.
    change ("']" +:+ render (b2 :: r2)) with (String Go.squote ("]" +:+ render (b2 :: r2))) in H.
    destruct (cut_at (fun a => negb (illegal a)) Go.squote _ _ _ _ Hq La La2 H) as [-> Hrest].
    apply append_inj_l in Hrest. f_equal. apply IH; (congruence || assumption).
Qed.

(** [X12] Distinct paths, distinct ids.  Two paths for which
    [reportIDFromPath] returns the same id are the same path: the bytes
    [cognosEscape] refuses are what keeps a name from running into the next
    step of the search path. *)
Theorem reportIDFromPath_injective p q id :
  reportIDFromPath p = Ret id -> reportIDFromPath q = Ret id -> p = q.
Proof.
  assert (Hform : forall path i, reportIDFromPath path = Ret i ->
    exists user names, path = user :: names /\ names <> [] /\ Forall legal names /\
      ((user = "public" /\ i = "/content" +:+ render names) \/
       (user <> "public" /\ legal user /\
        i = "CAMID(" +:+ String Go.dquote ("esp:a:" +:+ user +:+
              String Go.dquote (")" +:+ render names))))).
  { intros path i H. destruct path as [|u [|n names]]; try discriminate H.
    assert (Hne : n :: names <> []) by congruence.
    exists u, (n :: names). split; [reflexivity|]. split; [exact Hne|].
    change (reportIDFromPath (u :: n :: names)) with
      (if decide (u = "public") then steps "/content" (n :: names)
       else match cognosEscape u with
            | Ret u' => steps (("CAMID(" +:+ Go.quoted ("esp:a:" +:+ u')) +:+ ")") (n :: names)
            | o => o
            end) in H.
    destruct (decide (u = "public")) as [Hu|Hu].
    - pose proof (steps_inv _ _ _ Hne H) as Hall.
      rewrite steps_render in H by (congruence || assumption). injection H as <-.
      split; [exact Hall|]. left. split; [exact Hu|reflexivity].
    - destruct (legal_dec u) as [Lu|Lu];
        [|rewrite (cognosEscape_illegal u Lu) in H; discriminate H].
      rewrite (cognosEscape_legal u Lu) in H.
      pose proof (steps_inv _ _ _ Hne H) as Hall.
      rewrite steps_render in H by (congruence || assumption). injection H as <-.
      split; [exact Hall|]. right. split; [exact Hu|]. split; [exact Lu|].
      unfold Go.quoted. repeat (rewrite ?append_cons, ?append_nil, ?append_assoc).
      reflexivity. }
  intros Hp Hq.
  destruct (Hform p id Hp) as (u1 & n1 & -> & Hn1 & L1 & F1).
  destruct (Hform q id Hq) as (u2 & n2 & -> & Hn2 & L2 & F2).
  assert (Hd : negb (illegal Go.dquote) = false) by reflexivity.
  destruct F1 as [[-> E1]|(Hu1 & Lu1 & E1)], F2 as [[-> E2]|(Hu2 & Lu2 & E2)].
  - rewrite E1 in E2. apply append_inj_l in E2. f_equal. apply render_inj; assumption.
  - rewrite E1 in E2. rewrite !append_cons in E2. discriminate E2.
  - rewrite E1 in E2. rewrite !append_cons in E2. discriminate E2.
  - rewrite E1 in E2. apply append_inj_l in E2. injection E2 as E2.
    apply append_inj_l in E2. apply legal_allBytes in Lu1, Lu2.
    destruct (cut_at (fun a => negb (illegal a)) Go.dquote _ _ _ _ Hd Lu1 Lu2 E2) as [-> Hrest].
    apply append_inj_l in Hrest. f_equal. apply render_inj; assumption.
Qed.

Lemma reportIDFromPath_injective_witness :
  reportIDFromPath ["public"; "A"; "r"] = Ret "/content/folder[@name='A']/report[@name='r']" /\
  ["public"; "A"; "r"] = ["public"; "A"; "r"].
Proof.
  assert (H : reportIDFromPath ["public"; "A"; "r"] =
              Ret "/content/folder[@name='A']/report[@name='r']") by reflexivity.
  split; [exact H|].
  exact (reportIDFromPath_injective ["public"; "A"; "r"] ["public"; "A"; "r"] _ H H).
Defined.

(** ** Report links *)

Lemma unhex_upperhex a :
  unhex (Go.upperhex (Z.shiftr (Go.byteOf a) 4)) (Go.upperhex (Z.land (Go.byteOf a) 15)) = a.
Proof. destruct a as [[] [] [] [] [] [] [] []]; reflexivity. Qed.

Lemma QueryEscape_inj s : forall t, Go.QueryEscape s = Go.QueryEscape t -> s = t.
Proof.
  induction s as [|a s IH]; intros [|b t] H; cbn [Go.QueryEscape] in H.
  - reflexivity.
  - destruct (Go.unreserved b); [discriminate H|].
    destruct (decide (b = " "%char)); discriminate H.
  - destruct (Go.unreserved a); [discriminate H|].
    destruct (decide (a = " "%char)); discriminate H.
  - destruct (Go.unreserved a) eqn:Ua, (Go.unreserved b) eqn:Ub.
    + injection H as -> H. f_equal. apply IH. exact H.
    + destruct (decide (b = " "%char)); injection H as -> H; discriminate Ua.
    + destruct (decide (a = " "%char)); injection H as <- H; discriminate Ub.
    + destruct (decide (a = " "%char)) as [->|Ha], (decide (b = " "%char)) as [->|Hb];
        try discriminate H.
      * injection H as H. f_equal. apply IH. exact H.
      * injection H as H1 H2 H. f_equal; [|apply IH; exact H].
        rewrite <- (unhex_upperhex a), <- (unhex_upperhex b), H1, H2. reflexivity.
Qed.

(** [X21] Distinct reports, distinct links: [reportLinkFromID] gives the same
    link for two ids only when they are the same id, whatever bytes they
    hold. *)
Theorem reportLinkFromID_injective id1 id2 :
  reportLinkFromID id1 = reportLinkFromID id2 -> id1 = id2.
Proof.
  unfold reportLinkFromID. intros H.
  repeat (rewrite ?append_assoc in H). do 4 apply append_inj_l in H.
  change ("&run.outputFormat=CSV" +:+ "&run.prompt=false")
    with (String "&"%char ("run.outputFormat=CSV" +:+ "&run.prompt=false")) in H.
  apply QueryEscape_inj.
  exact (proj1 (cut_at escaped "&"%char _ _ _ _ eq_refl
                  (QueryEscape_escaped id1) (QueryEscape_escaped id2) H)).
Qed.

Lemma reportLinkFromID_injective_witness :
  reportLinkFromID "a b" = reportLinkFromID "a b" /\ "a b" = "a b".
Proof.
  assert (H : reportLinkFromID "a b" = reportLinkFromID "a b") by reflexivity.
  split; [exact H|]. exact (reportLinkFromID_injective "a b" "a b" H).
Defined.

(** ** Every call of [Request] *)

Lemma attempts_schedule_eq c method link reqBody j :
  attempts (schedule (wire c method link reqBody) (backoff c) j) =
  replicate j (wire c method link reqBody).
Proof.
  destruct j as [|j]; [reflexivity|]. cbn. f_equal.
  induction j as [|j IH]; [reflexivity|]. cbn. f_equal. exact IH.
Qed.

Lemma attempts_bracket method link reqBody mid tail :
  attempts (EvCall method link reqBody :: EvAcquire :: mid ++ tail) =
  attempts mid ++ attempts tail.
Proof. unfold attempts. cbn. apply List.filter_app. Qed.

(** The first answer with status 200 among [n] answers: where it is, and
    that no answer before it has that status. *)
Lemma firstOK_Some net n : forall k j body,
  firstOK net k n = Some (j, body) ->
  (j < n)%nat /\ (exists status, net (k + j)%nat = Resp 200 status body) /\
  forall i, (i < j)%nat -> forall status b, net (k + i)%nat <> Resp 200 status b.
Proof.
  induction n as [|n IH]; intros k j body H; [discriminate H|].
  cbn [firstOK] in H.
  assert (Hnext : (fun r : nat * string => (S (fst r), snd r)) <$> firstOK net (S k) n =
                  Some (j, body) ->
                  (forall status b, net k <> Resp 200 status b) ->
                  (j < S n)%nat /\ (exists status, net (k + j)%nat = Resp 200 status body) /\
                  forall i, (i < j)%nat -> forall status b, net (k + i)%nat <> Resp 200 status b).
  { intros Hn Hk. destruct (firstOK net (S k) n) as [[j' body']|] eqn:E; [|discriminate Hn].
    cbn in Hn. injection Hn as <- <-.
    destruct (IH (S k) j' body' E) as (Hlt & [status Hst] & Hbefore).
    split; [lia|]. split.
    - exists status. replace (k + S j')%nat with (S k + j')%nat by lia. exact Hst.
    - intros i Hi. destruct i as [|i].
      + rewrite Nat.add_0_r. apply Hk.
      + replace (k + S i)%nat with (S k + i)%nat by lia. apply Hbefore. lia. }
  destruct (net k) as [err|code status b] eqn:Hk.
  - apply Hnext; [exact H|]. intros; discriminate.
  - destruct (code =? 200) eqn:E.
    + injection H as <- <-. apply Z.eqb_eq in E as ->.
      split; [lia|]. split; [exists status; rewrite Nat.add_0_r; exact Hk|]. intros i Hi. lia.
    + apply Hnext; [exact H|]. intros status' b' Heq. injection Heq as -> _ _. discriminate E.
Qed.

(** [X18] The attempts of a call.  Whatever comes of a call of [Request],
    it has made at most [RetryCount] attempts, each the same request: the
    method and the body given, to [c.URL+link], with the credentials of the
    instance; and it leaves the gate as it found it.  A body it returns is
    the body of its last attempt, the first one answered with status 200;
    when it panics it has used all its tries, and the message names the
    link; when it waits for a slot it has made no attempt. *)
Theorem Request_attempts c method link reqBody w o w' :
  Request c method link reqBody w = (o, w') ->
  exists k, (k <= Z.to_nat (RetryCount c))%nat /\
    attempts (trace w') = attempts (trace w) ++ replicate k (wire c method link reqBody) /\
    served w' = (served w + k)%nat /\ held w' = held w /\
    (forall body, o = Ret body ->
       exists j status, k = S j /\ net w (served w + j)%nat = Resp 200 status body /\
         forall i, (i < j)%nat -> forall st b, net w (served w + i)%nat <> Resp 200 st b) /\
    (forall p, o = Panic p -> p = failed link /\ k = Z.to_nat (RetryCount c)) /\
    (o = Blocked -> k = O) /\
    o <> OutOfFuel.
Proof.
  intros H.
  destruct (Z.le_gt_cases (held w + 1) (httpLockPool c)) as [Hfree|Hfull].
  - rewrite Request_char in H by exact Hfree.
    destruct (firstOK (net w) (served w) (Z.to_nat (RetryCount c))) as [[j body]|] eqn:E;
      injection H as <- <-; cbn [trace served held].
    + destruct (firstOK_Some _ _ _ _ _ E) as (Hlt & [status Hst] & Hbefore).
      exists (S j). split; [lia|]. split.
      { rewrite attempts_app. f_equal.
        rewrite <- (attempts_schedule_eq c method link reqBody (S j)).
        etransitivity;
          [exact (attempts_bracket method link reqBody
                    (schedule (wire c method link reqBody) (backoff c) (S j))
                    [EvRelease; EvReturn body])|].
        apply app_nil_r. }
      split; [reflexivity|]. split; [reflexivity|]. split.
      { intros b Hb. injection Hb as <-. exists j, status.
        split; [reflexivity|]. split; [exact Hst|exact Hbefore]. }
      split; [intros p Hp; discriminate Hp|]. split; intros Ho; discriminate Ho.
    + exists (Z.to_nat (RetryCount c)). split; [lia|]. split.
      { rewrite attempts_app. f_equal.
        rewrite <- (attempts_schedule_eq c method link reqBody (Z.to_nat (RetryCount c))).
        etransitivity;
          [exact (attempts_bracket method link reqBody
                    (schedule (wire c method link reqBody) (backoff c) (Z.to_nat (RetryCount c)))
                    [EvRelease])|].
        apply app_nil_r. }
      split; [reflexivity|]. split; [reflexivity|]. split; [intros b Hb; discriminate Hb|].
      split; [intros p Hp; injection Hp as <-; split; reflexivity|].
      split; intros Ho; discriminate Ho.
  - rewrite Request_blocked in H by lia. injection H as <- <-.
    exists O. split; [lia|]. unfold emit. cbn [trace served held]. split.
    { rewrite attempts_app. cbn. reflexivity. }
    split; [lia|]. split; [reflexivity|]. split; [intros b Hb; discriminate Hb|].
    split; [intros p Hp; discriminate Hp|]. split; [reflexivity|discriminate].
Qed.

Lemma Request_attempts_witness :
  let w := mkWorld flaky 0 0 [] in
  let w' := (Request demo "GET" "/x" EmptyString w).2 in
  Request demo "GET" "/x" EmptyString w = (Ret "body", w') /\
  exists k, (k <= 3)%nat /\
    attempts (trace w') = replicate k (EvHTTP "GET" "https://host/x" "user" "pass" EmptyString) /\
    served w' = k /\ held w' = 0.
Proof.
  intros w w'.
  assert (H : Request demo "GET" "/x" EmptyString w = (Ret "body", w'))
    by (vm_compute; reflexivity).
  split; [exact H|].
  destruct (Request_attempts demo "GET" "/x" EmptyString w (Ret "body") w' H)
    as (k & Hk & Hatt & Hserved & Hheld & _).
  exists k. repeat split; assumption.
Defined.

(** [X19] A gate without slots.  An instance made with [concurentRequests]
    zero has a gate no call can pass: every call of [Request] waits for a
    slot for ever, and no attempt is made. *)
Theorem no_slot_no_request user pass url dsn retryDelay retryCount httpTimeout
    method link reqBody w :
  0 <= held w ->
  let c := MakeInstance user pass url dsn retryDelay retryCount httpTimeout 0 in
  Request c method link reqBody w = (Blocked, emit (EvCall method link reqBody) w) /\
  attempts (trace (emit (EvCall method link reqBody) w)) = attempts (trace w).
Proof.
  intros Hheld c. split.
  - apply Request_blocked. subst c. unfold MakeInstance. cbn [httpLockPool].
    change (Go.wrap64 (Z.of_N 0)) with 0. lia.
  - unfold emit. cbn [trace]. rewrite attempts_app. cbn. apply app_nil_r.
Qed.

Lemma no_slot_no_request_witness :
  let w := fresh ["page"] in
  0 <= held w /\
  Request (MakeInstance "user" "pass" "https://host" "dsn" 5 3 30 0) "GET" "/x" EmptyString w =
    (Blocked, emit (EvCall "GET" "/x" EmptyString) w) /\
  attempts (trace (emit (EvCall "GET" "/x" EmptyString) w)) = attempts (trace w).
Proof.
  intros w.
  assert (Hheld : 0 <= held w) by (cbn; lia).
  split; [exact Hheld|].
  exact (no_slot_no_request "user" "pass" "https://host" "dsn" 5 3 30 "GET" "/x" EmptyString w
           Hheld).
Defined.

(** ** More on the folder tree *)

(** [X5] [findFolderRoots] makes one call, the GET of the login link.  When
    it returns [(p, m)], the page that call returned holds the assignments
    [var g_PS_PFRootId = "p";] and [var g_PS_MFRootId = "m";], with [p] and
    [m] non-empty runs of [0-9a-zA-Z-]; and it does return when the page
    holds an assignment of each kind.  A page without one for the public
    root makes it panic with the message for the public root; a page with
    one for the public root and none for the other, with the message for
    [my folder]. *)
Theorem findFolderRoots_reads c w :
  (forall o w', findFolderRoots c w = (o, w') ->
     calls (trace w') = calls (trace w) ++ [EvCall "GET" (loginLink c) EmptyString]) /\
  (forall p m w', findFolderRoots c w = (Ret (p, m), w') ->
     exists html,
       Request c "GET" (loginLink c) EmptyString w = (Ret html, w') /\
       assignsRoot html "g_PS_PFRootId" p /\ assignsRoot html "g_PS_MFRootId" m) /\
  (forall html w' p0 m0,
     Request c "GET" (loginLink c) EmptyString w = (Ret html, w') ->
     assignsRoot html "g_PS_PFRootId" p0 -> assignsRoot html "g_PS_MFRootId" m0 ->
     exists p m, findFolderRoots c w = (Ret (p, m), w')) /\
  (forall html w',
     Request c "GET" (loginLink c) EmptyString w = (Ret html, w') ->
     (forall v, ~ assignsRoot html "g_PS_PFRootId" v) ->
     findFolderRoots c w = (Panic "Unable to find Cognos public root folder ID", w')) /\
  (forall html w' p0,
     Request c "GET" (loginLink c) EmptyString w = (Ret html, w') ->
     assignsRoot html "g_PS_PFRootId" p0 ->
     (forall v, ~ assignsRoot html "g_PS_MFRootId" v) ->
     findFolderRoots c w =
       (Panic ("Unable to find Cognos " +:+ Go.quoted "my folder" +:+ " ID"), w')).
Proof.
  assert (Hsound : forall name html v, rootPattern name html = Some v -> assignsRoot html name v).
  { intros name html v H. unfold rootPattern in H.
    destruct (findDelimited_sound _ _ _ _ _ H) as (Hne & Hall & a & b & -> & _).
    split; [exact Hne|]. split; [exact Hall|]. exists a, b. reflexivity. }
  assert (Hcomplete : forall name html v, assignsRoot html name v -> is_Some (rootPattern name html)).
  { intros name html v (Hne & Hall & a & b & ->). unfold rootPattern.
    apply findDelimited_complete; [exact Hne|exact Hall|reflexivity]. }
  split; [intros o w'; apply findFolderRoots_calls|]. split; [|split; [|split]].
  - intros p m w' H. unfold findFolderRoots, bind in H.
    destruct (Request c "GET" (loginLink c) EmptyString w) as [[html| | |] w1]; try discriminate H.
    destruct (rootPattern "g_PS_PFRootId" html) as [p'|] eqn:Ep; [|discriminate H].
    destruct (rootPattern "g_PS_MFRootId" html) as [m'|] eqn:Em; [|discriminate H].
    injection H as <- <- <-. exists html. split; [reflexivity|]. split; apply Hsound; assumption.
  - intros html w' p0 m0 Hreq Hp Hm. unfold findFolderRoots.
    erewrite bind_Ret by exact Hreq.
    destruct (Hcomplete _ _ _ Hp) as [p ->]. destruct (Hcomplete _ _ _ Hm) as [m ->].
    exists p, m. reflexivity.
  - intros html w' Hreq Hnone. unfold findFolderRoots.
    erewrite bind_Ret by exact Hreq.
    destruct (rootPattern "g_PS_PFRootId" html) as [p|] eqn:Ep; [|reflexivity].
    destruct (Hnone p (Hsound _ _ _ Ep)).
  - intros html w' p0 Hreq Hp Hnone. unfold findFolderRoots.
    erewrite bind_Ret by exact Hreq.
    destruct (Hcomplete _ _ _ Hp) as [p ->].
    destruct (rootPattern "g_PS_MFRootId" html) as [m|] eqn:Em; [|reflexivity].
    destruct (Hnone m (Hsound _ _ _ Em)).
Qed.

Lemma findFolderRoots_reads_witness :
  let w := fresh [loginPage] in
  let w' := (findFolderRoots demo w).2 in
  findFolderRoots demo w = (Ret ("pf-1", "mf-2"), w') /\
  exists html,
    Request demo "GET" (loginLink demo) EmptyString w = (Ret html, w') /\
    assignsRoot html "g_PS_PFRootId" "pf-1" /\ assignsRoot html "g_PS_MFRootId" "mf-2".
Proof.
  intros w w'.
  assert (H : findFolderRoots demo w = (Ret ("pf-1", "mf-2"), w')) by (vm_compute; reflexivity).
  split; [exact H|].
  exact (proj1 (proj2 (findFolderRoots_reads demo w)) "pf-1" "mf-2" w' H).
Defined.

Section ResolveFacts.

Variable pageLinks : string -> outcome (list (string * string)).
Variable uiObject : string -> outcome string.
Variable c : CognosInstance.

(** The loop of [FolderEntryFromPath] against [leads]: the index test
    [len(path)-2 == i] holds for the last component and for no other. *)
Lemma walk_leads n comps : forall i cur w e w',
  n = (i + 1 + length comps)%nat ->
  walk pageLinks uiObject c n i comps cur w = (Ret e, w') <->
  leads pageLinks uiObject c w cur comps e w'.
Proof.
  induction comps as [|name rest IH]; intros i cur w e w' Hn.
  - cbn [walk]. unfold ret. split.
    + intros H. injection H as <- <-. constructor.
    + intros H. inversion H; subst. reflexivity.
  - cbn [walk length] in *. split.
    + intros H. unfold bind in H.
      destruct (LsFolder pageLinks uiObject c (ID cur) w) as [[entries| | |] w1] eqn:Hls;
        try discriminate H.
      destruct (entries !! name) as [next|] eqn:Hnext; [|discriminate H].
      destruct (bool_decide (Type_ next = Report) && negb (Z.of_nat n - 2 =? Z.of_nat i)) eqn:Hc;
        [discriminate H|].
      apply (leads_on _ _ _ _ _ _ _ _ _ _ _ _ Hls Hnext).
      * intros Hrep. rewrite bool_decide_eq_true_2 in Hc by exact Hrep. cbn [andb] in Hc.
        apply negb_false_iff, Z.eqb_eq in Hc. destruct rest; [reflexivity|cbn in Hn; lia].
      * apply (IH (S i)); [lia|exact H].
    + intros H. revert Hn.
      inversion H as [|? ? ? ? entries w1 next ? ? Hls Hnext Hlast Hrest]; subst. intros Hn.
      unfold bind. rewrite Hls, Hnext.
      assert (Hc : bool_decide (Type_ next = Report) && negb (Z.of_nat n - 2 =? Z.of_nat i) = false).
      { destruct (decide (Type_ next = Report)) as [Hrep|Hrep].
        - rewrite (Hlast Hrep) in Hn. cbn in Hn.
          rewrite bool_decide_eq_true_2 by exact Hrep. cbn [andb].
          apply negb_false_iff, Z.eqb_eq. lia.
        - rewrite bool_decide_eq_false_2 by exact Hrep. reflexivity. }
      rewrite Hc. apply (IH (S i)); [lia|exact Hrest].
Qed.

(** [X6] What [FolderEntryFromPath] returns.  It returns an entry exactly
    when the path starts with [public] or [~], the roots are found, and the
    other components lead from the root folder of that name to the entry:
    each is found in the listing of the one before, and none but the last is
    a report.  The world it ends in is the one the last listing left. *)
Theorem FolderEntryFromPath_returns path w e w' :
  FolderEntryFromPath pageLinks uiObject c path w = (Ret e, w') <->
  exists root comps p m w1,
    path = root :: comps /\
    findFolderRoots c w = (Ret (p, m), w1) /\
    ((root = "public" /\ leads pageLinks uiObject c w1 (mkEntry Folder p) comps e w') \/
     (root = "~" /\ leads pageLinks uiObject c w1 (mkEntry Folder m) comps e w')).
Proof.
  split.
  - intros H. destruct path as [|root comps]; [discriminate H|].
    unfold FolderEntryFromPath in H. unfold bind at 1 in H.
    destruct (decide (root = "public")) as [->|Hpub].
    + unfold bind at 1 in H.
      destruct (findFolderRoots c w) as [[[p m]| | |] w1] eqn:Hroots; try discriminate H.
      exists "public", comps, p, m, w1. split; [reflexivity|]. split; [reflexivity|].
      left. split; [reflexivity|]. apply (walk_leads (length ("public" :: comps)) comps 0);
        [reflexivity|exact H].
    + destruct (decide (root = "~")) as [->|Hmy]; [|discriminate H].
      unfold bind at 1 in H.
      destruct (findFolderRoots c w) as [[[p m]| | |] w1] eqn:Hroots; try discriminate H.
      exists "~", comps, p, m, w1. split; [reflexivity|]. split; [reflexivity|].
      right. split; [reflexivity|]. apply (walk_leads (length ("~" :: comps)) comps 0);
        [reflexivity|exact H].
  - intros (root & comps & p & m & w1 & -> & Hroots & [[-> Hl]|[-> Hl]]);
      unfold FolderEntryFromPath; unfold bind at 1.
    + destruct (decide ("public" = "public")) as [_|Hne]; [|congruence].
      unfold bind at 1. rewrite Hroots.
      apply (walk_leads (length ("public" :: comps)) comps 0); [reflexivity|exact Hl].
    + destruct (decide ("~" = "public")) as [Hne|_]; [discriminate Hne|].
      destruct (decide ("~" = "~")) as [_|Hne]; [|congruence].
      unfold bind at 1. rewrite Hroots.
      apply (walk_leads (length ("~" :: comps)) comps 0); [reflexivity|exact Hl].
Qed.

Lemma walk_calls n comps : forall i cur w,
  (length (calls (trace (walk pageLinks uiObject c n i comps cur w).2)) <=
   length (calls (trace w)) + length comps)%nat /\
  (forall e, (walk pageLinks uiObject c n i comps cur w).1 = Ret e ->
     length (calls (trace (walk pageLinks uiObject c n i comps cur w).2)) =
     (length (calls (trace w)) + length comps)%nat).
Proof.
  induction comps as [|name rest IH]; intros i cur w; cbn [walk length].
  - cbn. split; [lia|intros; lia].
  - unfold bind.
    destruct (LsFolder pageLinks uiObject c (ID cur) w) as [o w1] eqn:Hls.
    pose proof (LsFolder_calls _ _ _ _ _ _ _ Hls) as Hc.
    assert (Hlen : length (calls (trace w1)) = S (length (calls (trace w))))
      by (rewrite Hc, length_app; cbn; lia).
    destruct o as [entries| | |]; cbn [fst snd]; try (split; [lia|discriminate]).
    destruct (entries !! name) as [next|]; [|cbn; split; [lia|discriminate]].
    destruct (bool_decide (Type_ next = Report) && negb (Z.of_nat n - 2 =? Z.of_nat i));
      [cbn; split; [lia|discriminate]|].
    destruct (IH (S i) next w1) as [IH1 IH2]. split; [lia|].
    intros e He. rewrite (IH2 e He). lia.
Qed.

(** [X7] The calls of [FolderEntryFromPath]: never more than the path has
    components, one for the roots and one listing for each component it gets
    to; exactly that many when it returns; and none at all for the empty
    path and for a root other than [public] and [~], which make it panic in
    the world it started in. *)
Theorem FolderEntryFromPath_calls path w :
  (length (calls (trace (FolderEntryFromPath pageLinks uiObject c path w).2)) <=
   length (calls (trace w)) + length path)%nat /\
  (forall e, (FolderEntryFromPath pageLinks uiObject c path w).1 = Ret e ->
     length (calls (trace (FolderEntryFromPath pageLinks uiObject c path w).2)) =
     (length (calls (trace w)) + length path)%nat) /\
  (path = [] ->
   FolderEntryFromPath pageLinks uiObject c path w =
     (Panic "Cannot get folder entry for empty path", w)) /\
  (forall root comps, path = root :: comps -> root <> "public" -> root <> "~" ->
   FolderEntryFromPath pageLinks uiObject c path w =
     (Panic ("Invalid root folder " +:+ root), w)).
Proof.
  assert (Hbad : forall root comps, root <> "public" -> root <> "~" ->
            FolderEntryFromPath pageLinks uiObject c (root :: comps) w =
            (Panic ("Invalid root folder " +:+ root), w)).
  { intros root comps Hp Hm. unfold FolderEntryFromPath. unfold bind at 1.
    rewrite decide_False by exact Hp. rewrite decide_False by exact Hm. reflexivity. }
  assert (Hgood : forall (pick : string * string -> string) comps,
            let m := let* id := (let* roots := findFolderRoots c in ret (pick roots)) in
                     walk pageLinks uiObject c (S (length comps)) 0 comps (mkEntry Folder id) in
            (length (calls (trace (m w).2)) <= length (calls (trace w)) + S (length comps))%nat /\
            (forall e, (m w).1 = Ret e ->
               length (calls (trace (m w).2)) = (length (calls (trace w)) + S (length comps))%nat)).
  { intros pick comps m.
    destruct (findFolderRoots c w) as [o w1] eqn:Hroots.
    pose proof (findFolderRoots_calls _ _ _ _ Hroots) as Hc.
    assert (Hlen : length (calls (trace w1)) = S (length (calls (trace w))))
      by (rewrite Hc, length_app; cbn; lia).
    destruct o as [roots|v| |].
    - assert (Hm : m w = walk pageLinks uiObject c (S (length comps)) 0 comps
                           (mkEntry Folder (pick roots)) w1)
        by (subst m; unfold bind; rewrite Hroots; reflexivity).
      rewrite Hm.
      destruct (walk_calls (S (length comps)) comps 0 (mkEntry Folder (pick roots)) w1) as [H1 H2].
      split; [lia|]. intros e He. rewrite (H2 e He). lia.
    - assert (Hm : m w = (Panic v, w1)) by (subst m; unfold bind; rewrite Hroots; reflexivity).
      rewrite Hm. cbn [fst snd]. split; [lia|discriminate].
    - assert (Hm : m w = (Blocked, w1)) by (subst m; unfold bind; rewrite Hroots; reflexivity).
      rewrite Hm. cbn [fst snd]. split; [lia|discriminate].
    - assert (Hm : m w = (OutOfFuel, w1)) by (subst m; unfold bind; rewrite Hroots; reflexivity).
      rewrite Hm. cbn [fst snd]. split; [lia|discriminate]. }
  destruct path as [|root comps].
  - cbn. split; [lia|]. split; [discriminate|]. split; [reflexivity|]. intros; discriminate.
  - destruct (decide (root = "public")) as [->|Hp]; [|destruct (decide (root = "~")) as [->|Hm]].
    + assert (Heq : FolderEntryFromPath pageLinks uiObject c ("public" :: comps) w =
                (let* id := (let* roots := findFolderRoots c in ret (fst roots)) in
                 walk pageLinks uiObject c (S (length comps)) 0 comps (mkEntry Folder id)) w).
      { unfold FolderEntryFromPath. rewrite decide_True by reflexivity. reflexivity. }
      rewrite Heq. destruct (Hgood fst comps) as [H1 H2]. cbn [length].
      split; [exact H1|]. split; [exact H2|]. split; [discriminate|].
      intros r cs Hr Hne. injection Hr as <- _. congruence.
    + assert (Heq : FolderEntryFromPath pageLinks uiObject c ("~" :: comps) w =
                (let* id := (let* roots := findFolderRoots c in ret (snd roots)) in
                 walk pageLinks uiObject c (S (length comps)) 0 comps (mkEntry Folder id)) w).
      { unfold FolderEntryFromPath. rewrite decide_False by discriminate.
        rewrite decide_True by reflexivity. reflexivity. }
      rewrite Heq. destruct (Hgood snd comps) as [H1 H2]. cbn [length].
      split; [exact H1|]. split; [exact H2|]. split; [discriminate|].
      intros r cs Hr _ Hne. injection Hr as <- _. congruence.
    + rewrite (Hbad root comps Hp Hm). cbn [fst snd length].
      split; [lia|]. split; [discriminate|]. split; [discriminate|].
      intros r cs Hr _ _. injection Hr as <- <-. reflexivity.
Qed.

End ResolveFacts.

(** On the small portal: [public/A/C] is the folder [c-3], reached with three
    calls. *)
Lemma FolderEntryFromPath_returns_witness :
  let w := fresh [loginPage; "ROOT"; "FOLDER-A"] in
  let w' := (FolderEntryFromPath demoLinks demoObject demo ["public"; "A"; "C"] w).2 in
  FolderEntryFromPath demoLinks demoObject demo ["public"; "A"; "C"] w =
    (Ret (mkEntry Folder "c-3"), w') /\
  exists root comps p m w1,
    ["public"; "A"; "C"] = root :: comps /\
    findFolderRoots demo w = (Ret (p, m), w1) /\
    ((root = "public" /\
      leads demoLinks demoObject demo w1 (mkEntry Folder p) comps (mkEntry Folder "c-3") w') \/
     (root = "~" /\
      leads demoLinks demoObject demo w1 (mkEntry Folder m) comps (mkEntry Folder "c-3") w')).
Proof.
  intros w w'.
  assert (H : FolderEntryFromPath demoLinks demoObject demo ["public"; "A"; "C"] w =
              (Ret (mkEntry Folder "c-3"), w')) by (vm_compute; reflexivity).
  split; [exact H|].
  exact (proj1 (FolderEntryFromPath_returns demoLinks demoObject demo ["public"; "A"; "C"] w
                  (mkEntry Folder "c-3") w') H).
Defined.

Lemma FolderEntryFromPath_calls_witness :
  let w := fresh [loginPage; "ROOT"; "FOLDER-A"] in
  (FolderEntryFromPath demoLinks demoObject demo ["public"; "A"; "C"] w).1 =
    Ret (mkEntry Folder "c-3") /\
  length (calls (trace (FolderEntryFromPath demoLinks demoObject demo ["public"; "A"; "C"] w).2)) =
    3%nat.
Proof.
  intros w.
  assert (H : (FolderEntryFromPath demoLinks demoObject demo ["public"; "A"; "C"] w).1 =
              Ret (mkEntry Folder "c-3")) by (vm_compute; reflexivity).
  split; [exact H|].
  exact (proj1 (proj2 (FolderEntryFromPath_calls demoLinks demoObject demo
                         ["public"; "A"; "C"] w)) (mkEntry Folder "c-3") H).
Defined.

(** ** Listings *)

Section ListingFacts.

Variable pageLinks : string -> outcome (list (string * string)).
Variable uiObject : string -> outcome string.

(** The two [jgh.Try] calls of the loop of [LsFolder], put together. *)
Lemma classify_char linkText link w :
  classify uiObject linkText link w =
  (match Go.findDelimited "&m_folder=" Go.isIDByte EmptyString link with
   | Some id => Ret (mkEntry Folder id)
   | None =>
       match uiObject link with
       | Ret id => Ret (mkEntry Report id)
       | Panic _ => Panic ("Can not parse " +:+ linkText +:+ " as a folder or as a report")
       | Blocked => Blocked
       | OutOfFuel => OutOfFuel
       end
   end, w).
Proof.
  unfold classify, bind, Jgh.Try, asFolder, asReport, lift, ret, panic, folderIDFromLink.
  cbn [Z.to_nat Pos.to_nat Pos.iter_op Jgh.tries].
  unfold bind, ret.
  destruct (Go.findDelimited "&m_folder=" Go.isIDByte EmptyString link); [reflexivity|].
  destruct (uiObject link); reflexivity.
Qed.

Lemma classify_sorts linkText link w e w' :
  classify uiObject linkText link w = (Ret e, w') -> w' = w /\ sorts uiObject link e.
Proof.
  rewrite classify_char. unfold sorts, folderIDFromLink.
  destruct (Go.findDelimited "&m_folder=" Go.isIDByte EmptyString link) as [id|].
  - intros H. injection H as <- <-. split; [reflexivity|]. left. split; reflexivity.
  - destruct (uiObject link) as [id| | |]; intros H; try discriminate H.
    injection H as <- <-. split; [reflexivity|]. right.
    split; [reflexivity|]. split; [eexists; reflexivity|reflexivity].
Qed.

Lemma sorts_functional link e1 e2 :
  sorts uiObject link e1 -> sorts uiObject link e2 -> e1 = e2.
Proof.
  destruct e1 as [t1 i1], e2 as [t2 i2]. unfold sorts. cbn [Type_ ID].
  intros [[-> H1]|[-> [[p1 H1] U1]]] [[-> H2]|[-> [[p2 H2] U2]]]; try congruence.
Qed.

Lemma collect_entries elements : forall acc w entries w',
  collect uiObject elements acc w = (Ret entries, w') ->
  forall name e,
    entries !! name = Some e <->
    (exists pre link post,
       elements = pre ++ (name, link) :: post /\ (name ∉ post.*1) /\ sorts uiObject link e) \/
    ((name ∉ elements.*1) /\ acc !! name = Some e).
Proof.
  induction elements as [|[t l] rest IH]; intros acc w entries w' H name e.
  - cbn in H. injection H as <- <-. split.
    + intros Hacc. right. split; [apply not_elem_of_nil|exact Hacc].
    + intros [(pre & link & post & Hnil & _)|[_ Hacc]]; [|exact Hacc].
      destruct pre; discriminate Hnil.
  - cbn [collect] in H. unfold bind in H.
    destruct (classify uiObject t l w) as [[e0| | |] w1] eqn:Hcl; try discriminate H.
    apply classify_sorts in Hcl as [-> Hsort].
    rewrite (IH _ _ _ _ H name e). cbn [fmap list_fmap fst]. split.
    + intros [(pre & link & post & -> & Hpost & Hs)|[Hrest Hins]].
      * left. exists ((t, l) :: pre), link, post. repeat split; assumption.
      * destruct (decide (t = name)) as [->|Hne].
        -- rewrite lookup_insert_eq in Hins. injection Hins as <-.
           left. exists [], l, rest. repeat split; assumption.
        -- rewrite lookup_insert_ne in Hins by exact Hne.
           right. split; [|exact Hins]. intros Hin. apply elem_of_cons in Hin as [->|Hin];
             [congruence|exact (Hrest Hin)].
    + intros [(pre & link & post & Heq & Hpost & Hs)|[Hnot Hacc]].
      * destruct pre as [|x pre]; cbn in Heq.
        -- injection Heq as -> -> ->. right. split; [exact Hpost|].
           rewrite lookup_insert_eq. f_equal. apply (sorts_functional link); assumption.
        -- injection Heq as <- ->. left. exists pre, link, post. repeat split; assumption.
      * right. apply not_elem_of_cons in Hnot as [Hne Hrest]. split; [exact Hrest|].
        rewrite lookup_insert_ne by congruence. exact Hacc.
Qed.

(** [X8] What a listing holds.  When [LsFolder] returns, it has made one
    call, the GET of the folder's link, and its map has an entry under a name
    exactly when the page has an anchor with that text; the entry is the one
    the last such anchor sorts as: a folder with the id read from the link
    when the link has a folder id, else a report with the link's
    [ui.object]. *)
Theorem LsFolder_entries c id w entries w' :
  LsFolder pageLinks uiObject c id w = (Ret entries, w') ->
  exists html elements,
    Request c "GET" (folderLinkFromID id) EmptyString w = (Ret html, w') /\
    pageLinks html = Ret elements /\
    forall name e,
      entries !! name = Some e <->
      exists pre link post,
        elements = pre ++ (name, link) :: post /\ (name ∉ post.*1) /\ sorts uiObject link e.
Proof.
  intros H. unfold LsFolder in H. unfold bind at 1 in H.
  destruct (Request c "GET" (folderLinkFromID id) EmptyString w) as [[html| | |] w1] eqn:Hreq;
    try discriminate H.
  unfold bind, lift in H.
  destruct (pageLinks html) as [elements| | |] eqn:Hlinks; try discriminate H.
  pose proof (collect_pure uiObject elements ∅ w1) as Hw. rewrite H in Hw. cbn in Hw. subst w'.
  exists html, elements. split; [reflexivity|]. split; [exact Hlinks|].
  intros name e. rewrite (collect_entries _ _ _ _ _ H name e). split.
  - intros [Hl|[_ Hempty]]; [exact Hl|]. rewrite lookup_empty in Hempty. discriminate.
  - intros Hl. left. exact Hl.
Qed.

Lemma collect_sortable pre : forall acc w,
  Forall (fun a => sortable uiObject a.2) pre ->
  exists acc', forall rest,
    collect uiObject (pre ++ rest) acc w = collect uiObject rest acc' w.
Proof.
  induction pre as [|[t l] pre IH]; intros acc w Hpre.
  - exists acc. reflexivity.
  - inversion Hpre as [|? ? Hl Hpre']; subst. cbn [snd] in Hl.
    assert (Hcl : exists e, classify uiObject t l w = (Ret e, w)).
    { rewrite classify_char. unfold sortable, folderIDFromLink in Hl.
      destruct (Go.findDelimited "&m_folder=" Go.isIDByte EmptyString l) as [id|];
        [eexists; reflexivity|].
      destruct Hl as [[id Hl]|[id ->]]; [discriminate Hl|eexists; reflexivity]. }
    destruct Hcl as [e Hcl].
    destruct (IH (<[t := e]> acc) w Hpre') as [acc' Hacc'].
    exists acc'. intros rest. cbn [app collect]. unfold bind at 1. rewrite Hcl. apply Hacc'.
Qed.

(** [X9] An anchor that is neither.  When the anchors before it sort as
    folders or reports, the first anchor whose link has no folder id and
    whose [ui.object] cannot be read makes [LsFolder] panic with the message
    that names the text of that anchor; no entry is returned for the anchors
    before it. *)
Theorem LsFolder_unparsable c id w html w' pre linkText link post :
  Request c "GET" (folderLinkFromID id) EmptyString w = (Ret html, w') ->
  pageLinks html = Ret (pre ++ (linkText, link) :: post) ->
  Forall (fun a => sortable uiObject a.2) pre ->
  (exists p, folderIDFromLink link = Panic p) ->
  (exists p, uiObject link = Panic p) ->
  LsFolder pageLinks uiObject c id w =
    (Panic ("Can not parse " +:+ linkText +:+ " as a folder or as a report"), w').
Proof.
  intros Hreq Hlinks Hpre [p Hf] [q Hu]. unfold LsFolder.
  erewrite bind_Ret by exact Hreq. unfold lift. unfold bind at 1. rewrite Hlinks.
  destruct (collect_sortable pre ∅ w' Hpre) as [acc' ->].
  cbn [collect]. unfold bind. rewrite classify_char.
  unfold folderIDFromLink in Hf.
  destruct (Go.findDelimited "&m_folder=" Go.isIDByte EmptyString link); [discriminate Hf|].
  rewrite Hu. reflexivity.
Qed.

End ListingFacts.

(** The listing of the root of the small portal. *)
Lemma LsFolder_entries_witness :
  let w := fresh ["ROOT"] in
  let w' := (LsFolder demoLinks demoObject demo "pf-1" w).2 in
  let listing : gmap string FolderEntry :=
    <["R" := mkEntry Report "rep-7"]> (<["A" := mkEntry Folder "a-1"]> ∅) in
  LsFolder demoLinks demoObject demo "pf-1" w = (Ret listing, w') /\
  exists html elements,
    Request demo "GET" (folderLinkFromID "pf-1") EmptyString w = (Ret html, w') /\
    demoLinks html = Ret elements /\
    forall name e,
      listing !! name = Some e <->
      exists pre link post,
        elements = pre ++ (name, link) :: post /\ (name ∉ post.*1) /\
        sorts demoObject link e.
Proof.
  intros w w' listing.
  assert (H : LsFolder demoLinks demoObject demo "pf-1" w = (Ret listing, w'))
    by (vm_compute; reflexivity).
  split; [exact H|].
  exact (LsFolder_entries demoLinks demoObject demo "pf-1" w listing w' H).
Defined.

(** A page with a link to the help after the first folder. *)
Lemma LsFolder_unparsable_witness :
  let links := fun _ : string =>
    Ret [("A", folderLinkFromID "a-1"); ("Help", "/help.html"); ("R", cgi +:+ "?ui.object=rep-7")] in
  let w := fresh ["ROOT"] in
  let w' := (Request demo "GET" (folderLinkFromID "pf-1") EmptyString w).2 in
  (Request demo "GET" (folderLinkFromID "pf-1") EmptyString w = (Ret "ROOT", w') /\
   Forall (fun a => sortable demoObject a.2) [("A", folderLinkFromID "a-1")] /\
   (exists p, folderIDFromLink "/help.html" = Panic p) /\
   (exists p, demoObject "/help.html" = Panic p)) /\
  LsFolder links demoObject demo "pf-1" w =
    (Panic "Can not parse Help as a folder or as a report", w').
Proof.
  intros links w w'.
  assert (Hreq : Request demo "GET" (folderLinkFromID "pf-1") EmptyString w = (Ret "ROOT", w'))
    by (vm_compute; reflexivity).
  assert (Hlinks : links "ROOT" =
            Ret ([("A", folderLinkFromID "a-1")] ++ ("Help", "/help.html") ::
                 [("R", cgi +:+ "?ui.object=rep-7")])) by reflexivity.
  assert (Hpre : Forall (fun a => sortable demoObject a.2) [("A", folderLinkFromID "a-1")]).
  { constructor; [|constructor]. left. exists "a-1". vm_compute. reflexivity. }
  assert (Hf : exists p, folderIDFromLink "/help.html" = Panic p)
    by (eexists; vm_compute; reflexivity).
  assert (Hu : exists p, demoObject "/help.html" = Panic p)
    by (eexists; vm_compute; reflexivity).
  split; [repeat split; assumption|].
  exact (LsFolder_unparsable links demoObject demo "pf-1" w "ROOT" w' _ "Help" "/help.html" _
           Hreq Hlinks Hpre Hf Hu).
Defined.

(** ** Values read from a page *)

Lemma isKeyByte_no_dot k : Pages.isKeyByte k = true -> k <> "."%char.
Proof. intros H ->. discriminate H. Qed.

(** A key of letters, digits and underscores is matched as a literal. *)
Lemma keyHere_plain key : forall s,
  allBytes Pages.isKeyByte key = true -> Go.keyHere key s = Go.after key s.
Proof.
  induction key as [|k key IH]; intros s Hkey; [destruct s; reflexivity|].
  cbn [allBytes] in Hkey. apply andb_true_iff in Hkey as [Hk Hkey].
  destruct s as [|c s]; [reflexivity|]. cbn [Go.keyHere Go.after].
  destruct (decide (k = "."%char)) as [Hdot|_]; [destruct (isKeyByte_no_dot k Hk Hdot)|].
  destruct (decide (k = c)); [apply IH; exact Hkey|reflexivity].
Qed.

Lemma lazyValue_sound s : forall v,
  Go.lazyValue s = Some v ->
  allBytes Pages.isValueByte v = true /\ exists post, s = v +:+ String Go.dquote post.
Proof.
  induction s as [|c s IH]; intros v H; cbn [Go.lazyValue] in H; [discriminate|].
  destruct (decide (c = Go.dquote)) as [->|Hq].
  - injection H as <-. split; [reflexivity|]. exists s. reflexivity.
  - destruct (decide (c = Go.newline)) as [|Hn]; [discriminate|].
    destruct (Go.lazyValue s) as [v'|]; [|discriminate]. injection H as <-.
    destruct (IH v' eq_refl) as (Hall & post & ->). split.
    + cbn [allBytes]. rewrite Hall. unfold Pages.isValueByte.
      apply Ascii.eqb_neq in Hq, Hn. rewrite Hq, Hn. reflexivity.
    + exists post. reflexivity.
Qed.

Lemma lazyValue_complete v : forall post,
  allBytes Pages.isValueByte v = true -> Go.lazyValue (v +:+ String Go.dquote post) = Some v.
Proof.
  induction v as [|c v IH]; intros post Hall.
  - rewrite append_nil. cbn [Go.lazyValue]. rewrite decide_True by reflexivity. reflexivity.
  - cbn [allBytes] in Hall. apply andb_true_iff in Hall as [Hc Hall].
    unfold Pages.isValueByte in Hc. apply andb_true_iff in Hc as [Hq Hn].
    apply negb_true_iff, Ascii.eqb_neq in Hq, Hn.
    rewrite append_cons. cbn [Go.lazyValue].
    rewrite decide_False by exact Hq. rewrite decide_False by exact Hn.
    rewrite (IH post Hall). reflexivity.
Qed.

(** The text a match of the pattern for a key starts with. *)
Lemma jsonHere_plain key v post :
  allBytes Pages.isKeyByte key = true -> allBytes Pages.isValueByte v = true ->
  jsonHere key (Go.quoted key +:+ ": " +:+ Go.quoted v +:+ post) = Some v.
Proof.
  intros Hkey Hv. unfold jsonHere, Go.quoted.
  repeat (rewrite ?append_cons, ?append_nil, ?append_assoc).
  cbn [Go.after]. rewrite decide_True by reflexivity. cbn [mbind option_bind].
  rewrite (keyHere_plain key _ Hkey), after_app. cbn [mbind option_bind Go.after].
  rewrite !decide_True by reflexivity.
  apply lazyValue_complete. exact Hv.
Qed.

Lemma jsonHere_dquote key a s : a <> Go.dquote -> jsonHere key (String a s) = None.
Proof.
  intros Hne. unfold jsonHere. cbn [Go.after].
  destruct (decide (Go.dquote = a)) as [<-|_]; [congruence|reflexivity].
Qed.

Lemma leftmost_here {A} (here : string -> option A) s r :
  here s = Some r -> Go.leftmost here s = Some r.
Proof. intros H. destruct s; cbn [Go.leftmost]; rewrite H; reflexivity. Qed.

(** [X13] What [findJSONValueInPage] reads for a key of letters, digits and
    underscores.  A value it returns stands in the page as ["key": "value"]
    and holds no double quote and no line feed; a page that holds such a
    text with no double quote before it gives exactly that value; and for a
    page that holds no such text the call panics with the message that names
    the key. *)
Theorem findJSONValueInPage_plain_key html key :
  allBytes Pages.isKeyByte key = true ->
  (forall v, findJSONValueInPage html key = Ret v ->
     Pages.holdsField html key v /\ allBytes Pages.isValueByte v = true) /\
  (forall pre v post,
     html = pre +:+ Go.quoted key +:+ ": " +:+ Go.quoted v +:+ post ->
     allBytes Pages.isValueByte v = true ->
     countByte Go.dquote pre = O ->
     findJSONValueInPage html key = Ret v) /\
  ((forall v, Pages.holdsField html key v -> allBytes Pages.isValueByte v = false) ->
   findJSONValueInPage html key = Panic ("Could not find JSON value " +:+ key +:+ " in page")).
Proof.
  intros Hkey.
  assert (Hsound : forall v, Go.leftmost (jsonHere key) html = Some v ->
            Pages.holdsField html key v /\ allBytes Pages.isValueByte v = true).
  { intros v H. apply leftmost_inv in H as (pre & mid & -> & H).
    unfold jsonHere in H.
    destruct (Go.after (String Go.dquote EmptyString) mid) as [s1|] eqn:E1; [|discriminate].
    cbn [mbind option_bind] in H. apply after_inv in E1 as ->.
    rewrite (keyHere_plain key s1 Hkey) in H.
    destruct (Go.after key s1) as [s2|] eqn:E2; [|discriminate].
    cbn [mbind option_bind] in H. apply after_inv in E2 as ->.
    destruct (Go.after _ s2) as [s3|] eqn:E3; [|discriminate].
    cbn [mbind option_bind] in H. apply after_inv in E3 as ->.
    destruct (lazyValue_sound s3 v H) as (Hv & post & ->).
    split; [|exact Hv]. exists pre, post. unfold Go.quoted.
    repeat (rewrite ?append_cons, ?append_nil, ?append_assoc). reflexivity. }
  split; [|split].
  - intros v H. unfold findJSONValueInPage in H.
    destruct (Go.leftmost (jsonHere key) html) as [v'|] eqn:E; [|discriminate].
    injection H as <-. apply Hsound. reflexivity.
  - intros pre v post -> Hv Hpre. unfold findJSONValueInPage.
    rewrite (leftmost_past (jsonHere key) Go.dquote pre _ (jsonHere_dquote key) Hpre)
      by (unfold Go.quoted; rewrite append_cons; discriminate).
    rewrite (leftmost_here _ _ v (jsonHere_plain key v post Hkey Hv)). reflexivity.
  - intros Hnone. unfold findJSONValueInPage.
    destruct (Go.leftmost (jsonHere key) html) as [v|] eqn:E; [|reflexivity].
    destruct (Hsound v eq_refl) as [Hf Hv]. rewrite (Hnone v Hf) in Hv. discriminate Hv.
Qed.

Lemma findJSONValueInPage_plain_key_witness :
  allBytes Pages.isKeyByte "m_sTracking" = true /\
  allBytes Pages.isValueByte "t 1" = true /\ countByte Go.dquote "<p>{" = O /\
  findJSONValueInPage
    ("<p>{" +:+ Go.quoted "m_sTracking" +:+ ": " +:+ Go.quoted "t 1" +:+ ", }") "m_sTracking" =
  Ret "t 1".
Proof.
  assert (Hkey : allBytes Pages.isKeyByte "m_sTracking" = true) by reflexivity.
  assert (Hv : allBytes Pages.isValueByte "t 1" = true) by reflexivity.
  assert (Hpre : countByte Go.dquote "<p>{" = O) by reflexivity.
  split; [exact Hkey|]. split; [exact Hv|]. split; [exact Hpre|].
  exact (proj1 (proj2 (findJSONValueInPage_plain_key _ "m_sTracking" Hkey))
           "<p>{" "t 1" ", }" eq_refl Hv Hpre).
Defined.

Lemma keyHere_dot k1 : forall k2 x rest,
  allBytes Pages.isKeyByte k1 = true -> Go.byteOf x < 128 -> x <> Go.newline ->
  Go.keyHere (k1 +:+ String "."%char k2) (k1 +:+ String x rest) = Go.keyHere k2 rest.
Proof.
  induction k1 as [|k k1 IH]; intros k2 x rest Hk1 Hx Hnl.
  - rewrite !append_nil. cbn [Go.keyHere].
    rewrite decide_True by reflexivity. rewrite decide_False by exact Hnl.
    unfold Go.runeWidth. apply Z.ltb_lt in Hx. rewrite Hx. reflexivity.
  - cbn [allBytes] in Hk1. apply andb_true_iff in Hk1 as [Hk Hk1].
    rewrite !append_cons. cbn [Go.keyHere].
    rewrite decide_False by (apply isKeyByte_no_dot; exact Hk).
    rewrite decide_True by reflexivity. apply IH; assumption.
Qed.

(** [X14] The key is not escaped.  A dot in a key is the wildcard of the
    pattern: for a key [k1.k2] the call also reads the value of a field whose
    name has any other ASCII byte but the line feed in the place of the
    dot. *)
Theorem findJSONValueInPage_dot_is_wildcard k1 k2 x pre v post :
  allBytes Pages.isKeyByte k1 = true -> allBytes Pages.isKeyByte k2 = true ->
  Go.byteOf x < 128 -> x <> Go.newline ->
  allBytes Pages.isValueByte v = true -> countByte Go.dquote pre = O ->
  findJSONValueInPage
    (pre +:+ Go.quoted (k1 +:+ String x k2) +:+ ": " +:+ Go.quoted v +:+ post)
    (k1 +:+ String "."%char k2) = Ret v.
Proof.
  intros Hk1 Hk2 Hx Hnl Hv Hpre. unfold findJSONValueInPage.
  rewrite (leftmost_past (jsonHere (k1 +:+ String "."%char k2)) Go.dquote pre _
             (jsonHere_dquote _) Hpre)
    by (unfold Go.quoted; rewrite append_cons; discriminate).
  assert (Hhere : jsonHere (k1 +:+ String "."%char k2)
            (Go.quoted (k1 +:+ String x k2) +:+ ": " +:+ Go.quoted v +:+ post) = Some v).
  { unfold jsonHere, Go.quoted.
    repeat (rewrite ?append_cons, ?append_nil, ?append_assoc).
    cbn [Go.after]. rewrite decide_True by reflexivity. cbn [mbind option_bind].
    rewrite (keyHere_dot k1 k2 x _ Hk1 Hx Hnl), (keyHere_plain k2 _ Hk2), after_app.
    cbn [mbind option_bind Go.after]. rewrite !decide_True by reflexivity.
    apply lazyValue_complete. exact Hv. }
  rewrite (leftmost_here _ _ v Hhere). reflexivity.
Qed.

Lemma findJSONValueInPage_dot_is_wildcard_witness :
  (allBytes Pages.isKeyByte "cv" = true /\ allBytes Pages.isKeyByte "id" = true /\
   Go.byteOf "X" < 128 /\ "X"%char <> Go.newline /\
   allBytes Pages.isValueByte "other" = true /\ countByte Go.dquote "{" = O) /\
  findJSONValueInPage ("{" +:+ Go.quoted "cvXid" +:+ ": " +:+ Go.quoted "other" +:+ "}") "cv.id" =
  Ret "other".
Proof.
  assert (H1 : allBytes Pages.isKeyByte "cv" = true) by reflexivity.
  assert (H2 : allBytes Pages.isKeyByte "id" = true) by reflexivity.
  assert (H3 : Go.byteOf "X" < 128) by (vm_compute; reflexivity).
  assert (H4 : "X"%char <> Go.newline) by discriminate.
  assert (H5 : allBytes Pages.isValueByte "other" = true) by reflexivity.
  assert (H6 : countByte Go.dquote "{" = O) by reflexivity.
  split; [repeat split; assumption|].
  exact (findJSONValueInPage_dot_is_wildcard "cv" "id" "X" "{" "other" "}" H1 H2 H3 H4 H5 H6).
Defined.

(** ** The form of a poll *)

Lemma fold_amp ps : forall p,
  fold_left (fun acc x => acc +:+ "&" +:+ x) ps p =
  p +:+ fold_right (fun x acc => "&" +:+ x +:+ acc) EmptyString ps.
Proof.
  induction ps as [|x ps IH]; intros p; cbn [fold_left fold_right].
  - rewrite append_nil_r. reflexivity.
  - rewrite IH, append_assoc, append_assoc. reflexivity.
Qed.

(** [X15] The body of a poll on the wire.  When the page holds the eleven
    fields, the form is the fifteen pairs [key=value] in the order of their
    keys, joined by [&], each value escaped by [url.QueryEscape]; the four
    constant pairs are the same for every page. *)
Theorem postData_wire html action state cvid perms params tracking caf conv object class primary :
  findJSONValueInPage html "b_action" = Ret action ->
  findJSONValueInPage html "m_sActionState" = Ret state ->
  findJSONValueInPage html "cv.id" = Ret cvid ->
  findJSONValueInPage html "cv.objectPermissions" = Ret perms ->
  findJSONValueInPage html "m_sParameters" = Ret params ->
  findJSONValueInPage html "m_sTracking" = Ret tracking ->
  findJSONValueInPage html "m_sCAFContext" = Ret caf ->
  findJSONValueInPage html "m_sConversation" = Ret conv ->
  findJSONValueInPage html "ui.object" = Ret object ->
  findJSONValueInPage html "ui.objectClass" = Ret class ->
  findJSONValueInPage html "ui.primaryAction" = Ret primary ->
  DownloadC.postData html =
  Ret ("b_action=" +:+ Go.QueryEscape action +:+
       "&cv.actionState=" +:+ Go.QueryEscape state +:+
       "&cv.catchLogOnFault=true" +:+
       "&cv.id=" +:+ Go.QueryEscape cvid +:+
       "&cv.objectPermissions=" +:+ Go.QueryEscape perms +:+
       "&cv.responseFormat=data" +:+
       "&cv.showFaultPage=true" +:+
       "&executionParameters=" +:+ Go.QueryEscape params +:+
       "&m_tracking=" +:+ Go.QueryEscape tracking +:+
       "&ui.action=wait" +:+
       "&ui.cafcontextid=" +:+ Go.QueryEscape caf +:+
       "&ui.conversation=" +:+ Go.QueryEscape conv +:+
       "&ui.object=" +:+ Go.QueryEscape object +:+
       "&ui.objectClass=" +:+ Go.QueryEscape class +:+
       "&ui.primaryAction=" +:+ Go.QueryEscape primary).
Proof.
  intros H1 H2 H3 H4 H5 H6 H7 H8 H9 H10 H11.
  unfold DownloadC.postData, DownloadB.postData, pollLines.
  cbn [fill valueOf].
  rewrite H1, H2, H3, H4, H5, H6, H7, H8, H9, H10, H11.
  cbn [Go.Set_ Go.makeValues mbind option_bind].
  f_equal. unfold Go.Encode.
  match goal with |- Go.joinAmp ?parts = _ =>
    replace parts with
      [ Go.QueryEscape "b_action" +:+ "=" +:+ Go.QueryEscape action;
        Go.QueryEscape "cv.actionState" +:+ "=" +:+ Go.QueryEscape state;
        Go.QueryEscape "cv.catchLogOnFault" +:+ "=" +:+ Go.QueryEscape "true";
        Go.QueryEscape "cv.id" +:+ "=" +:+ Go.QueryEscape cvid;
        Go.QueryEscape "cv.objectPermissions" +:+ "=" +:+ Go.QueryEscape perms;
        Go.QueryEscape "cv.responseFormat" +:+ "=" +:+ Go.QueryEscape "data";
        Go.QueryEscape "cv.showFaultPage" +:+ "=" +:+ Go.QueryEscape "true";
        Go.QueryEscape "executionParameters" +:+ "=" +:+ Go.QueryEscape params;
        Go.QueryEscape "m_tracking" +:+ "=" +:+ Go.QueryEscape tracking;
        Go.QueryEscape "ui.action" +:+ "=" +:+ Go.QueryEscape "wait";
        Go.QueryEscape "ui.cafcontextid" +:+ "=" +:+ Go.QueryEscape caf;
        Go.QueryEscape "ui.conversation" +:+ "=" +:+ Go.QueryEscape conv;
        Go.QueryEscape "ui.object" +:+ "=" +:+ Go.QueryEscape object;
        Go.QueryEscape "ui.objectClass" +:+ "=" +:+ Go.QueryEscape class;
        Go.QueryEscape "ui.primaryAction" +:+ "=" +:+ Go.QueryEscape primary ]
      by (generalize Go.QueryEscape; intros esc; vm_compute; reflexivity)
  end.
  unfold Go.joinAmp. rewrite fold_amp. cbn [fold_right].
  rewrite <- (append_nil_r (Go.QueryEscape primary)) at 2. reflexivity.
Qed.

Lemma postData_wire_witness :
  let html := page "working" "0" in
  (findJSONValueInPage html "b_action" = Ret "cognosViewer" /\
   findJSONValueInPage html "m_sActionState" = Ret "state0" /\
   findJSONValueInPage html "cv.id" = Ret "_NS_" /\
   findJSONValueInPage html "cv.objectPermissions" = Ret "read execute" /\
   findJSONValueInPage html "m_sParameters" = Ret "<p/>" /\
   findJSONValueInPage html "m_sTracking" = Ret "track0" /\
   findJSONValueInPage html "m_sCAFContext" = Ret "caf" /\
   findJSONValueInPage html "m_sConversation" = Ret "conv0" /\
   findJSONValueInPage html "ui.object" = Ret "rep-7" /\
   findJSONValueInPage html "ui.objectClass" = Ret "report" /\
   findJSONValueInPage html "ui.primaryAction" = Ret "run") /\
  DownloadC.postData html =
  Ret ("b_action=cognosViewer&cv.actionState=state0&cv.catchLogOnFault=true&cv.id=_NS_" +:+
       "&cv.objectPermissions=read+execute&cv.responseFormat=data&cv.showFaultPage=true" +:+
       "&executionParameters=%3Cp%2F%3E&m_tracking=track0&ui.action=wait" +:+
       "&ui.cafcontextid=caf&ui.conversation=conv0&ui.object=rep-7" +:+
       "&ui.objectClass=report&ui.primaryAction=run").
Proof.
  intros html.
  assert (H1 : findJSONValueInPage html "b_action" = Ret "cognosViewer") by (vm_compute; reflexivity).
  assert (H2 : findJSONValueInPage html "m_sActionState" = Ret "state0") by (vm_compute; reflexivity).
  assert (H3 : findJSONValueInPage html "cv.id" = Ret "_NS_") by (vm_compute; reflexivity).
  assert (H4 : findJSONValueInPage html "cv.objectPermissions" = Ret "read execute")
    by (vm_compute; reflexivity).
  assert (H5 : findJSONValueInPage html "m_sParameters" = Ret "<p/>") by (vm_compute; reflexivity).
  assert (H6 : findJSONValueInPage html "m_sTracking" = Ret "track0") by (vm_compute; reflexivity).
  assert (H7 : findJSONValueInPage html "m_sCAFContext" = Ret "caf") by (vm_compute; reflexivity).
  assert (H8 : findJSONValueInPage html "m_sConversation" = Ret "conv0") by (vm_compute; reflexivity).
  assert (H9 : findJSONValueInPage html "ui.object" = Ret "rep-7") by (vm_compute; reflexivity).
  assert (H10 : findJSONValueInPage html "ui.objectClass" = Ret "report") by (vm_compute; reflexivity).
  assert (H11 : findJSONValueInPage html "ui.primaryAction" = Ret "run") by (vm_compute; reflexivity).
  split; [repeat split; assumption|].
  exact (postData_wire html _ _ _ _ _ _ _ _ _ _ _ H1 H2 H3 H4 H5 H6 H7 H8 H9 H10 H11).
Defined.

(** The first key that is not in the page ends the filling of the form. *)
Lemma fill_missing html lines : forall m pre key post,
  Pages.fromPage lines = pre ++ key :: post ->
  Forall (fun k => exists v, findJSONValueInPage html k = Ret v) pre ->
  (forall v, findJSONValueInPage html key <> Ret v) ->
  fill Go.Set_ html lines (Some m) =
  Panic ("Could not find JSON value " +:+ key +:+ " in page").
Proof.
  induction lines as [|[k src] lines IH]; intros m pre key post Hkeys Hpre Hkey.
  - destruct pre; discriminate Hkeys.
  - cbn [fill]. destruct src as [k'|value]; cbn [valueOf].
    + change (Pages.fromPage ((k, FromPage k') :: lines)) with (k' :: Pages.fromPage lines) in Hkeys.
      destruct pre as [|p pre]; cbn [app] in Hkeys; injection Hkeys as -> Hkeys.
      * unfold findJSONValueInPage in Hkey |- *.
        destruct (Go.leftmost (jsonHere key) html) as [v|]; [destruct (Hkey v eq_refl)|reflexivity].
      * inversion Hpre as [|? ? [v Hv] Hpre']; subst. rewrite Hv. cbn [Go.Set_ mbind option_bind].
        apply (IH _ pre key post Hkeys Hpre' Hkey).
    + cbn [Go.Set_ mbind option_bind]. apply (IH _ pre key post Hkeys Hpre Hkey).
Qed.

(** [X16] A page that lacks a field.  When the answer to the submit holds
    the working marker and lacks one of the eleven fields, the run panics
    with the message that names the first field missing, in the order in
    which the form is filled; it ends in the world the answer arrived in:
    without a sleep and without a poll, whatever the loop bound. *)
Theorem missing_field_stops_the_run c id fuel w html w1 pre key post :
  Request c "GET" (reportLinkFromID id) EmptyString w = (Ret html, w1) ->
  Go.Contains html wStr1 = true ->
  Pages.fromPage (pollLines "m_sCAFContext") = pre ++ key :: post ->
  Forall (fun k => exists v, findJSONValueInPage html k = Ret v) pre ->
  (forall v, findJSONValueInPage html key <> Ret v) ->
  DownloadC.DownloadReportCSV c id fuel w =
  (Panic ("Could not find JSON value " +:+ key +:+ " in page"), w1).
Proof.
  intros Hreq Hwork Hkeys Hpre Hkey.
  unfold DownloadC.DownloadReportCSV, DownloadC.run.
  erewrite bind_Panic; [reflexivity|].
  erewrite bind_Ret by exact Hreq. rewrite Hwork.
  unfold DownloadC.postData, DownloadB.postData, Go.makeValues.
  rewrite (fill_missing html _ ∅ pre key post Hkeys Hpre Hkey). reflexivity.
Qed.

Lemma missing_field_stops_the_run_witness :
  let html := "{" +:+ field "m_sStatus" "working" +:+ field "b_action" "cognosViewer" +:+
              field "m_sActionState" "s" +:+ "}" in
  let w := fresh [html; linkPage] in
  let w1 := (Request demo "GET" (reportLinkFromID "rep-7") EmptyString w).2 in
  (Request demo "GET" (reportLinkFromID "rep-7") EmptyString w = (Ret html, w1) /\
   Go.Contains html wStr1 = true /\
   Pages.fromPage (pollLines "m_sCAFContext") =
     ["b_action"; "m_sActionState"] ++ "cv.id" ::
     ["cv.objectPermissions"; "m_sParameters"; "m_sTracking"; "m_sCAFContext";
      "m_sConversation"; "ui.object"; "ui.objectClass"; "ui.primaryAction"] /\
   Forall (fun k => exists v, findJSONValueInPage html k = Ret v) ["b_action"; "m_sActionState"] /\
   (forall v, findJSONValueInPage html "cv.id" <> Ret v)) /\
  DownloadC.DownloadReportCSV demo "rep-7" 7 w =
  (Panic "Could not find JSON value cv.id in page", w1) /\
  calls (trace w1) = [EvCall "GET" (reportLinkFromID "rep-7") EmptyString].
Proof.
  intros html w w1.
  assert (Hreq : Request demo "GET" (reportLinkFromID "rep-7") EmptyString w = (Ret html, w1))
    by (vm_compute; reflexivity).
  assert (Hwork : Go.Contains html wStr1 = true) by (vm_compute; reflexivity).
  assert (Hkeys : Pages.fromPage (pollLines "m_sCAFContext") =
     ["b_action"; "m_sActionState"] ++ "cv.id" ::
     ["cv.objectPermissions"; "m_sParameters"; "m_sTracking"; "m_sCAFContext";
      "m_sConversation"; "ui.object"; "ui.objectClass"; "ui.primaryAction"]) by reflexivity.
  assert (Hpre : Forall (fun k => exists v, findJSONValueInPage html k = Ret v)
                   ["b_action"; "m_sActionState"]).
  { repeat constructor; eexists; vm_compute; reflexivity. }
  assert (Hkey : forall v, findJSONValueInPage html "cv.id" <> Ret v).
  { intros v. vm_compute. discriminate. }
  split; [repeat split; assumption|]. split; [|vm_compute; reflexivity].
  exact (missing_field_stops_the_run demo "rep-7" 7 w html w1 _ "cv.id" _ Hreq Hwork Hkeys Hpre Hkey).
Defined.

(** ** The calls of a run *)

Lemma wait_calls c data fuel : forall html w o w',
  DownloadC.wait c data fuel html w = (o, w') ->
  exists k, (k <= fuel)%nat /\
    calls (trace w') = calls (trace w) ++ replicate k (EvCall "POST" cgi data).
Proof.
  induction fuel as [|fuel IH]; intros html w o w' H; cbn [DownloadC.wait] in H.
  - exists O. split; [lia|]. cbn [replicate]. rewrite app_nil_r.
    destruct (Go.Contains html wStr1 || Go.Contains html wStr2); injection H as <- <-; reflexivity.
  - destruct (Go.Contains html wStr1 || Go.Contains html wStr2).
    + unfold pause in H. unfold bind at 1 in H. unfold Sleep at 1 in H.
      set (w1 := emit _ w) in H.
      assert (Hw1 : calls (trace w1) = calls (trace w)).
      { subst w1. unfold emit. cbn [trace]. rewrite calls_app. cbn. apply app_nil_r. }
      pose proof (Request_calls c "POST" cgi data w1) as Hc.
      unfold bind in H.
      destruct (Request c "POST" cgi data w1) as [[r| | |] w2]; cbn [snd] in Hc.
      * destruct (IH r w2 o w' H) as (k & Hk & Hcalls).
        exists (S k). split; [lia|]. rewrite Hcalls, Hc, Hw1, <- app_assoc. reflexivity.
      * injection H as <- <-. exists 1%nat. split; [lia|]. rewrite Hc, Hw1. reflexivity.
      * injection H as <- <-. exists 1%nat. split; [lia|]. rewrite Hc, Hw1. reflexivity.
      * injection H as <- <-. exists 1%nat. split; [lia|]. rewrite Hc, Hw1. reflexivity.
    + injection H as <- <-. exists O. split; [lia|]. cbn [replicate]. rewrite app_nil_r.
      reflexivity.
Qed.

Lemma run_calls c id fuel w o w' :
  DownloadC.run c id fuel w = (o, w') ->
  exists k data, (k <= fuel)%nat /\
    calls (trace w') =
    calls (trace w) ++ EvCall "GET" (reportLinkFromID id) EmptyString ::
      replicate k (EvCall "POST" cgi data).
Proof.
  unfold DownloadC.run. intros H. unfold bind at 1 in H.
  pose proof (Request_calls c "GET" (reportLinkFromID id) EmptyString w) as Hc.
  destruct (Request c "GET" (reportLinkFromID id) EmptyString w) as [[html| | |] w1];
    cbn [snd] in Hc;
    try (injection H as <- <-; exists O, EmptyString; split; [lia|exact Hc]).
  destruct (Go.Contains html wStr1);
    [|injection H as <- <-; exists O, EmptyString; split; [lia|exact Hc]].
  unfold bind, lift in H.
  destruct (DownloadC.postData html) as [data| | |];
    try (injection H as <- <-; exists O, EmptyString; split; [lia|exact Hc]).
  destruct (wait_calls c data fuel html w1 o w' H) as (k & Hk & Hcalls).
  exists k, data. split; [exact Hk|]. rewrite Hcalls, Hc, <- app_assoc. reflexivity.
Qed.

(** [X17] The calls of a run, in the revision that waits on either marker:
    the submit, a GET of the report's link; then polls only, each the same
    POST to the gateway with the same body; then at most one more call, the
    GET of the download.  A run returns only what that last call returned. *)
Theorem DownloadReportCSV_calls c id fuel w o w' :
  DownloadC.DownloadReportCSV c id fuel w = (o, w') ->
  exists k data tail, (k <= fuel)%nat /\
    calls (trace w') =
      calls (trace w) ++ EvCall "GET" (reportLinkFromID id) EmptyString ::
        replicate k (EvCall "POST" cgi data) ++ tail /\
    (tail = [] \/ exists u, tail = [EvCall "GET" u EmptyString]) /\
    (forall csv, o = Ret csv -> exists u, tail = [EvCall "GET" u EmptyString]).
Proof.
  unfold DownloadC.DownloadReportCSV. intros H. unfold bind in H.
  destruct (DownloadC.run c id fuel w) as [r w1] eqn:Hrun.
  destruct (run_calls c id fuel w r w1 Hrun) as (k & data & Hk & Hcalls).
  exists k, data.
  assert (Hnone : o = r -> w' = w1 -> (forall csv, r <> Ret csv) ->
    exists tail, (k <= fuel)%nat /\
      calls (trace w') =
        calls (trace w) ++ EvCall "GET" (reportLinkFromID id) EmptyString ::
          replicate k (EvCall "POST" cgi data) ++ tail /\
      (tail = [] \/ exists u, tail = [EvCall "GET" u EmptyString]) /\
      (forall csv, o = Ret csv -> exists u, tail = [EvCall "GET" u EmptyString])).
  { intros -> -> Hr. exists []. split; [exact Hk|]. rewrite app_nil_r.
    split; [exact Hcalls|]. split; [left; reflexivity|].
    intros csv Hcsv. destruct (Hr csv Hcsv). }
  destruct r as [html| | |];
    try (injection H as <- <-; apply Hnone; [reflexivity|reflexivity|discriminate]).
  clear Hnone. unfold finish in H.
  destruct (downloadLink html) as [u|].
  - exists [EvCall "GET" u EmptyString]. split; [exact Hk|].
    pose proof (Request_calls c "GET" u EmptyString w1) as Hc. rewrite H in Hc. cbn [snd] in Hc.
    split; [|split; [right|intros csv _]; exists u; reflexivity].
    rewrite Hc, Hcalls, <- app_assoc. cbn [app]. reflexivity.
  - exists []. split; [exact Hk|]. rewrite app_nil_r.
    destruct (Go.Contains html promptingStr); injection H as <- <-;
      (split; [exact Hcalls|]; split; [left; reflexivity|]; intros csv Hcsv; discriminate Hcsv).
Qed.

(** The run on the small portal: the submit, two polls, the download. *)
Lemma DownloadReportCSV_calls_witness :
  let w := fresh [page "working" "0"; page "working" "1"; linkPage; "a,b"] in
  let w' := (DownloadC.DownloadReportCSV demo "rep-7" 5 w).2 in
  DownloadC.DownloadReportCSV demo "rep-7" 5 w = (Ret "a,b", w') /\
  calls (trace w') =
    [EvCall "GET" (reportLinkFromID "rep-7") EmptyString;
     EvCall "POST" cgi form0; EvCall "POST" cgi form0;
     EvCall "GET" "/dl?id=7" EmptyString] /\
  exists k data tail, (k <= 5)%nat /\
    calls (trace w') =
      calls (trace w) ++ EvCall "GET" (reportLinkFromID "rep-7") EmptyString ::
        replicate k (EvCall "POST" cgi data) ++ tail /\
    (tail = [] \/ exists u, tail = [EvCall "GET" u EmptyString]) /\
    (forall csv, Ret "a,b" = Ret csv -> exists u, tail = [EvCall "GET" u EmptyString]).
Proof.
  intros w w'.
  assert (H : DownloadC.DownloadReportCSV demo "rep-7" 5 w = (Ret "a,b", w'))
    by (vm_compute; reflexivity).
  split; [exact H|]. split; [vm_compute; reflexivity|].
  exact (DownloadReportCSV_calls demo "rep-7" 5 w (Ret "a,b") w' H).
Defined.

(** ** The polling interval *)

Lemma pausedFrom_app d tr1 : forall prev tr2,
  Pages.pausedFrom d prev tr1 -> (forall p, Pages.pausedFrom d p tr2) ->
  Pages.pausedFrom d prev (tr1 ++ tr2).
Proof.
  induction tr1 as [|e tr1 IH]; intros prev tr2 H1 H2; [apply H2|].
  cbn [app Pages.pausedFrom] in *. destruct H1 as [He H1]. split; [exact He|].
  apply IH; assumption.
Qed.

Lemma pausedFrom_no_poll d mid : forall prev,
  Forall (fun e => isPoll e = false) mid -> Pages.pausedFrom d prev mid.
Proof.
  induction mid as [|e mid IH]; intros prev H; [exact I|].
  inversion H as [|? ? He Hmid]; subst. cbn [Pages.pausedFrom]. split; [|apply IH; exact Hmid].
  rewrite He. discriminate.
Qed.

Lemma quiet_no_poll e : quiet e -> isPoll e = false.
Proof. destruct e; first [reflexivity | discriminate]. Qed.

(** What a call adds to the trace, behind the [EvCall]: no poll. *)
Lemma Request_tail c method link reqBody w o w' :
  Request c method link reqBody w = (o, w') ->
  exists tail, trace w' = trace w ++ EvCall method link reqBody :: tail /\
    forall d p, Pages.pausedFrom d p tail.
Proof.
  intros H. destruct (Request_adds c method link reqBody w) as (mid & Hmid & Hadds).
  rewrite H in Hadds.
  assert (Hq : Forall (fun e => isPoll e = false) mid)
    by (eapply Forall_impl; [exact Hmid|exact quiet_no_poll]).
  destruct o as [body| | |].
  - exists (mid ++ [EvReturn body]). split; [exact Hadds|]. intros d p.
    apply pausedFrom_no_poll. apply Forall_app. split; [exact Hq|]. repeat constructor.
  - exists mid. split; [exact Hadds|]. intros d p. apply pausedFrom_no_poll. exact Hq.
  - exists mid. split; [exact Hadds|]. intros d p. apply pausedFrom_no_poll. exact Hq.
  - exists mid. split; [exact Hadds|]. intros d p. apply pausedFrom_no_poll. exact Hq.
Qed.

Lemma wait_paused c data fuel : forall html w o w',
  DownloadC.wait c data fuel html w = (o, w') ->
  exists evs, trace w' = trace w ++ evs /\
    forall p, Pages.pausedFrom (EvSleep (seconds (Z.of_N (RetryDelay c)))) p evs.
Proof.
  induction fuel as [|fuel IH]; intros html w o w' H; cbn [DownloadC.wait] in H.
  - exists []. rewrite app_nil_r.
    destruct (Go.Contains html wStr1 || Go.Contains html wStr2); injection H as <- <-;
      (split; [reflexivity|intros p; exact I]).
  - destruct (Go.Contains html wStr1 || Go.Contains html wStr2);
      [|injection H as <- <-; exists []; rewrite app_nil_r; split; [reflexivity|intros p; exact I]].
    unfold pause in H. unfold bind at 1 in H. unfold Sleep at 1 in H.
    set (d := EvSleep (seconds (Z.of_N (RetryDelay c)))) in *.
    unfold bind in H.
    destruct (Request c "POST" cgi data (emit d w)) as [r w2] eqn:Hreq.
    destruct (Request_tail _ _ _ _ _ _ _ Hreq) as (tail & Htr & Htail).
    cbn [emit trace] in Htr.
    assert (Hturn : forall evs', (forall p, Pages.pausedFrom d p evs') ->
              forall p, Pages.pausedFrom d p (d :: EvCall "POST" cgi data :: tail ++ evs')).
    { intros evs' Hevs' p. cbn [Pages.pausedFrom]. split; [discriminate|].
      split; [reflexivity|]. apply pausedFrom_app; [apply Htail|exact Hevs']. }
    destruct r as [r| | |].
    + destruct (IH r w2 o w' H) as (evs' & Htr' & Hevs').
      exists (d :: EvCall "POST" cgi data :: tail ++ evs'). split; [|apply Hturn; exact Hevs'].
      rewrite Htr', Htr, <- !app_assoc. reflexivity.
    + injection H as <- <-. exists (d :: EvCall "POST" cgi data :: tail ++ []).
      split; [|apply Hturn; intros p; exact I].
      rewrite Htr, app_nil_r, <- !app_assoc. reflexivity.
    + injection H as <- <-. exists (d :: EvCall "POST" cgi data :: tail ++ []).
      split; [|apply Hturn; intros p; exact I].
      rewrite Htr, app_nil_r, <- !app_assoc. reflexivity.
    + injection H as <- <-. exists (d :: EvCall "POST" cgi data :: tail ++ []).
      split; [|apply Hturn; intros p; exact I].
      rewrite Htr, app_nil_r, <- !app_assoc. reflexivity.
Qed.

(** [X20] The polling interval.  In a run of the revision that waits on
    either marker, every poll comes right after a sleep of [RetryDelay]
    seconds: nothing happens between the end of that sleep and the call.
    For delays up to 292 years the sleep is [RetryDelay] seconds to the
    nanosecond. *)
Theorem polls_follow_the_pause c id fuel w o w' :
  DownloadC.DownloadReportCSV c id fuel w = (o, w') ->
  Pages.pausedFrom (EvSleep (seconds (Z.of_N (RetryDelay c)))) None (added w w') /\
  ((RetryDelay c < 9223372036)%N ->
   seconds (Z.of_N (RetryDelay c)) = Z.of_N (RetryDelay c) * 1000000000).
Proof.
  intros H. split.
  - set (d := EvSleep (seconds (Z.of_N (RetryDelay c)))).
    assert (Hrun : forall r w1, DownloadC.run c id fuel w = (r, w1) ->
              exists evs, trace w1 = trace w ++ evs /\ forall p, Pages.pausedFrom d p evs).
    { intros r w1 Hr. unfold DownloadC.run in Hr. unfold bind at 1 in Hr.
      destruct (Request c "GET" (reportLinkFromID id) EmptyString w) as [r0 w0] eqn:Hreq.
      destruct (Request_tail _ _ _ _ _ _ _ Hreq) as (tail & Htr & Htail).
      assert (Hget : forall p, Pages.pausedFrom d p
                (EvCall "GET" (reportLinkFromID id) EmptyString :: tail)).
      { intros p. cbn [Pages.pausedFrom]. split; [discriminate|apply Htail]. }
      destruct r0 as [html| | |];
        try (injection Hr as <- <-; eexists; split; [exact Htr|exact Hget]).
      destruct (Go.Contains html wStr1);
        [|injection Hr as <- <-; eexists; split; [exact Htr|exact Hget]].
      unfold bind, lift in Hr.
      destruct (DownloadC.postData html) as [data| | |];
        try (injection Hr as <- <-; eexists; split; [exact Htr|exact Hget]).
      destruct (wait_paused c data fuel html w0 r w1 Hr) as (evs & Htr' & Hevs).
      exists ((EvCall "GET" (reportLinkFromID id) EmptyString :: tail) ++ evs).
      split; [rewrite Htr', Htr, <- app_assoc; reflexivity|].
      intros p. apply pausedFrom_app; [apply Hget|exact Hevs]. }
    unfold DownloadC.DownloadReportCSV in H. unfold bind in H.
    destruct (DownloadC.run c id fuel w) as [r w1] eqn:Hr.
    destruct (Hrun r w1 eq_refl) as (evs & Htr & Hevs).
    destruct r as [html| | |];
      try (injection H as <- <-; rewrite (added_app _ _ _ Htr); apply Hevs).
    unfold finish in H. destruct (downloadLink html) as [u|].
    + destruct (Request_tail _ _ _ _ _ _ _ H) as (tail & Htr' & Htail).
      rewrite (added_app w w' (evs ++ EvCall "GET" u EmptyString :: tail))
        by (rewrite Htr', Htr, <- app_assoc; reflexivity).
      apply pausedFrom_app; [apply Hevs|]. intros p. cbn [Pages.pausedFrom].
      split; [discriminate|apply Htail].
    + destruct (Go.Contains html promptingStr); injection H as <- <-;
        rewrite (added_app _ _ _ Htr); apply Hevs.
  - intros Hsmall. unfold seconds.
    assert (Hw : forall z, - 2 ^ 63 <= z < 2 ^ 63 -> Go.wrap64 z = z).
    { intros z Hz. unfold Go.wrap64. rewrite Z.mod_small by lia. lia. }
    rewrite (Hw (Z.of_N (RetryDelay c))) by lia. apply Hw. lia.
Qed.

Lemma polls_follow_the_pause_witness :
  let w := fresh [page "working" "0"; page "working" "1"; linkPage; "a,b"] in
  let w' := (DownloadC.DownloadReportCSV demo "rep-7" 5 w).2 in
  DownloadC.DownloadReportCSV demo "rep-7" 5 w = (Ret "a,b", w') /\
  Pages.pausedFrom (EvSleep 5000000000) None (added w w') /\
  length (polls (added w w')) = 2%nat.
Proof.
  intros w w'.
  assert (H : DownloadC.DownloadReportCSV demo "rep-7" 5 w = (Ret "a,b", w'))
    by (vm_compute; reflexivity).
  split; [exact H|]. split; [|vm_compute; reflexivity].
  exact (proj1 (polls_follow_the_pause demo "rep-7" 5 w (Ret "a,b") w' H)).
Defined.
